(* ===== verification/_CoqProject ===== *)
-Q . S2P
Prelude.v
PyInt.v
Paginator.v
Models.v
Migrations.v
Http.v
Forms.v
Views.v
Listings.v
Follows.v
Posting.v
Cache.v
App.v
Scenarios.v
Concurrency.v
CreateRace.v
