(* ===== verification/Prelude.v ===== *)
(** * Yatube: a verification development of the [posts] application

    This library models the blogging application of the repository
    (Django project [yatube], application [posts]) and proves the
    properties that make its views correct.  The code under
    [src/yatube/posts/] is a thin layer of Django view functions
    ([views.py]) over the ORM, a paginator helper and the page cache,
    one migration ([migrations/0003_auto_20230118_1654.py]) and three
    test files ([tests/]).  The views are translated line by line into
    state-passing functions over a finite model of the database; the
    framework code they call (paginator, ORM queries, forms,
    [login_required], [cache_page], the URL patterns) is modelled from
    the spec and the framework's documented behaviour.

    ** Parts of the program, and the files that model them

    - [Prelude.v] (this file): the [result] error type with its monad
      instances, Python-style slicing, a reflexive-transitive closure
      [star] with its induction principle for invariants, [QueryDict],
      the hint databases [yatube] and [yatube_rw] and the tactics.
    - [PyInt.v], Module [PyInt]: Python's [int(str)] (whitespace strip,
      sign, digits with single underscores) and [str(int)], with the
      round trip [py_int (py_str z) = Some z].
    - [Paginator.v], Module [Paginator]: [core.views.page_paginator] and
      Django 2.2's [Paginator] ([validate_number], [page], [get_page],
      [num_pages], the [Page] methods) on [Z] with Python's floor
      division, and an abstract page specification [spec_page] (page
      [k] holds the items at positions [[(k-1)N, kN)], absent or
      non-integer numbers give page 1, out-of-range ones the last
      page).  [page_paginator_refines] proves the implementation equal
      to the specification for every [per_page > 0]; the pages
      partition the list.
    - [Models.v], Module [Models]: the tables of [User], [Group],
      [Post], [Comment] and [Follow] as [gmap]s keyed by primary key,
      with key counters and a clock (seconds); every ORM query and write
      the views issue ([Post.objects.all()], [group.posts.all()], the
      join [author__following__user], [exists()], [get()], [create()],
      [save()], [delete()]) and the cascade of migration 0003; the store
      invariant [wf] (keys, foreign keys, unique usernames, slugs and
      follow pairs) and that every write keeps it.
    - [Migrations.v], Module [Migrations]: migration 0003 as data (its
      [dependencies] and its [AlterField] of [Post.group]), applied to
      the project state's foreign keys as [state_forwards] does, and
      Django's deletion collector acting on each key's [on_delete]
      ([CASCADE], [PROTECT], [SET_NULL], [DO_NOTHING]).
    - [Http.v], Module [Http]: requests, responses, the view monad [M]
      (state and exceptions; an exception keeps earlier writes),
      [get_object_or_404], [login_required], the reversed URLs and
      [handle], which turns [Http404] into a 404 and any other uncaught
      exception into a 500.
    - [Forms.v], Module [Forms]: [PostForm] and [CommentForm] built from
      [request.POST or None] and [request.FILES or None], their cleaning
      ([CharField] with strip, [ModelChoiceField], [ImageField]) and
      [save].
    - [Views.v], Module [Views]: what the views share: the constants
      [POST_ON_PAGE], [POST_ON_PROFILE], [CHAR_IN_POST], the template
      contexts (one builder per [context = {...}] of [views.py]), the
      paginator call, the forms' [is_valid()], and the judgement
      [response_typed] of what a template may assume of its context.
    - The ten views of [views.py], one definition each, composed as the
      code composes them, are defined in the file of their theorems:
      [Listings.v] ([index], [group_posts], [profile], [follow_index]),
      [Follows.v] ([profile_follow], [profile_unfollow]) and
      [Posting.v] ([post_detail], [post_create], [post_edit],
      [add_comment]).
    - [Cache.v], Module [Cache]: [cache_page] stated against the
      interface [CacheService] with its laws [CacheLaws]; the
      local-memory backend [LocMem] is an instance.  [index_cached] is
      [index] under [@cache_page(1 * 20, key_prefix='index_page')].
    - [App.v], Module [App]: the URL patterns ([resolve], with Django's
      [slug], [str] and [int] converters), [dispatch] (the index through
      its cache, at the clock's time), and the transition relation
      [step] of the whole site: requests, clock ticks, sign-ups, group
      creation and deletion, [cache.clear()].
    - [Scenarios.v], Module [Scenarios]: every test case of [tests/] as
      an executable scenario on the model.
    - [Concurrency.v], Module [Concurrency]: [profile_follow] and
      [profile_unfollow] split into their three ORM statements each, two
      requests interleaved statement by statement under a schedule, and
      the scheduler as a step relation; the section [Scheduler] is
      generic in the two requests, with termination proved from a
      progress measure each request's statements decrease.
    - [CreateRace.v], Module [CreateRace]: [post_create] split into
      [form.is_valid()] and [temp_form.save()] (an INSERT the foreign key
      constraint on [group_id] may refuse), racing an administrator's
      group deletion under the same scheduler.

    ** The theorems (claims C1 to C36)

    - Listing views (C1-C10, [Listings.v]): each listing renders the
      page of the abstract specification of its query, or a 404 or the
      login redirect; which posts a listing shows on some page (all on
      the index, exactly the group's on its page, the author's on the
      profile, the followed authors' on the feed); pages are sorted
      newest first; the feed shows no post twice in a well-formed store.
    - Following (C11, C13-C14, [Follows.v]): a follow leaves exactly
      one row however often repeated and a self follow changes nothing,
      unfollowing a non-followed author is a 500, unfollowing removes
      the row.
    - A creation racing a group deletion (C12, [CreateRace.v]): either
      serial order answers normally, the interleaving between
      [is_valid()] and [save()] answers a 500.
    - Writing views (C15-C22, [Posting.v]): anonymous requests are sent
      to the login page with [next] the full requested path and write
      nothing, comments are saved or silently dropped, only the author
      edits, creation and editing save exactly the cleaned fields,
      [post_detail] on every branch.
    - The cache (C23-C24, [Cache.v]): the 20 second window and the
      refresh after expiry or [cache.clear()], for any backend that
      satisfies [CacheLaws].
    - The migration (C25, [Migrations.v]): on the state migration 0003
      produces, [Post.group] is a nullable cascading key, and the
      deletion collector deletes a group, its posts and their comments
      exactly as [Models.delete_group] does, keeping the invariant.
    - The site (C26, [App.v]): every reachable state is well formed and
      nobody follows themselves (induction on [star step]).
    - Types (C27, [App.v]): every response served from a reachable
      state, cached pages included, is well typed ([response_typed]):
      a context reaches its view's template, a [page_obj] is the page
      [Paginator.page] builds for its number with 10 posts per page,
      a post page's comments are the post's, an edit form is bound to
      its post.
    - Concurrency (C28-C30, [Concurrency.v]): a follow racing an
      unfollow keeps the store well formed under every schedule; the
      schedule in which two follow requests both check before either
      inserts leaves two rows for the pair and breaks [wf]; with two
      rows, unfollowing is a 500 (C30, [Follows.v]).
    - Round trip (C31, [App.v]): every redirect the site answers with
      is the login page for an anonymous visitor, or a URL that
      [resolve] reads back to exactly the route the view's
      [redirect(...)] names.
    - Equivalence (C32, [Listings.v]): in a well-formed store the feed's
      join answers as a reference view that filters with [exists()].
    - Bounds and boundary inputs (C33-C34, [Listings.v]): a page holds at
      most 10 posts; a page number below 1 or past the end shows the
      last page.
    - Form errors (C35, [Posting.v]): a post naming no existing group or
      uploading a non-image is refused with that field's error and
      nothing is saved.
    - Liveness (C36, [App.v]): from every reachable state a user can
      come to follow any other user with one request.

    Further lemmas, not claims: the test suite of [tests/] runs on the
    model ([Scenarios.test_suite_pass], a computation on the tests'
    fixtures); a serial schedule of two statement-level requests is the
    two atomic views in sequence ([Concurrency.serial_schedule_atomic]);
    under the session-user cache key, a page cached for one session is
    not served to another ([Cache.index_cache_per_session]).  The views
    have no loops, so termination is not a property of this program: the
    scheduler's termination ([Concurrency.scheduler_terminates]) only
    says each request runs a bounded number of statements.

    ** Bounds and fuel

    Every recursive definition is structural (lists, strings, [nat]); no
    fuel is needed.  Page numbers and sizes are Python integers ([Z]);
    the page size is the code's constant 10 ([POST_ON_PAGE],
    [POST_ON_PROFILE]); the cache timeout is the code's [1 * 20]
    seconds against a [nat] clock.  Keys are [nat] counters, which do
    not wrap, as database sequences do not in practice.

    ** Not modelled

    Templates (a response carries its template name and context, and
    equal responses render equal content); login, logout and session
    storage (only [request.user] and the login redirect); image storage
    and decoding (an upload is an image or not; Django's renaming of a
    taken file name is not modelled); the raw [QUERY_STRING] (modelled as
    the parsed pairs joined by [&], without the client's own
    percent-encoding); the [Vary] headers of the cache
    beyond the session user; non-ASCII digits and whitespace in [int()];
    the order of rows with equal date and key (ties are broken by key,
    newest first);
    concurrency between views other than [profile_follow],
    [profile_unfollow] and [post_create] (the others read, or write in
    one statement after a lookup; in [App.v] each request is one atomic
    step); the import lines of [views.py];
    what migration 0003 does to the database tables (the schema change
    of its [ALTER]) beyond the project state of foreign keys, and the
    [KeyError] of [AlterField] on a model the state lacks. *)

From stdpp Require Export base list gmap strings sorting.
From Stdlib Require Export ZArith Lia.

Declare Scope yatube_scope.
Delimit Scope yatube_scope with yt.

(** ** Results: a value or a raised exception *)

(** A Python call either returns a value or raises; [result E A] is the
    sum of the two, with [E] the exceptions the call can raise. *)
Inductive result (E A : Type) : Type :=
| Ok (a : A)
| Err (e : E).
Arguments Ok {E A} a.
Arguments Err {E A} e.

#[export] Instance result_eq_dec {E A} `{EqDecision E, EqDecision A} : EqDecision (result E A).
Proof. solve_decision. Defined.

#[export] Instance result_ret {E} : MRet (result E) := fun _ a => Ok a.
#[export] Instance result_bind {E} : MBind (result E) :=
  fun _ _ f r => match r with Ok a => f a | Err e => Err e end.

#[export] Instance result_fmap {E} : FMap (result E) :=
  fun _ _ f r => match r with Ok a => Ok (f a) | Err e => Err e end.

Lemma result_bind_Ok {E A B} (a : A) (f : A -> result E B) :
  (Ok a ≫= f) = f a.
Proof. reflexivity. Qed.

Lemma result_bind_Err {E A B} (e : E) (f : A -> result E B) :
  (Err e ≫= f) = Err e.
Proof. reflexivity. Qed.

(** ** Python list slicing [l[b:t]] for [0 <= b] *)

Definition slice {A} (b t : nat) (l : list A) : list A :=
  take (t - b) (drop b l).

Lemma length_slice {A} b t (l : list A) :
  length (slice b t l) = (t - b) `min` (length l - b).
Proof. unfold slice. rewrite length_take, length_drop. lia. Qed.

Lemma slice_app {A} a b c (l : list A) :
  a <= b -> b <= c -> slice a b l ++ slice b c l = slice a c l.
Proof.
  intros Hab Hbc. unfold slice.
  replace (drop b l) with (drop (b - a) (drop a l))
    by (rewrite drop_drop; f_equal; lia).
  rewrite take_take_drop. f_equal. lia.
Qed.

Lemma slice_full {A} b (l : list A) :
  length l <= b -> slice 0 b l = l.
Proof. intros H. unfold slice. rewrite drop_0, take_ge; [done | lia]. Qed.

Lemma lookup_slice {A} b t (l : list A) i :
  i < t - b -> slice b t l !! i = l !! (b + i).
Proof. intros H. unfold slice. rewrite lookup_take_lt by lia. apply lookup_drop. Qed.

(** Python's [l[b:t]] for any integers: a negative index counts from
    the end, and both ends are clamped to [[0, len(l)]]. *)
Definition py_index (len i : Z) : Z :=
  if bool_decide (i < 0)%Z then Z.max 0 (i + len) else Z.min i len.

Definition py_slice {A} (b t : Z) (l : list A) : list A :=
  let n := Z.of_nat (length l) in
  slice (Z.to_nat (py_index n b)) (Z.to_nat (py_index n t)) l.

Lemma slice_clamp {A} b t (l : list A) :
  slice (b `min` length l) (t `min` length l) l = slice b t l.
Proof.
  unfold slice. destruct (decide (b <= length l)).
  - rewrite (Nat.min_l b) by lia.
    destruct (decide (t <= length l)); [by rewrite Nat.min_l by lia|].
    rewrite Nat.min_r by lia. rewrite !take_ge; [done|rewrite length_drop; lia..].
  - rewrite (Nat.min_r b) by lia. rewrite !drop_ge by lia. by rewrite !take_nil.
Qed.

Lemma slice_top_ge {A} b t (l : list A) :
  length l <= t -> slice b t l = slice b (length l) l.
Proof.
  intros Ht. rewrite <-slice_clamp, <-(slice_clamp b (length l)).
  by rewrite (Nat.min_r t), Nat.min_id by lia.
Qed.

Lemma py_index_nonneg (n i : Z) :
  (0 <= i)%Z -> py_index n i = Z.min i n.
Proof. intros Hi. unfold py_index. by rewrite bool_decide_false by lia. Qed.

Lemma py_slice_nonneg {A} (b t : Z) (l : list A) :
  (0 <= b)%Z -> (0 <= t)%Z -> py_slice b t l = slice (Z.to_nat b) (Z.to_nat t) l.
Proof.
  intros Hb Ht. unfold py_slice. rewrite !py_index_nonneg by done.
  rewrite !Z2Nat.inj_min, !Nat2Z.id. apply slice_clamp.
Qed.

(** A join whose right side yields at most one row per left row is a
    filter of the left side, in the same order. *)
Lemma bind_at_most_one {A B} (l : list A) (g : A -> list B) :
  (forall x, x ∈ l -> g x = [] \/ exists y, g x = [y]) ->
  (l ≫= fun x => (fun _ => x) <$> g x) = filter (fun x => g x <> []) l.
Proof.
  induction l as [|x l IH]; intros Hl; [done|].
  rewrite bind_cons, IH by (intros; apply Hl; set_solver).
  destruct (Hl x ltac:(set_solver)) as [Hx|[y Hx]]; rewrite Hx; simpl.
  - rewrite filter_cons_False; [done|]. rewrite Hx. tauto.
  - rewrite filter_cons_True; [done|]. by rewrite Hx.
Qed.

Lemma StronglySorted_sublist {A} (R : relation A) (l1 l2 : list A) :
  l1 `sublist_of` l2 -> StronglySorted R l2 -> StronglySorted R l1.
Proof.
  induction 1 as [|x l1 l2 Hsub IH|x l1 l2 Hsub IH]; [done|..];
    intros [Hs Hf]%StronglySorted_inv.
  - constructor; [by apply IH|]. rewrite Forall_forall in *. intros y Hy. apply Hf.
    by eapply elem_of_sublist.
  - by apply IH.
Qed.

Lemma slice_sublist {A} b t (l : list A) : slice b t l `sublist_of` l.
Proof.
  unfold slice. etrans; [apply sublist_take|apply sublist_drop].
Qed.

(** ** Transition sequences *)

(** Zero or more steps of a transition relation. *)
Inductive star {A} (R : A -> A -> Prop) : A -> A -> Prop :=
| star_refl a : star R a a
| star_step a b c : R a b -> star R b c -> star R a c.

Lemma star_invariant {A} (R : A -> A -> Prop) (I : A -> Prop) a b :
  (forall x y, I x -> R x y -> I y) -> I a -> star R a b -> I b.
Proof. intros Hstep Ha Hs. induction Hs; eauto. Qed.

Lemma star_snoc {A} (R : A -> A -> Prop) a b c : star R a b -> R b c -> star R a c.
Proof. induction 1; intros; econstructor; eauto using star_refl. Qed.

Lemma length_omap_le {A B} (f : A -> option B) (l : list A) : length (omap f l) <= length l.
Proof. induction l as [|x l IH]; cbn; [lia|]. destruct (f x); cbn; lia. Qed.

(** [s + ""] is [s]; [String.append] does not simplify by itself. *)
Lemma string_app_nil_r (s : string) : s +:+ "" = s.
Proof.
  induction s as [|c r IH]; [done|].
  change (String c r +:+ "") with (String c (r +:+ "")). by rewrite IH.
Qed.

(** ** Django's [QueryDict.get(key)]: the last value given for [key] *)

Module QueryDict.
Definition t := list (string * string).

Definition get (q : t) (k : string) : option string :=
  foldl (fun acc kv => if bool_decide (kv.1 = k) then Some kv.2 else acc) None q.
End QueryDict.

(** ** Shared automation *)

Create HintDb yatube.
Create Rewrite HintDb yatube_rw.
#[export] Hint Rewrite @result_bind_Ok @result_bind_Err : yatube_rw.
#[export] Hint Rewrite @length_slice : yatube_rw.

Ltac invc H := inversion H; subst; clear H.

(** Split every [if] and [match] on a boolean test of the goal and of
    the hypotheses, turning [bool_decide] into propositions. *)
Ltac case_tests :=
  repeat match goal with
  | |- context [bool_decide ?P] => case_bool_decide
  | H : context [bool_decide ?P] |- _ => case_bool_decide
  | |- context [decide ?P] => case_decide
  | H : context [decide ?P] |- _ => case_decide
  end.

Ltac simpl_yt := autorewrite with yatube_rw in *; simpl in *.
