(* ===== verification/PyInt.v ===== *)
(** * Python's [int(s)] and [str(n)] on decimal strings

    The page number of every listing ([request.GET.get('page')]) and the
    primary keys of the URLs ([/posts/<id>/]) cross the program as
    strings.  Django's paginator converts the page parameter with
    Python's [int()], and [reverse()] prints an id with [str()].  This
    file models both on ASCII strings: [int()] strips surrounding
    whitespace, accepts one optional sign and decimal digits separated by
    single underscores, and raises [ValueError] (here [None]) on anything
    else; [str()] is stdpp's [pretty] on [Z], which prints the same
    decimal form.  Non-ASCII digits, which Python also accepts, are not
    modelled. *)

From S2P Require Import Prelude.
From stdpp Require Import pretty.
From Stdlib Require Import Ascii.

Module PyInt.

(** Python's [str.isspace] on ASCII characters. *)
Definition is_space (c : ascii) : bool :=
  bool_decide (c ∈ [" "; "009"; "010"; "011"; "012"; "013"; "028"; "029"; "030"; "031"]%char).

Definition digit_value (c : ascii) : option Z :=
  let n := nat_of_ascii c in
  if bool_decide (48 <= n <= 57)%nat then Some (Z.of_nat n - 48)%Z else None.

Fixpoint lstrip (s : string) : string :=
  match s with
  | EmptyString => EmptyString
  | String c r => if is_space c then lstrip r else s
  end.

Fixpoint rstrip (s : string) : string :=
  match s with
  | EmptyString => EmptyString
  | String c r =>
      let r' := rstrip r in
      match r' with
      | EmptyString => if is_space c then EmptyString else String c EmptyString
      | _ => String c r'
      end
  end.

Definition strip (s : string) : string := rstrip (lstrip s).

(** Digits with single underscores between them; [after_digit] records
    that the previous character was a digit, so that an underscore may
    follow and the string may end. *)
Fixpoint parse_digits (acc : Z) (after_digit : bool) (s : string) : option Z :=
  match s with
  | EmptyString => if after_digit then Some acc else None
  | String c r =>
      match digit_value c with
      | Some d => parse_digits (acc * 10 + d)%Z true r
      | None =>
          if after_digit && bool_decide (c = "_"%char)
          then parse_digits acc false r else None
      end
  end.

Definition parse_signed (s : string) : option Z :=
  match s with
  | String "-" r => Z.opp <$> parse_digits 0 false r
  | String "+" r => parse_digits 0 false r
  | _ => parse_digits 0 false s
  end.

(** [int(s)] for a [str] argument; [None] is the [ValueError]. *)
Definition py_int (s : string) : option Z := parse_signed (strip s).

(** [str(n)] for an [int]. *)
Definition py_str (n : Z) : string := pretty n.

(** [c in "0123456789"]: the ASCII digits, those of [digit_value]. *)
Definition is_digit (c : ascii) : bool := bool_decide (48 <= nat_of_ascii c <= 57).

(** Every character of [s] satisfies [f]. *)
Fixpoint all_chars (f : ascii -> bool) (s : string) : bool :=
  match s with EmptyString => true | String c r => f c && all_chars f r end.

(** ** Lemmas *)

Lemma all_chars_impl (f g : ascii -> bool) s :
  (forall c, f c = true -> g c = true) -> all_chars f s = true -> all_chars g s = true.
Proof.
  intros Hfg. induction s as [|c r IH]; [done|]. cbn. intros [Hc Hr]%andb_prop.
  by rewrite Hfg, IH.
Qed.

Definition no_space : string -> bool := all_chars (fun c => negb (is_space c)).

Lemma lstrip_no_space s : no_space s = true -> lstrip s = s.
Proof.
  destruct s as [|c r]; simpl; [done|].
  intros [Hc _]%andb_prop. by destruct (is_space c).
Qed.

Lemma rstrip_no_space s : no_space s = true -> rstrip s = s.
Proof.
  induction s as [|c r IH]; simpl; [done|].
  intros [Hc Hr]%andb_prop. rewrite IH by done.
  destruct r; [by destruct (is_space c)|done].
Qed.

Lemma strip_no_space s : no_space s = true -> strip s = s.
Proof. intros H. unfold strip. by rewrite lstrip_no_space, rstrip_no_space. Qed.

Lemma pretty_N_char_digit x :
  (x < 10)%N -> digit_value (pretty_N_char x) = Some (Z.of_N x).
Proof.
  intros Hx.
  assert (x = 0 ∨ x = 1 ∨ x = 2 ∨ x = 3 ∨ x = 4 ∨ x = 5 ∨ x = 6
          ∨ x = 7 ∨ x = 8 ∨ x = 9)%N as Hcases by lia.
  by repeat destruct Hcases as [->|Hcases]; [..|subst].
Qed.

Lemma pretty_N_char_no_space x : is_space (pretty_N_char x) = false.
Proof. unfold pretty_N_char. by repeat case_match. Qed.

Lemma pretty_N_char_digit_char x : is_digit (pretty_N_char x) = true.
Proof. unfold pretty_N_char. by repeat case_match. Qed.

(** [pretty_N_go] prepends characters of [pretty_N_char] only. *)
Lemma pretty_N_go_all (f : ascii -> bool) x s :
  (forall d, f (pretty_N_char d) = true) -> all_chars f s = true ->
  all_chars f (pretty_N_go x s) = true.
Proof.
  intros Hf. revert s. induction (N.lt_wf_0 x) as [x _ IH]; intros s Hs.
  destruct (decide (x = 0)%N) as [->|Hx]; [by rewrite pretty_N_go_0|].
  rewrite pretty_N_go_step by lia. apply IH; [apply N.div_lt; lia|].
  simpl. by rewrite Hf, Hs.
Qed.

Lemma pretty_N_go_no_space x s :
  no_space s = true -> no_space (pretty_N_go x s) = true.
Proof.
  apply pretty_N_go_all. intros d. by rewrite pretty_N_char_no_space.
Qed.

(** Reading back the digits [pretty_N_go] prepends shifts the
    accumulator by some power of ten and adds the number. *)
Lemma parse_pretty_N_go x s acc b :
  (0 < x)%N ->
  exists k : nat, parse_digits acc b (pretty_N_go x s)
            = parse_digits (acc * 10 ^ Z.of_nat k + Z.of_N x)%Z true s.
Proof.
  revert s acc b. induction (N.lt_wf_0 x) as [x _ IH]; intros s acc b Hx.
  rewrite pretty_N_go_step by done.
  pose proof (N.mod_lt x 10) as Hmod. pose proof (N.div_mod x 10) as Hdm.
  destruct (decide (x `div` 10 = 0)%N) as [Hd|Hd].
  - rewrite Hd, pretty_N_go_0. exists 1%nat. simpl.
    rewrite pretty_N_char_digit by lia. f_equal. lia.
  - destruct (IH (x `div` 10)%N ltac:(apply N.div_lt; lia)
                (String (pretty_N_char (x `mod` 10)) s) acc b ltac:(lia))
      as [k Hk].
    exists (S k). rewrite Hk. simpl. rewrite pretty_N_char_digit by lia.
    f_equal. rewrite Nat2Z.inj_succ, Z.pow_succ_r by lia. lia.
Qed.

Lemma pretty_N_go_head x s :
  (0 < x)%N -> exists c r d, pretty_N_go x s = String c r /\ digit_value c = Some d.
Proof.
  revert s. induction (N.lt_wf_0 x) as [x _ IH]; intros s Hx.
  rewrite pretty_N_go_step by done. pose proof (N.mod_lt x 10) as Hmod.
  destruct (decide (x `div` 10 = 0)%N) as [Hd|Hd].
  - rewrite Hd, pretty_N_go_0. eexists _, _, _. split; [done|].
    apply pretty_N_char_digit. lia.
  - apply IH. { apply N.div_lt; lia. } apply N.neq_0_lt_0. exact Hd.
Qed.

Lemma parse_signed_digit c r d :
  digit_value c = Some d -> parse_signed (String c r) = parse_digits 0 false (String c r).
Proof.
  intros Hc. destruct (decide (c = "-"%char)) as [->|Hm]; [done|].
  destruct (decide (c = "+"%char)) as [->|Hp]; [done|].
  unfold parse_signed. by repeat case_match; simplify_eq.
Qed.

Lemma parse_signed_minus r :
  parse_signed ("-" +:+ r) = Z.opp <$> parse_digits 0 false r.
Proof. reflexivity. Qed.

Lemma parse_pretty_N_pos x :
  (0 < x)%N -> parse_digits 0 false (pretty_N_go x "") = Some (Z.of_N x).
Proof. intros Hx. destruct (parse_pretty_N_go x "" 0 false Hx) as [k ->]. done. Qed.

Lemma no_space_pretty_N_go x : no_space (pretty_N_go x "") = true.
Proof. by apply pretty_N_go_no_space. Qed.

(** [str(n)] of a natural number is a non-empty string of digits. *)
Lemma py_str_digits (n : nat) :
  py_str (Z.of_nat n) <> "" /\ all_chars is_digit (py_str (Z.of_nat n)) = true.
Proof.
  unfold py_str, pretty, pretty_Z. destruct (Z.of_nat n) as [|p|p] eqn:Hn; [done| |lia].
  unfold pretty, pretty_positive, pretty, pretty_N. rewrite decide_False by done.
  split.
  - destruct (pretty_N_go_head (Npos p) "" ltac:(lia)) as (c & r & d & -> & _). done.
  - apply pretty_N_go_all; [apply pretty_N_char_digit_char|done].
Qed.

(** ** Properties *)

(** Printing an integer with [str()] and reading it back with
    [int()] gives the integer: the page links [?page=<n>] and the ids of
    the URLs read back as the numbers that were printed. *)
Theorem py_int_py_str (z : Z) : py_int (py_str z) = Some z.
Proof.
  unfold py_int, py_str, pretty, pretty_Z.
  destruct z as [|p|p]; [done|..]; unfold pretty, pretty_positive, pretty, pretty_N.
  all: rewrite decide_False by done.
  - rewrite strip_no_space by apply no_space_pretty_N_go.
    destruct (pretty_N_go_head (Npos p) "" ltac:(lia)) as (c & r & d & Hcr & Hd).
    rewrite Hcr, (parse_signed_digit _ _ _ Hd), <-Hcr.
    by rewrite parse_pretty_N_pos by lia.
  - rewrite strip_no_space by (simpl; apply no_space_pretty_N_go).
    rewrite parse_signed_minus, parse_pretty_N_pos by lia. done.
Qed.

Example py_int_spaces : py_int " 12 " = Some 12%Z.
Proof. reflexivity. Qed.
Example py_int_underscore : py_int "1_000" = Some 1000%Z.
Proof. reflexivity. Qed.
Example py_int_rejects : py_int "two" = None /\ py_int "" = None /\ py_int "1__0" = None
  /\ py_int "_1" = None /\ py_int "1_" = None /\ py_int "- 1" = None.
Proof. vm_compute. tauto. Qed.
Example py_int_negative : py_int "-3" = Some (-3)%Z /\ py_int "+0" = Some 0%Z.
Proof. vm_compute. tauto. Qed.

End PyInt.
