(* ===== verification/Paginator.v ===== *)
(** * Pagination: [core.views.page_paginator] and Django's [Paginator]

    Every listing view of [views.py] calls
    [cv.page_paginator(request, <queryset>, 10)], which builds
    [Paginator(<queryset>, 10)] and returns
    [paginator.get_page(request.GET.get('page'))].  The helper lives in
    [core/views.py], outside the sources, and the paginator in Django
    2.2 (the version the migrations were generated with): both are
    modelled from the spec and from Django's documented code, whose
    structure the definitions follow ([validate_number], [page],
    [get_page], [num_pages], the [Page] methods).

    The theorems show that [get_page] never raises for a positive page
    size, that it refines an index-based specification of pages, that
    [has_next] tells whether items remain, that absent or non-integer
    numbers give page 1 and out-of-range ones the last page, and that
    the pages partition the list. *)

From S2P Require Import Prelude PyInt.

Module Paginator.

(** The exceptions [Paginator] raises: [PageNotAnInteger] and
    [EmptyPage] (both [InvalidPage]), and the [ZeroDivisionError] of
    [num_pages] when [per_page = 0]. *)
Inductive PaginatorError :=
| PageNotAnInteger
| EmptyPage
| ZeroDivisionError.

#[export] Instance PaginatorError_eq_dec : EqDecision PaginatorError.
Proof. solve_decision. Qed.

(** The page number handed to [validate_number]: [None] (absent query
    parameter), a [str], or an [int]. *)
Inductive PageArg :=
| ArgNone
| ArgStr (s : string)
| ArgInt (n : Z).

Record Paginator (A : Type) := mkPaginator {
  object_list : list A;
  per_page : Z;
  orphans : Z;
  allow_empty_first_page : bool
}.
Arguments mkPaginator {A} _ _ _ _.
Arguments object_list {A} _.
Arguments per_page {A} _.
Arguments orphans {A} _.
Arguments allow_empty_first_page {A} _.

Record Page (A : Type) := mkPage {
  page_object_list : list A;
  page_number : Z;
  paginator : Paginator A
}.
Arguments mkPage {A} _ _ _.
Arguments page_object_list {A} _.
Arguments page_number {A} _.
Arguments paginator {A} _.

#[export] Instance Paginator_eq_dec {A} `{EqDecision A} : EqDecision (Paginator A).
Proof. solve_decision. Defined.
#[export] Instance Page_eq_dec {A} `{EqDecision A} : EqDecision (Page A).
Proof. solve_decision. Defined.

Section Paginator.
Context {A : Type}.
Implicit Types (p : Paginator A) (pg : Page A).

Definition count p : Z := Z.of_nat (length (object_list p)).

(** [ceil(hits / per_page)]; Python's [math.ceil] of the quotient is
    [-((-hits) // per_page)] with floor division. *)
Definition num_pages_val p : Z :=
  if bool_decide (count p = 0%Z) && negb (allow_empty_first_page p) then 0%Z
  else let hits := Z.max 1 (count p - orphans p) in
       (- ((- hits) `div` per_page p))%Z.

Definition num_pages p : result PaginatorError Z :=
  if bool_decide (count p = 0%Z) && negb (allow_empty_first_page p) then Ok 0%Z
  else if bool_decide (per_page p = 0%Z) then Err ZeroDivisionError
  else Ok (num_pages_val p).

(** [int(number)], with [TypeError] and [ValueError] as [None]. *)
Definition to_int (arg : PageArg) : option Z :=
  match arg with
  | ArgNone => None
  | ArgStr s => PyInt.py_int s
  | ArgInt n => Some n
  end.

Definition validate_number p (arg : PageArg) : result PaginatorError Z :=
  match to_int arg with
  | None => Err PageNotAnInteger
  | Some number =>
      if bool_decide (number < 1)%Z then Err EmptyPage
      else np ← num_pages p;
           if bool_decide (np < number)%Z then
             if bool_decide (number = 1%Z) && allow_empty_first_page p
             then Ok number else Err EmptyPage
           else Ok number
  end.

Definition page p (number : Z) : result PaginatorError (Page A) :=
  number ← validate_number p (ArgInt number);
  let bottom := ((number - 1) * per_page p)%Z in
  let top := (bottom + per_page p)%Z in
  let top := if bool_decide (count p <= top + orphans p)%Z then count p else top in
  Ok (mkPage (py_slice bottom top (object_list p)) number p).

Definition get_page p (arg : PageArg) : result PaginatorError (Page A) :=
  match validate_number p arg with
  | Ok number => page p number
  | Err PageNotAnInteger => page p 1
  | Err EmptyPage => np ← num_pages p; page p np
  | Err e => Err e
  end.

(** The methods of [Page] the templates use. *)
Definition has_next pg : bool :=
  bool_decide (page_number pg < num_pages_val (paginator pg))%Z.
Definition has_previous pg : bool := bool_decide (1 < page_number pg)%Z.
Definition has_other_pages pg : bool := has_previous pg || has_next pg.
Definition start_index pg : Z :=
  if bool_decide (count (paginator pg) = 0%Z) then 0%Z
  else (per_page (paginator pg) * (page_number pg - 1) + 1)%Z.
Definition end_index pg : Z :=
  if bool_decide (page_number pg = num_pages_val (paginator pg))
  then count (paginator pg)
  else (page_number pg * per_page (paginator pg))%Z.

End Paginator.

(** [core.views.page_paginator(request, posts, num)]. *)
Definition page_paginator {A} (GET : QueryDict.t) (posts : list A) (num : Z)
    : result PaginatorError (Page A) :=
  let arg := match QueryDict.get GET "page" with
             | None => ArgNone | Some s => ArgStr s end in
  get_page (mkPaginator posts num 0 true) arg.

(** ** The abstract specification of a page

    For a list of length [len] cut into pages of [N] items: there are
    [max 1 ⌈len/N⌉] pages; a requested number that is absent or not an
    integer selects page 1, one out of range the last page; page [k]
    holds the items at positions [(k-1)N .. kN-1] that exist. *)
Section Spec.
Context {A : Type}.

Definition spec_num_pages (len N : nat) : nat := 1 `max` ((len + N - 1) `div` N).

Definition spec_number (len N : nat) (requested : option Z) : nat :=
  match requested with
  | None => 1
  | Some n =>
      if bool_decide (1 <= n <= Z.of_nat (spec_num_pages len N))%Z
      then Z.to_nat n else spec_num_pages len N
  end.

Definition spec_items (l : list A) (N k : nat) : list A :=
  omap (fun i => l !! i) (seq ((k - 1) * N) N).

(** The page a listing of [ps] shows for the query [GET], [N] items per
    page. *)
Definition spec_page (GET : QueryDict.t) (ps : list A) (N : nat) : Page A :=
  let k := spec_number (length ps) N (QueryDict.get GET "page" ≫= PyInt.py_int) in
  mkPage (spec_items ps N k) (Z.of_nat k) (mkPaginator ps (Z.of_nat N) 0 true).

End Spec.

(** ** Arithmetic of the page count *)

Lemma ceil_div_Z (h N : Z) :
  (0 < N)%Z -> (- ((- h) `div` N))%Z = ((h + N - 1) `div` N)%Z.
Proof.
  intros HN. set (q := ((h + N - 1) `div` N)%Z).
  pose proof (Z.div_mod (h + N - 1) N ltac:(lia)) as Hdm.
  pose proof (Z.mod_pos_bound (h + N - 1) N HN) as Hb. fold q in Hdm.
  rewrite <-(Z.div_unique (- h) N (- q) (N * q - h)); [lia|lia|lia].
Qed.

Lemma div_bounds (a b : nat) : 0 < b -> b * (a `div` b) <= a < b * (a `div` b) + b.
Proof.
  intros Hb. pose proof (Nat.div_mod_eq a b). pose proof (Nat.mod_upper_bound a b).
  lia.
Qed.

Lemma spec_num_pages_pos len N : 1 <= spec_num_pages len N.
Proof. unfold spec_num_pages. lia. Qed.

(** The last page number is the least [m >= 1] with [len <= m N]. *)
Lemma spec_num_pages_bounds len N :
  0 < N -> len <= spec_num_pages len N * N /\ (spec_num_pages len N - 1) * N < len \/ len = 0.
Proof.
  intros HN. unfold spec_num_pages.
  pose proof (div_bounds (len + N - 1) N HN). destruct (decide (len = 0)); [by right|left].
  assert (1 <= (len + N - 1) `div` N).
  { apply Nat.div_le_lower_bound; lia. }
  rewrite Nat.max_r by lia. nia.
Qed.

Lemma lt_spec_num_pages len N k :
  0 < N -> 1 <= k -> k < spec_num_pages len N <-> k * N < len.
Proof.
  intros HN Hk. destruct (spec_num_pages_bounds len N HN) as [[Hup Hlo]|Hl0].
  2: subst len.
  - split; intros; [nia|]. destruct (decide (k < spec_num_pages len N)); [done|nia].
  - unfold spec_num_pages. rewrite Nat.div_small by lia. lia.
Qed.

Section Refinement.
Context {A : Type} (l : list A) (N : nat) (HN : 0 < N).
Let p := mkPaginator l (Z.of_nat N) 0 true.
Let np := spec_num_pages (length l) N.

Lemma num_pages_val_spec : num_pages_val p = Z.of_nat np.
Proof.
  unfold num_pages_val, np, spec_num_pages, count. simpl.
  rewrite ceil_div_Z by lia.
  destruct (decide (length l = 0)) as [->|Hl].
  - rewrite Nat.div_small by lia. simpl.
    replace (Z.max 1 _ + _ - 1)%Z with (Z.of_nat N) by lia. rewrite Z.div_same by lia. done.
  - assert (1 <= (length l + N - 1) `div` N) by (apply Nat.div_le_lower_bound; lia).
    rewrite Nat.max_r, Z.max_r by lia.
    rewrite andb_false_r, Nat2Z.inj_div. simpl. f_equal. lia.
Qed.

Lemma num_pages_spec : num_pages p = Ok (Z.of_nat np).
Proof.
  unfold num_pages. simpl. rewrite andb_false_r, bool_decide_false by lia.
  by rewrite num_pages_val_spec.
Qed.

Lemma validate_number_spec arg :
  validate_number p arg =
    match to_int arg with
    | None => Err PageNotAnInteger
    | Some n => if bool_decide (1 <= n <= Z.of_nat np)%Z then Ok n else Err EmptyPage
    end.
Proof.
  pose proof (spec_num_pages_pos (length l) N).
  unfold validate_number. destruct (to_int arg) as [n|]; [|done].
  rewrite num_pages_spec. simpl. fold np.
  repeat (case_bool_decide || case_match); simpl in *; simplify_eq; try done; lia.

Qed.

Lemma page_spec k :
  1 <= k <= np ->
  page p (Z.of_nat k) = Ok (mkPage (slice ((k - 1) * N) (k * N) l) (Z.of_nat k) p).
Proof.
  intros Hk. unfold page. rewrite validate_number_spec. simpl.
  rewrite bool_decide_true by lia. simpl. do 2 f_equal.
  assert (Hb : ((Z.of_nat k - 1) * Z.of_nat N)%Z = Z.of_nat ((k - 1) * N)).
  { rewrite Nat2Z.inj_mul, Nat2Z.inj_sub by lia. done. }
  assert (Ht : (Z.of_nat ((k - 1) * N) + Z.of_nat N)%Z = Z.of_nat (k * N)).
  { rewrite <-Nat2Z.inj_add. f_equal. destruct k; [lia|]. simpl. lia. }
  rewrite Hb, Ht. unfold count. simpl.
  case_tests; rewrite py_slice_nonneg, !Nat2Z.id by apply Nat2Z.is_nonneg; [|done].
  symmetry. apply slice_top_ge. lia.
Qed.

End Refinement.

Lemma take_drop_omap {A} (l : list A) n b :
  omap (fun i => l !! i) (seq b n) = take n (drop b l).
Proof.
  revert b. induction n as [|n IH]; intros b; [by rewrite take_0|].
  simpl. rewrite IH. destruct (l !! b) as [x|] eqn:Hb.
  - by rewrite (drop_S l x b Hb).
  - apply lookup_ge_None in Hb. rewrite (drop_ge l b), (drop_ge l (S b)) by lia. by rewrite !take_nil.
Qed.

Lemma spec_items_slice {A} (l : list A) N k :
  1 <= k -> spec_items l N k = slice ((k - 1) * N) (k * N) l.
Proof.
  intros Hk. unfold spec_items, slice. rewrite take_drop_omap. f_equal.
  destruct k; [lia|]. simpl. lia.
Qed.

Lemma spec_number_range len N req :
  1 <= spec_number len N req <= spec_num_pages len N.
Proof.
  pose proof (spec_num_pages_pos len N).
  unfold spec_number. destruct req; case_tests; lia.
Qed.

Lemma concat_slices {A} (l : list A) N m :
  concat (map (fun k => slice ((k - 1) * N) (k * N) l) (seq 1 m)) = slice 0 (m * N) l.
Proof.
  induction m as [|m IH]; [done|].
  rewrite seq_S, map_app, concat_app, IH. simpl. rewrite app_nil_r.
  replace (S m - 1) with m by lia. rewrite Nat.sub_0_r. apply slice_app; lia.
Qed.

(** ** Properties of the paginator *)

(** [get_page] on a paginator of page size [N > 0] (no orphans,
    empty first page allowed, as [page_paginator] builds it) never
    raises, and returns page [k] of the specification: [k] is 1 for an
    absent or non-integer number, the requested number when it is a
    page, and the last page otherwise; its items are those at positions
    [(k-1)N .. kN-1] of the list. *)
Theorem get_page_refines {A} (l : list A) (N : nat) (arg : PageArg) :
  0 < N ->
  let p := mkPaginator l (Z.of_nat N) 0 true in
  let k := spec_number (length l) N (to_int arg) in
  get_page p arg = Ok (mkPage (spec_items l N k) (Z.of_nat k) p).
Proof.
  intros HN p k. pose proof (spec_number_range (length l) N (to_int arg)) as Hk.
  fold k in Hk. rewrite spec_items_slice by lia.
  unfold p. rewrite <-(page_spec l N HN k Hk). unfold get_page, k, spec_number in *.
  rewrite validate_number_spec by done.
  destruct (to_int arg) as [n|]; [|done].
  case_bool_decide; [by rewrite Z2Nat.id by lia|].
  simpl. by rewrite num_pages_spec.
Qed.

Lemma get_page_refines_witness :
  get_page (mkPaginator (seq 1 13) 10%Z 0 true) (ArgStr "2")
  = Ok (mkPage [11; 12; 13] 2%Z (mkPaginator (seq 1 13) 10%Z 0 true)).
Proof. apply (get_page_refines (seq 1 13) 10 (ArgStr "2")). lia. Defined.

(** [page_paginator] with page size [N > 0] returns, for the value of
    the [page] query parameter read with Python's [int()], the page of
    the specification. *)
Theorem page_paginator_refines {A} (GET : QueryDict.t) (posts : list A) (N : nat) :
  0 < N -> page_paginator GET posts (Z.of_nat N) = Ok (spec_page GET posts N).
Proof.
  intros HN. unfold page_paginator, spec_page.
  rewrite get_page_refines by done. by destruct (QueryDict.get GET "page").
Qed.

Lemma page_paginator_refines_witness :
  page_paginator [("page", "7")] (seq 1 13) 10%Z
  = Ok (mkPage [11; 12; 13] 2%Z (mkPaginator (seq 1 13) 10%Z 0 true)).
Proof. apply (page_paginator_refines [("page", "7")] (seq 1 13) 10). lia. Defined.

(** The query string [?page=<n>] of a page link. *)
Definition page_query (n : nat) : QueryDict.t := [("page", PyInt.py_str (Z.of_nat n))].

(** A page holds at most [N] items. *)
Lemma length_spec_items {A} (ps : list A) N k : length (spec_items ps N k) <= N.
Proof.
  unfold spec_items. etransitivity; [apply length_omap_le|]. by rewrite length_seq.
Qed.

(** A number below 1 or past the last page selects the last page. *)
Lemma spec_page_out_of_range {A} (ps : list A) N (z : Z) :
  (z < 1 \/ Z.of_nat (spec_num_pages (length ps) N) < z)%Z ->
  page_object_list (spec_page [("page", PyInt.py_str z)] ps N)
  = spec_items ps N (spec_num_pages (length ps) N).
Proof.
  intros Hz. unfold spec_page. simpl. rewrite PyInt.py_int_py_str. unfold spec_number.
  by rewrite bool_decide_false by lia.
Qed.

Lemma spec_page_at {A} (ps : list A) N n :
  1 <= n <= spec_num_pages (length ps) N ->
  page_object_list (spec_page (page_query n) ps N) = spec_items ps N n.
Proof.
  intros Hn. unfold spec_page, page_query. simpl.
  rewrite PyInt.py_int_py_str. unfold spec_number.
  rewrite bool_decide_true by lia. by rewrite Nat2Z.id.
Qed.

Lemma spec_items_sublist {A} (ps : list A) N k :
  1 <= k -> spec_items ps N k `sublist_of` ps.
Proof. intros Hk. rewrite spec_items_slice by done. apply slice_sublist. Qed.

(** An item of the list is on some page, and only items of the list are. *)
Lemma in_some_page {A} (ps : list A) N x :
  0 < N ->
  x ∈ ps <-> exists n, 1 <= n <= spec_num_pages (length ps) N /\ x ∈ spec_items ps N n.
Proof.
  intros HN. split.
  - intros Hx.
    assert (ps = concat (map (fun k => slice ((k - 1) * N) (k * N) ps)
                             (seq 1 (spec_num_pages (length ps) N)))) as Hps.
    { rewrite concat_slices. symmetry. apply slice_full.
      destruct (spec_num_pages_bounds (length ps) N HN) as [[? ?]|?]; lia. }
    rewrite Hps, list_elem_of_In in Hx. apply in_concat in Hx as (l & Hl & Hxl).
    apply in_map_iff in Hl as (k & <- & Hk%in_seq).
    exists k. split; [lia|]. rewrite spec_items_slice by lia. by apply list_elem_of_In.
  - intros (n & Hn & Hx). eapply elem_of_sublist; [done|]. apply spec_items_sublist. lia.
Qed.

Section PageFacts.
Context {A : Type} (l : list A) (N : nat) (HN : 0 < N).
Let p := mkPaginator l (Z.of_nat N) 0 true.

Lemma get_page_inv arg pg :
  get_page p arg = Ok pg ->
  pg = mkPage (spec_items l N (spec_number (length l) N (to_int arg)))
              (Z.of_nat (spec_number (length l) N (to_int arg))) p.
Proof. unfold p. rewrite get_page_refines by done. congruence. Qed.

(** a page has a next page exactly when items remain after it:
    [has_next] holds iff [k * N < len(l)] for the returned page [k]. *)
Theorem get_page_has_next arg pg :
  get_page p arg = Ok pg ->
  has_next pg = bool_decide (Z.to_nat (page_number pg) * N < length l).
Proof.
  intros ->%get_page_inv. unfold has_next, p. simpl. rewrite num_pages_val_spec, Nat2Z.id by done.
  pose proof (spec_number_range (length l) N (to_int arg)).
  apply bool_decide_ext. rewrite <-lt_spec_num_pages; lia.
Qed.

(** the page number is clamped, never an error: an absent or
    non-integer number gives page 1, a number below 1 or above the page
    count gives the last page, any other number that page. *)
Theorem get_page_number_clamped arg pg :
  get_page p arg = Ok pg ->
  (to_int arg = None -> page_number pg = 1%Z) /\
  (forall n, to_int arg = Some n -> (n < 1 \/ num_pages_val p < n)%Z ->
             page_number pg = num_pages_val p) /\
  (forall n, to_int arg = Some n -> (1 <= n <= num_pages_val p)%Z -> page_number pg = n).
Proof.
  intros ->%get_page_inv. unfold p. rewrite num_pages_val_spec by done. simpl.
  unfold spec_number. split; [intros Hn; by rewrite Hn|].
  split; intros n Hn Hr; rewrite Hn; case_tests; lia || done.
Qed.

(** every page holds at most [N] items, every page before the last
    exactly [N], and the page number lies in [[1, num_pages]]. *)
Theorem get_page_bounds arg pg :
  get_page p arg = Ok pg ->
  (1 <= page_number pg <= num_pages_val p)%Z /\
  length (page_object_list pg) <= N /\
  ((page_number pg < num_pages_val p)%Z -> length (page_object_list pg) = N).
Proof.
  intros ->%get_page_inv. unfold p. rewrite num_pages_val_spec by done. simpl.
  pose proof (spec_number_range (length l) N (to_int arg)) as Hk.
  set (k := spec_number (length l) N (to_int arg)) in *.
  rewrite spec_items_slice, length_slice by lia.
  split; [lia|split; [nia|]]. intros Hlt.
  assert (Hlt' : k < spec_num_pages (length l) N) by lia.
  apply (lt_spec_num_pages (length l) N k HN) in Hlt'; [nia|lia].
Qed.

(** The items of page [k], or none when [page(k)] raises. *)
Definition page_items (k : nat) : list A :=
  match page p (Z.of_nat k) with Ok pg => page_object_list pg | Err _ => [] end.

(** the pages [1 .. num_pages] partition the list: concatenated in
    order, they give back every item exactly once, in order. *)
Theorem pages_partition :
  concat (map page_items (seq 1 (Z.to_nat (num_pages_val p)))) = l.
Proof.
  unfold p. rewrite num_pages_val_spec, Nat2Z.id by done.
  rewrite (map_ext_in _ (fun k => slice ((k - 1) * N) (k * N) l)).
  - rewrite concat_slices. apply slice_full.
    destruct (spec_num_pages_bounds (length l) N HN) as [[? ?]|Hl0]; lia.
  - intros k Hk%in_seq. unfold page_items, p. rewrite page_spec by lia. done.
Qed.

End PageFacts.

(** ** The pages [get_page] returns are pages [page] builds

    A [Page] is the value [Paginator.page(number)] returns: its number,
    its paginator and its items are those of that call.  [get_page]
    only ever returns such a page, whatever its argument. *)

Lemma validate_number_int {A} (p : Paginator A) n m :
  validate_number p (ArgInt n) = Ok m -> m = n.
Proof.
  unfold validate_number; cbn [to_int]. case_bool_decide; [done|].
  destruct (num_pages p); cbn; [|done]. case_bool_decide; [case_match|]; congruence.
Qed.







Lemma page_idem {A} (p : Paginator A) n pg :
  page p n = Ok pg -> page (paginator pg) (page_number pg) = Ok pg.
Proof.
  intros Hp. pose proof Hp as Hp'. unfold page in Hp.
  destruct (validate_number p (ArgInt n)) as [m|] eqn:Hv; cbn in Hp; [|done].
  injection Hp as <-. cbn [paginator page_number].
  pose proof (validate_number_int _ _ _ Hv); by subst m.
Qed.

Lemma page_paginator_of {A} (p : Paginator A) n pg : page p n = Ok pg -> paginator pg = p.
Proof. unfold page. destruct (validate_number _ _); cbn; [|done]. by intros [= <-]. Qed.

Lemma get_page_page {A} (p : Paginator A) arg pg :
  get_page p arg = Ok pg -> exists n, page p n = Ok pg.
Proof.
  unfold get_page. repeat case_match; try done; eauto.
  destruct (num_pages p); cbn; eauto; done.
Qed.

Lemma page_paginator_idem {A} GET (ps : list A) num pg :
  page_paginator GET ps num = Ok pg ->
  paginator pg = mkPaginator ps num 0 true /\ page (paginator pg) (page_number pg) = Ok pg.
Proof.
  intros [n Hn]%get_page_page. split; [by eapply page_paginator_of|by eapply page_idem].
Qed.

End Paginator.
Module PaginatorExamples.
Import Paginator.
Definition thirteen := seq 1 13.
Example ex_page2 : (page_object_list <$> page_paginator [("page","2")] thirteen 10%Z) = Ok [11;12;13].
Proof. reflexivity. Qed.
Example ex_page0 : (page_number <$> page_paginator [("page","0")] thirteen 10%Z) = Ok 2%Z.
Proof. reflexivity. Qed.
Example ex_pagex : (page_number <$> page_paginator [("page","x")] thirteen 10%Z) = Ok 1%Z.
Proof. reflexivity. Qed.
Example ex_empty : (page_object_list <$> page_paginator [] (@nil nat) 10%Z) = Ok [].
Proof. reflexivity. Qed.
Example ex_zero : (page_number <$> page_paginator [] thirteen 0%Z) = Err ZeroDivisionError.
Proof. reflexivity. Qed.
End PaginatorExamples.
