(* ===== verification/Models.v ===== *)
(** * The entity store: models, ORM queries and the migration

    The models module of [posts] ([User], [Group], [Post], [Comment],
    [Follow]) is not among the sources; it is modelled from the spec's
    data model and from what the views and tests use: [Post] has [text],
    [pub_date] (set on creation), [author], an optional [group] and an
    optional [image]; [Comment] has [post], [author], [text] and
    [created]; [Follow] has [user] and [author] (reverse name
    [following] on the author).  Listings are ordered newest first
    ([ordering = ('-pub_date',)]); rows with equal dates are ordered by
    decreasing primary key, where the database leaves the order open.

    A database state is a record of [gmap] tables keyed by primary key,
    with one auto-increment counter per table and a clock for
    [auto_now_add] fields.  The ORM calls of the views are definitions
    here: [Post.objects.all()], [group.posts.all()],
    [author.posts.all()], [post.comments.all()], the follow join
    [Post.objects.filter(author__following__user=u)], [exists()] and
    [get()] with their [DoesNotExist] and [MultipleObjectsReturned]
    errors, [create()] and [delete()], and the cascade that migration
    [0003_auto_20230118_1654] puts on [Post.group]. *)

From S2P Require Import Prelude.

Module Models.

Record User := mkUser { user_pk : nat; username : string }.
Record Group := mkGroup {
  group_pk : nat; title : string; slug : string; description : string }.
Record Post := mkPost {
  post_pk : nat; text : string; pub_date : nat; author : nat;
  group : option nat; image : option string }.
Record Comment := mkComment {
  comment_pk : nat; comment_post : nat; comment_author : nat;
  comment_text : string; created : nat }.
Record Follow := mkFollow { follow_pk : nat; follow_user : nat; follow_author : nat }.

#[export] Instance User_eq_dec : EqDecision User.
Proof. solve_decision. Defined.
#[export] Instance Group_eq_dec : EqDecision Group.
Proof. solve_decision. Defined.
#[export] Instance Post_eq_dec : EqDecision Post.
Proof. solve_decision. Defined.
#[export] Instance Comment_eq_dec : EqDecision Comment.
Proof. solve_decision. Defined.
#[export] Instance Follow_eq_dec : EqDecision Follow.
Proof. solve_decision. Defined.

Record DB := mkDB {
  users : gmap nat User;
  groups : gmap nat Group;
  posts : gmap nat Post;
  comments : gmap nat Comment;
  follows : gmap nat Follow;
  next_user : nat;
  next_group : nat;
  next_post : nat;
  next_comment : nat;
  next_follow : nat;
  clock : nat
}.

Definition empty_db : DB := mkDB ∅ ∅ ∅ ∅ ∅ 1 1 1 1 1 0.

(** The errors of the ORM calls the views make. *)
Inductive OrmError :=
| DoesNotExist
| MultipleObjectsReturned.

#[export] Instance OrmError_eq_dec : EqDecision OrmError.
Proof. solve_decision. Defined.

(** ** Ordering *)

(** [p] comes before [q] in a listing: newer first, then larger key. *)
Definition post_before (p q : Post) : Prop :=
  pub_date q < pub_date p \/ (pub_date q = pub_date p /\ post_pk q <= post_pk p).

#[export] Instance post_before_dec : RelDecision post_before.
Proof. intros p q. unfold post_before. apply _. Defined.

Definition comment_before (c d : Comment) : Prop :=
  created d < created c \/ (created d = created c /\ comment_pk d <= comment_pk c).

#[export] Instance comment_before_dec : RelDecision comment_before.
Proof. intros c d. unfold comment_before. apply _. Defined.

(** [SELECT ... WHERE cond ORDER BY -pub_date]. *)
Definition order_posts (ps : list Post) : list Post := merge_sort post_before ps.

Definition table_rows {V} (m : gmap nat V) : list V := (map_to_list m).*2.

(** [Post.objects.all()] *)
Definition all_posts (db : DB) : list Post := order_posts (table_rows (posts db)).

(** [Post.objects.filter(cond)] *)
Definition posts_where (cond : Post -> bool) (db : DB) : list Post :=
  order_posts (filter cond (table_rows (posts db))).

(** [group.posts.all()]: the reverse manager of [Post.group]. *)
Definition group_posts_of (db : DB) (gid : nat) : list Post :=
  posts_where (fun p => bool_decide (group p = Some gid)) db.

(** [author.posts.all()]: the reverse manager of [Post.author]. *)
Definition author_posts_of (db : DB) (uid : nat) : list Post :=
  posts_where (fun p => bool_decide (author p = uid)) db.

(** [post.comments.all()] *)
Definition comments_of (db : DB) (pid : nat) : list Comment :=
  merge_sort comment_before
    (filter (fun c => bool_decide (comment_post c = pid)) (table_rows (comments db))).

(** [Follow.objects.filter(user=u, author=a)] *)
Definition follows_of (db : DB) (u a : nat) : list Follow :=
  filter (fun f => bool_decide (follow_user f = u /\ follow_author f = a))
    (table_rows (follows db)).

(** [Post.objects.filter(author__following__user=u)]: the inner join of
    posts with the follow rows of their author, one result row per
    matching follow row. *)
Definition follow_feed (db : DB) (u : nat) : list Post :=
  order_posts
    (table_rows (posts db) ≫= fun p => (fun _ => p) <$> follows_of db u (author p)).

(** [.exists()] *)
Definition follow_exists (db : DB) (u a : nat) : bool :=
  bool_decide (follows_of db u a <> []).

(** [Model.objects.get(...)] on the rows that match. *)
Definition get_one {A} (rows : list A) : result OrmError A :=
  match rows with
  | [] => Err DoesNotExist
  | [x] => Ok x
  | _ => Err MultipleObjectsReturned
  end.

Definition user_by_username (db : DB) (name : string) : result OrmError User :=
  get_one (filter (fun u => bool_decide (username u = name)) (table_rows (users db))).

Definition group_by_slug (db : DB) (s : string) : result OrmError Group :=
  get_one (filter (fun g => bool_decide (slug g = s)) (table_rows (groups db))).

Definition post_by_pk (db : DB) (pk : nat) : result OrmError Post :=
  match posts db !! pk with Some p => Ok p | None => Err DoesNotExist end.

(** ** Writes *)

(** Replacing one table and its counter. *)
Definition with_users (db : DB) (t : gmap nat User) (n : nat) : DB :=
  mkDB t (groups db) (posts db) (comments db) (follows db)
       n (next_group db) (next_post db) (next_comment db) (next_follow db) (clock db).
Definition with_groups (db : DB) (t : gmap nat Group) (n : nat) : DB :=
  mkDB (users db) t (posts db) (comments db) (follows db)
       (next_user db) n (next_post db) (next_comment db) (next_follow db) (clock db).
Definition with_posts (db : DB) (t : gmap nat Post) (n : nat) : DB :=
  mkDB (users db) (groups db) t (comments db) (follows db)
       (next_user db) (next_group db) n (next_comment db) (next_follow db) (clock db).
Definition with_comments (db : DB) (t : gmap nat Comment) (n : nat) : DB :=
  mkDB (users db) (groups db) (posts db) t (follows db)
       (next_user db) (next_group db) (next_post db) n (next_follow db) (clock db).
Definition with_follows (db : DB) (t : gmap nat Follow) (n : nat) : DB :=
  mkDB (users db) (groups db) (posts db) (comments db) t
       (next_user db) (next_group db) (next_post db) (next_comment db) n (clock db).

(** [Post(...).save()] on a new row: the next key, [pub_date] now. *)
Definition create_post (db : DB) (auth : nat) (txt : string) (g : option nat)
    (img : option string) : DB * Post :=
  let p := mkPost (next_post db) txt (clock db) auth g img in
  (with_posts db (<[post_pk p := p]> (posts db)) (S (next_post db)), p).

(** [post.save()] on an existing row. *)
Definition update_post (db : DB) (p : Post) : DB :=
  with_posts db (<[post_pk p := p]> (posts db)) (next_post db).

(** [Comment(...).save()] on a new row: [created] now. *)
Definition create_comment (db : DB) (pid auth : nat) (txt : string) : DB * Comment :=
  let c := mkComment (next_comment db) pid auth txt (clock db) in
  (with_comments db (<[comment_pk c := c]> (comments db)) (S (next_comment db)), c).

(** [Follow.objects.create(user=u, author=a)] *)
Definition create_follow (db : DB) (u a : nat) : DB * Follow :=
  let f := mkFollow (next_follow db) u a in
  (with_follows db (<[follow_pk f := f]> (follows db)) (S (next_follow db)), f).

(** [follow.delete()] *)
Definition delete_follow (db : DB) (f : Follow) : DB :=
  with_follows db (delete (follow_pk f) (follows db)) (next_follow db).

(** [post.delete()]: [Comment.post] cascades. *)
Definition delete_post (db : DB) (pid : nat) : DB :=
  let db := with_posts db (delete pid (posts db)) (next_post db) in
  with_comments db (filter (fun kc => comment_post kc.2 <> pid) (comments db))
    (next_comment db).

(** [group.delete()]: migration 0003 declares [Post.group] with
    [on_delete=CASCADE], so the group's posts are deleted, and their
    comments with them. *)
Definition delete_group (db : DB) (gid : nat) : DB :=
  let keep (p : Post) : bool := bool_decide (group p <> Some gid) in
  let kept := filter (fun kp => keep kp.2 = true) (posts db) in
  let db' := with_groups db (delete gid (groups db)) (next_group db) in
  let db' := with_posts db' kept (next_post db) in
  let cascaded (c : Comment) :=
    match posts db !! comment_post c with Some p => keep p | None => true end in
  with_comments db' (filter (fun kc => cascaded kc.2 = true) (comments db)) (next_comment db).

(** [User.objects.create_user(username=...)] and
    [Group.objects.create(...)], used by the tests. *)
Definition create_user (db : DB) (name : string) : DB * User :=
  let u := mkUser (next_user db) name in
  (with_users db (<[user_pk u := u]> (users db)) (S (next_user db)), u).

Definition create_group (db : DB) (t s d : string) : DB * Group :=
  let g := mkGroup (next_group db) t s d in
  (with_groups db (<[group_pk g := g]> (groups db)) (S (next_group db)), g).

(** The clock moves forward. *)
Definition tick (db : DB) (dt : nat) : DB :=
  mkDB (users db) (groups db) (posts db) (comments db) (follows db)
       (next_user db) (next_group db) (next_post db) (next_comment db) (next_follow db)
       (clock db + dt).

(** ** Well-formed states *)

(** Every row is stored under its own key, below the table's counter. *)
Definition keys_ok {V} (m : gmap nat V) (pk : V -> nat) (next : nat) : Prop :=
  map_Forall (fun k v => pk v = k /\ k < next) m.

Definition unique_on {V} (m : gmap nat V) {B} (f : V -> B) : Prop :=
  forall k1 k2 v1 v2, m !! k1 = Some v1 -> m !! k2 = Some v2 -> f v1 = f v2 -> k1 = k2.

(** The well-formed states: keys, foreign keys, unique usernames and
    slugs (constraints of the schema: [User.username] and [Group.slug]
    are unique), and one follow row per [(user, author)] pair.  The last
    is not a database constraint (no [UniqueConstraint] or
    [unique_together] is declared in the repository): it is the spec's
    data model, which the views keep only while each request runs
    atomically ([App.reachable_site_ok]); [Concurrency.v] shows an
    interleaving that breaks it. *)
Record wf (db : DB) : Prop := {
  wf_users : keys_ok (users db) user_pk (next_user db);
  wf_groups : keys_ok (groups db) group_pk (next_group db);
  wf_posts : keys_ok (posts db) post_pk (next_post db);
  wf_comments : keys_ok (comments db) comment_pk (next_comment db);
  wf_follows : keys_ok (follows db) follow_pk (next_follow db);
  wf_post_refs : map_Forall (fun _ p => is_Some (users db !! author p) /\
      from_option (fun g => is_Some (groups db !! g)) True (group p)) (posts db);
  wf_comment_refs : map_Forall (fun _ c => is_Some (posts db !! comment_post c) /\
      is_Some (users db !! comment_author c)) (comments db);
  wf_follow_refs : map_Forall (fun _ f => is_Some (users db !! follow_user f) /\
      is_Some (users db !! follow_author f)) (follows db);
  wf_username_unique : unique_on (users db) username;
  wf_slug_unique : unique_on (groups db) slug;
  wf_follow_unique : unique_on (follows db) (fun f => (follow_user f, follow_author f))
}.

(** The view-level rule of [profile_follow]: nobody follows themselves. *)
Definition no_self_follow (db : DB) : Prop :=
  map_Forall (fun _ f => follow_user f <> follow_author f) (follows db).

(** ** Lemmas on queries *)

#[export] Instance post_before_trans : Transitive post_before.
Proof. intros p q r. unfold post_before. lia. Qed.
#[export] Instance post_before_total : Total post_before.
Proof. intros p q. unfold post_before. lia. Qed.

Lemma elem_of_table_rows {V} (m : gmap nat V) v :
  v ∈ table_rows m <-> exists k, m !! k = Some v.
Proof.
  unfold table_rows. rewrite list_elem_of_fmap. split.
  - intros [[k v'] [-> Hin%elem_of_map_to_list]]. by exists k.
  - intros [k Hk]. exists (k, v). split; [done|]. by apply elem_of_map_to_list.
Qed.

Lemma NoDup_table_rows {V} (m : gmap nat V) pk next :
  keys_ok m pk next -> NoDup (table_rows m).
Proof.
  intros Hok. apply NoDup_fmap_2_strong; [|apply NoDup_map_to_list].
  intros [k1 v1] [k2 v2] Hin1%elem_of_map_to_list Hin2%elem_of_map_to_list. simpl. intros <-.
  destruct (Hok _ _ Hin1), (Hok _ _ Hin2). f_equal. congruence.
Qed.

Lemma elem_of_order_posts (ps : list Post) p : p ∈ order_posts ps <-> p ∈ ps.
Proof. unfold order_posts. by rewrite (merge_sort_Permutation _ ps). Qed.

Lemma order_posts_sorted (ps : list Post) : StronglySorted post_before (order_posts ps).
Proof. apply StronglySorted_merge_sort; apply _. Qed.

Lemma NoDup_order_posts (ps : list Post) : NoDup ps -> NoDup (order_posts ps).
Proof. unfold order_posts. by rewrite (merge_sort_Permutation _ ps). Qed.

(** [post.comments.all()] are comments of that post. *)
Lemma comments_of_post db pid : Forall (fun c => comment_post c = pid) (comments_of db pid).
Proof.
  unfold comments_of. rewrite (merge_sort_Permutation _ _), Forall_forall.
  intros c [Hc _]%list_elem_of_filter. by apply bool_decide_unpack in Hc.
Qed.

Lemma elem_of_posts_where cond db p :
  p ∈ posts_where cond db <-> (exists k, posts db !! k = Some p) /\ cond p = true.
Proof.
  unfold posts_where. rewrite elem_of_order_posts, list_elem_of_filter, elem_of_table_rows,
    Is_true_true.
  tauto.
Qed.

Lemma elem_of_follows_of db u a f :
  f ∈ follows_of db u a <->
  (exists k, follows db !! k = Some f) /\ follow_user f = u /\ follow_author f = a.
Proof.
  unfold follows_of. rewrite list_elem_of_filter, elem_of_table_rows, Is_true_true, bool_decide_eq_true.
  tauto.
Qed.

Lemma follow_exists_spec db u a :
  follow_exists db u a = true <->
  exists k f, follows db !! k = Some f /\ follow_user f = u /\ follow_author f = a.
Proof.
  unfold follow_exists. rewrite bool_decide_eq_true. split.
  - intros Hne. destruct (follows_of db u a) as [|f fs] eqn:Hfs; [done|].
    assert (Hin : f ∈ follows_of db u a) by (rewrite Hfs; left).
    apply elem_of_follows_of in Hin as ([k Hk] & ? & ?). eauto.
  - intros (k & f & Hk & Hu & Ha) Hnil.
    assert (f ∈ follows_of db u a) as Hin by (apply elem_of_follows_of; eauto).
    rewrite Hnil in Hin. set_solver.
Qed.

(** Under [wf], a [(user, author)] pair has at most one follow row. *)
Lemma follows_of_at_most_one db u a :
  wf db -> follows_of db u a = [] \/ exists f, follows_of db u a = [f].
Proof.
  intros Hwf. destruct (follows_of db u a) as [|f [|g fs]] eqn:Hfs; [by left|by eauto|].
  exfalso.
  assert (NoDup (follows_of db u a)) as Hnd.
  { apply NoDup_filter. eapply NoDup_table_rows, wf_follows, Hwf. }
  assert (Hf : f ∈ follows_of db u a) by (rewrite Hfs; set_solver).
  assert (Hg : g ∈ follows_of db u a) by (rewrite Hfs; set_solver).
  apply elem_of_follows_of in Hf as ([k1 H1] & ? & ?).
  apply elem_of_follows_of in Hg as ([k2 H2] & ? & ?).
  assert (k1 = k2) as <- by (eapply (wf_follow_unique _ Hwf); eauto; simpl; congruence).
  rewrite Hfs in Hnd. apply NoDup_cons in Hnd as [Hnin _]. apply Hnin. assert (f = g) as -> by congruence. left.
Qed.

Lemma elem_of_follow_feed db u p :
  p ∈ follow_feed db u <->
  (exists k, posts db !! k = Some p) /\ follow_exists db u (author p) = true.
Proof.
  unfold follow_feed. rewrite elem_of_order_posts, list_elem_of_bind. split.
  - intros (q & Hp%list_elem_of_fmap & Hq%elem_of_table_rows).
    destruct Hp as (f & -> & Hf). split; [done|].
    apply bool_decide_eq_true. intros Hnil. rewrite Hnil in Hf. set_solver.
  - intros [Hk Hex]. exists p. split; [|by apply elem_of_table_rows].
    unfold follow_exists in Hex. apply bool_decide_eq_true in Hex.
    destruct (follows_of db u (author p)) as [|f fs]; [done|]. set_solver.
Qed.

(** Under [wf] the join of [follow_feed] is the filter "the author is
    followed" on the posts table. *)
Lemma follow_feed_as_filter db u :
  wf db -> follow_feed db u = posts_where (fun p => follow_exists db u (author p)) db.
Proof.
  intros Hwf. unfold follow_feed, posts_where. f_equal.
  rewrite bind_at_most_one by (intros; by apply follows_of_at_most_one).
  apply list_filter_iff. intros p. unfold follow_exists.
  by rewrite Is_true_true, bool_decide_eq_true.
Qed.

(** [get()] on a column the schema keeps unique finds the one row or
    raises [DoesNotExist]; it never raises [MultipleObjectsReturned]. *)
Lemma get_one_unique {V B} (m : gmap nat V) pk n (f : V -> B) `{EqDecision B} (x : B) :
  keys_ok m pk n -> unique_on m f ->
  match get_one (filter (fun v => bool_decide (f v = x)) (table_rows m)) with
  | Ok v => (exists k, m !! k = Some v) /\ f v = x
  | Err e => e = DoesNotExist /\ forall k v, m !! k = Some v -> f v <> x
  end.
Proof.
  intros Hok Huniq.
  assert (Hin : forall v, v ∈ filter (fun v => bool_decide (f v = x)) (table_rows m) <->
                          (exists k, m !! k = Some v) /\ f v = x).
  { intros v. rewrite list_elem_of_filter, elem_of_table_rows, Is_true_true,
      bool_decide_eq_true. tauto. }
  assert (Hnd : NoDup (filter (fun v => bool_decide (f v = x)) (table_rows m)))
    by (apply NoDup_filter; eapply NoDup_table_rows; eauto).
  destruct (filter _ _) as [|v1 [|v2 vs]] eqn:Hf; simpl.
  - split; [done|]. intros k v Hk Hfv. assert (v ∈ []) as Hv by (apply Hin; eauto).
    set_solver.
  - apply Hin. set_solver.
  - exfalso. destruct (proj1 (Hin v1) ltac:(set_solver)) as [[k1 H1] Hx1].
    destruct (proj1 (Hin v2) ltac:(set_solver)) as [[k2 H2] Hx2].
    assert (k1 = k2) as <- by (eapply Huniq; eauto; congruence).
    apply NoDup_cons in Hnd as [Hn _]. apply Hn. assert (v1 = v2) as -> by congruence.
    set_solver.
Qed.

Lemma user_by_username_wf db name :
  wf db ->
  match user_by_username db name with
  | Ok u => (exists k, users db !! k = Some u) /\ username u = name
  | Err e => e = DoesNotExist /\ forall k u, users db !! k = Some u -> username u <> name
  end.
Proof. intros Hwf. eapply get_one_unique; [apply wf_users|apply wf_username_unique]; done. Qed.

(** In a well-formed store a user's own username finds that user. *)
Lemma user_by_username_lookup db k a :
  wf db -> users db !! k = Some a -> user_by_username db (username a) = Ok a.
Proof.
  intros Hwf Hk. pose proof (user_by_username_wf db (username a) Hwf) as H.
  destruct (user_by_username _ _) as [b|e].
  - destruct H as [[k' Hk'] Hb]. f_equal.
    assert (k' = k) as -> by (eapply wf_username_unique; eauto). congruence.
  - destruct H as [_ H]. by destruct (H k a Hk).
Qed.

Lemma group_by_slug_wf db s :
  wf db ->
  match group_by_slug db s with
  | Ok g => (exists k, groups db !! k = Some g) /\ slug g = s
  | Err e => e = DoesNotExist /\ forall k g, groups db !! k = Some g -> slug g <> s
  end.
Proof. intros Hwf. eapply get_one_unique; [apply wf_groups|apply wf_slug_unique]; done. Qed.

Lemma wf_empty : wf empty_db.
Proof. split; first [apply map_Forall_empty | intros ?????; done]. Qed.

(** ** Writes preserve the invariant *)

Lemma keys_ok_fresh {V} (m : gmap nat V) pk n : keys_ok m pk n -> m !! n = None.
Proof.
  intros Hm. destruct (m !! n) as [v|] eqn:Hv; [|done].
  destruct (Hm _ _ Hv). lia.
Qed.

Lemma keys_ok_insert_fresh {V} (m : gmap nat V) pk n v :
  keys_ok m pk n -> pk v = n -> keys_ok (<[n:=v]> m) pk (S n).
Proof.
  intros Hm Hv. apply map_Forall_insert_2; [lia|].
  eapply map_Forall_impl; [done|]. simpl. lia.
Qed.

Lemma keys_ok_insert_existing {V} (m : gmap nat V) pk n k v :
  keys_ok m pk n -> is_Some (m !! k) -> pk v = k -> keys_ok (<[k:=v]> m) pk n.
Proof.
  intros Hm [v0 Hk] Hv. apply map_Forall_insert_2; [|done].
  destruct (Hm _ _ Hk). lia.
Qed.

Lemma keys_ok_delete {V} (m : gmap nat V) pk n k : keys_ok m pk n -> keys_ok (delete k m) pk n.
Proof. apply map_Forall_delete. Qed.

Lemma unique_on_insert_fresh {V B} (m : gmap nat V) (f : V -> B) n v :
  unique_on m f -> m !! n = None -> (forall k v', m !! k = Some v' -> f v' <> f v) ->
  unique_on (<[n:=v]> m) f.
Proof.
  intros Hu Hn Hnew k1 k2 v1 v2 H1 H2 Hf.
  rewrite lookup_insert in H1, H2.
  destruct (decide (n = k1)), (decide (n = k2)); simplify_eq; try done.
  - exfalso. by apply (Hnew k2 v2).
  - exfalso. by apply (Hnew k1 v1).
  - eapply Hu; eauto.
Qed.

Lemma unique_on_delete {V B} (m : gmap nat V) (f : V -> B) k :
  unique_on m f -> unique_on (delete k m) f.
Proof.
  intros Hu k1 k2 v1 v2 H1 H2. apply lookup_delete_Some in H1 as [_ H1].
  apply lookup_delete_Some in H2 as [_ H2]. eauto.
Qed.

Lemma wf_create_follow db u a :
  wf db -> is_Some (users db !! u) -> is_Some (users db !! a) ->
  follow_exists db u a = false -> wf (create_follow db u a).1.
Proof.
  intros Hwf Hu Ha Hnex. destruct Hwf; split; simpl; try done.
  - by apply keys_ok_insert_fresh.
  - by apply map_Forall_insert_2.
  - apply unique_on_insert_fresh; [done|by eapply keys_ok_fresh|].
    intros k f Hk Heq. simplify_eq/=.
    assert (follow_exists db (follow_user f) (follow_author f) = true) as Hex
      by (apply follow_exists_spec; eauto).
    congruence.
Qed.

Lemma wf_delete_follow db f : wf db -> wf (delete_follow db f).
Proof.
  intros Hwf. destruct Hwf; split; simpl; try done.
  - by apply keys_ok_delete.
  - by apply map_Forall_delete.
  - by apply unique_on_delete.
Qed.

Lemma no_self_follow_create db u a :
  no_self_follow db -> u <> a -> no_self_follow (create_follow db u a).1.
Proof. intros Hn Hne. by apply map_Forall_insert_2. Qed.

Lemma no_self_follow_delete db f : no_self_follow db -> no_self_follow (delete_follow db f).
Proof. apply map_Forall_delete. Qed.

(** Deleting a follow row never makes a pair followed. *)
Lemma follow_exists_delete_mono db f u a :
  follow_exists db u a = false -> follow_exists (delete_follow db f) u a = false.
Proof.
  intros Hex. destruct (follow_exists (delete_follow db f) u a) eqn:Hd; [|done].
  rewrite <-Hex. symmetry. apply follow_exists_spec in Hd as (k & g & Hk & ?). simpl in Hk.
  apply lookup_delete_Some in Hk as [_ Hk]. apply follow_exists_spec. eauto.
Qed.

Lemma follow_exists_create db u a : follow_exists (create_follow db u a).1 u a = true.
Proof. apply follow_exists_spec. exists (next_follow db). simpl. by rewrite lookup_insert_eq; eauto. Qed.

(** Deleting the one follow row of a pair leaves the pair unfollowed. *)
Lemma follow_exists_delete db u a f :
  wf db -> follows_of db u a = [f] -> follow_exists (delete_follow db f) u a = false.
Proof.
  intros Hwf Hf. destruct (follow_exists _ u a) eqn:Hex; [|done]. exfalso.
  apply follow_exists_spec in Hex as (k & g & Hk & Hgu & Hga). simpl in Hk.
  apply lookup_delete_Some in Hk as [Hne Hk].
  assert (Hin : f ∈ follows_of db u a) by (rewrite Hf; left).
  apply elem_of_follows_of in Hin as ([k' Hk'] & Hfu & Hfa).
  destruct (wf_follows _ Hwf _ _ Hk') as [Hpk _].
  assert (k = k') as -> by (eapply (wf_follow_unique _ Hwf); eauto; simpl; congruence).
  congruence.
Qed.

(** The number of follow rows of a pair, [Follow.objects.filter(user=u,
    author=a).count()]. *)
Definition follow_count (db : DB) (u a : nat) : nat := length (follows_of db u a).

Lemma follow_count_exists db u a :
  wf db -> follow_count db u a = if follow_exists db u a then 1 else 0.
Proof.
  intros Hwf. unfold follow_count, follow_exists.
  destruct (follows_of_at_most_one db u a Hwf) as [->|[f ->]]; done.
Qed.

Lemma wf_create_user db name :
  wf db -> user_by_username db name = Err DoesNotExist -> wf (create_user db name).1.
Proof.
  intros Hwf Hfree. pose proof (user_by_username_wf db name Hwf) as Hn. rewrite Hfree in Hn.
  destruct Hn as [_ Hn]. pose proof (keys_ok_fresh _ _ _ (wf_users _ Hwf)) as Hnone.
  destruct Hwf; split; simpl; try done.
  - by apply keys_ok_insert_fresh.
  - eapply map_Forall_impl; [done|]. intros k p [Hu Hg]. split; [|done].
    rewrite lookup_insert. case_decide; [done|exact Hu].
  - eapply map_Forall_impl; [done|]. intros k c [Hp Hu]. split; [done|].
    rewrite lookup_insert. case_decide; [done|exact Hu].
  - eapply map_Forall_impl; [done|]. intros k f [Hu1 Hu2].
    rewrite !lookup_insert. split; case_decide; done.
  - apply unique_on_insert_fresh; [done|done|]. intros k u Hk. exact (Hn k u Hk).
Qed.

Lemma is_Some_insert {V} (m : gmap nat V) k v j :
  is_Some (m !! j) -> is_Some (<[k:=v]> m !! j).
Proof. intros H. rewrite lookup_insert. by case_decide. Qed.

(** The foreign keys a post row needs. *)
Definition post_refs_ok (db : DB) (p : Post) : Prop :=
  is_Some (users db !! author p) /\ from_option (fun g => is_Some (groups db !! g)) True (group p).

Lemma wf_create_post db a t g i :
  wf db -> post_refs_ok db (mkPost 0 t 0 a g i) -> wf (create_post db a t g i).1.
Proof.
  intros Hwf Hrefs. destruct Hwf; split; simpl; try done.
  - by apply keys_ok_insert_fresh.
  - by apply map_Forall_insert_2.
  - eapply map_Forall_impl; [done|]. intros k c [Hp Hu]. split; [|done].
    by apply is_Some_insert.
Qed.

Lemma wf_update_post db p :
  wf db -> is_Some (posts db !! post_pk p) -> post_refs_ok db p -> wf (update_post db p).
Proof.
  intros Hwf Hp Hrefs. destruct Hwf; split; simpl; try done.
  - by eapply keys_ok_insert_existing.
  - by apply map_Forall_insert_2.
  - eapply map_Forall_impl; [done|]. intros k c [Hq Hu]. split; [|done].
    by apply is_Some_insert.
Qed.

Lemma wf_create_comment db pid a t :
  wf db -> is_Some (posts db !! pid) -> is_Some (users db !! a) ->
  wf (create_comment db pid a t).1.
Proof.
  intros Hwf Hp Hu. destruct Hwf; split; simpl; try done.
  - by apply keys_ok_insert_fresh.
  - by apply map_Forall_insert_2.
Qed.

Lemma size_create_post db a t g i :
  wf db -> size (posts (create_post db a t g i).1) = S (size (posts db)).
Proof.
  intros Hwf. apply map_size_insert_None. simpl. eapply keys_ok_fresh, wf_posts, Hwf.
Qed.

Lemma size_create_comment db pid a t :
  wf db -> size (comments (create_comment db pid a t).1) = S (size (comments db)).
Proof.
  intros Hwf. apply map_size_insert_None. simpl. eapply keys_ok_fresh, wf_comments, Hwf.
Qed.

Lemma wf_create_group db t sl d :
  wf db -> group_by_slug db sl = Err DoesNotExist -> wf (create_group db t sl d).1.
Proof.
  intros Hwf Hfree. pose proof (group_by_slug_wf db sl Hwf) as Hn. rewrite Hfree in Hn.
  destruct Hn as [_ Hn]. pose proof (keys_ok_fresh _ _ _ (wf_groups _ Hwf)) as Hnone.
  destruct Hwf; split; simpl; try done.
  - by apply keys_ok_insert_fresh.
  - eapply map_Forall_impl; [done|]. intros k p [Hu Hg]. split; [done|].
    destruct (group p); simpl in *; [|done]. by apply is_Some_insert.
  - apply unique_on_insert_fresh; [done|done|]. intros k g Hk. exact (Hn k g Hk).
Qed.

Lemma wf_tick db dt : wf db -> wf (tick db dt).
Proof. by destruct 1; split. Qed.

(** ** The cascade of migration 0003 *)

Lemma map_Forall_filter_sub {V} (Q : nat -> V -> Prop) (P : nat * V -> Prop)
    `{forall x, Decision (P x)} (m : gmap nat V) :
  map_Forall Q m -> map_Forall Q (filter P m).
Proof.
  intros HQ k v Hk. apply HQ. by eapply map_lookup_filter_Some_1_1.
Qed.

Lemma delete_group_posts db gid k p :
  posts (delete_group db gid) !! k = Some p <-> posts db !! k = Some p /\ group p <> Some gid.
Proof. simpl. by rewrite map_lookup_filter_Some, bool_decide_eq_true. Qed.

Lemma delete_group_comments db gid k c :
  comments (delete_group db gid) !! k = Some c <->
  comments db !! k = Some c /\ forall p, posts db !! comment_post c = Some p -> group p <> Some gid.
Proof.
  simpl. rewrite map_lookup_filter_Some. simpl.
  destruct (posts db !! comment_post c) as [p|]; simpl.
  - rewrite bool_decide_eq_true. naive_solver.
  - naive_solver.
Qed.

Lemma wf_delete_group db gid : wf db -> wf (delete_group db gid).
Proof.
  intros Hwf.
  destruct Hwf as [Hu Hg Hp Hc Hf Hpr Hcr Hfr Huu Hsu Hfu].
  split; cbn [users groups posts comments follows next_user next_group next_post next_comment
               next_follow delete_group with_comments with_posts with_groups]; try done.
  - by apply keys_ok_delete.
  - by apply map_Forall_filter_sub.
  - by apply map_Forall_filter_sub.
  - intros k p Hk. apply map_lookup_filter_Some in Hk as [Hk Hkeep].
    apply bool_decide_eq_true in Hkeep. destruct (Hpr _ _ Hk) as [Ha Hgr].
    split; [done|]. destruct (group p) as [g|] eqn:Hgp; simpl in *; [|done].
    rewrite lookup_delete_ne; [done|]. intros ->. by apply Hkeep.
  - intros k c Hk. apply map_lookup_filter_Some in Hk as [Hk Hkeep]. simpl in Hkeep.
    destruct (Hcr _ _ Hk) as [[p Hpc] Hcu]. split; [|done].
    rewrite Hpc in Hkeep. exists p. apply map_lookup_filter_Some. by split.
  - by apply unique_on_delete.
Qed.


(** Deleting a group removes the group, exactly the posts of that
    group and exactly the comments of those posts; every other row
    stays, and the store stays well formed. *)
Lemma delete_group_cascade db gid :
  wf db ->
  wf (delete_group db gid) /\ groups (delete_group db gid) !! gid = None /\
  (forall k p, posts (delete_group db gid) !! k = Some p <->
               posts db !! k = Some p /\ group p <> Some gid) /\
  (forall k c, comments (delete_group db gid) !! k = Some c <->
               comments db !! k = Some c /\
               forall p, posts db !! comment_post c = Some p -> group p <> Some gid).
Proof.
  intros Hwf. split; [by apply wf_delete_group|].
  split; [apply lookup_delete_eq|split; [apply delete_group_posts|apply delete_group_comments]].
Qed.


End Models.
