(* ===== verification/Migrations.v ===== *)
(** * Migration 0003 and the deletion collector

    [migrations/0003_auto_20230118_1654.py] is one [AlterField]: it
    redefines [Post.group] as a nullable, optional foreign key to
    [posts.Group] with [on_delete=CASCADE] and reverse name [posts].
    Here the migration is data, as the file writes it ([Migration] with
    its [dependencies] and [operations]), applied to the project state
    by [apply_migration] as Django's [state_forwards] does; the project
    state keeps the foreign keys of the models by (model, field).

    Deleting a group runs Django's deletion collector
    ([django.db.models.deletion.Collector]): each foreign key pointing at
    the deleted row acts by its [on_delete] ([CASCADE] deletes the
    referring rows and recursively what points at them, [SET_NULL] sets
    the key to NULL, [PROTECT] refuses, [DO_NOTHING] leaves the key
    dangling, which the database refuses).  [collect_delete_group] is
    that collector for a [Group], reading [on_delete] from the project
    state.  The theorem: on the state the migration produces, the
    collector deletes exactly what [Models.delete_group] deletes, so the
    site's group deletion is the one the migration declares. *)

From S2P Require Import Prelude Models.

Module Migrations.
Import Models.

(** ** The migration as data *)

(** The [on_delete] behaviours of [django.db.models.deletion]. *)
Inductive OnDelete :=
| CASCADE
| PROTECT
| SET_NULL
| DO_NOTHING.

#[export] Instance OnDelete_eq_dec : EqDecision OnDelete.
Proof. solve_decision. Defined.

(** [models.ForeignKey(blank=..., null=..., on_delete=..., related_name=..., to=...)] *)
Record ForeignKey := mkForeignKey {
  fk_blank : bool;
  fk_null : bool;
  fk_on_delete : OnDelete;
  fk_related_name : string;
  fk_to : string
}.

(** The migration operations the project uses. *)
Inductive Operation :=
| AlterField (model_name : string) (name : string) (field : ForeignKey).

Record Migration := mkMigration {
  dependencies : list (string * string);
  operations : list Operation
}.

(** [class Migration(migrations.Migration)] of
    [0003_auto_20230118_1654.py]. *)
Definition migration_0003 : Migration :=
  mkMigration [("posts", "0002_auto_20230110_0841")]
    [AlterField "post" "group"
       (mkForeignKey true true CASCADE "posts" "posts.Group")].

(** The foreign keys of the project state, by (model, field). *)
Abbreviation Schema := (gmap (string * string) ForeignKey).

(** [AlterField.state_forwards]: the field of that name is replaced;
    a model without such a field keeps its fields. *)
Definition apply_operation (s : Schema) (op : Operation) : Schema :=
  match op with
  | AlterField m n f =>
      match s !! (m, n) with Some _ => <[(m, n) := f]> s | None => s end
  end.

Definition apply_migration (s : Schema) (mig : Migration) : Schema :=
  foldl apply_operation s (operations mig).

(** [Comment.post] of [models.py]: [on_delete=CASCADE],
    [related_name='comments']. *)
Definition comment_post_field : ForeignKey :=
  mkForeignKey false false CASCADE "comments" "posts.Post".

(** ** The deletion collector *)

(** What the database or the collector refuses. *)
Inductive DeleteError :=
| ProtectedError
| IntegrityError.

#[export] Instance DeleteError_eq_dec : EqDecision DeleteError.
Proof. solve_decision. Defined.

(** Delete the posts [doomed] selects from [db], and act on the
    comments that point at them by the [on_delete] of [Comment.post]. *)
Definition collect_posts (s : Schema) (db : DB) (doomed : Post -> bool) : result DeleteError DB :=
  let doomed_comment (c : Comment) :=
    match posts db !! comment_post c with Some p => doomed p | None => false end in
  let db' := with_posts db (filter (fun kp => negb (doomed kp.2) = true) (posts db)) (next_post db) in
  let hit := filter (fun kc => doomed_comment kc.2 = true) (comments db) in
  match fk_on_delete <$> s !! ("comment", "post") with
  | Some CASCADE =>
      Ok (with_comments db' (filter (fun kc => negb (doomed_comment kc.2) = true) (comments db))
            (next_comment db))
  | Some PROTECT => if bool_decide (hit = ∅) then Ok db' else Err ProtectedError
  | _ => if bool_decide (hit = ∅) then Ok db' else Err IntegrityError
  end.

(** [group.delete()]: the posts of the group are handled by the
    [on_delete] of [Post.group], then the group row is deleted. *)
Definition collect_delete_group (s : Schema) (db : DB) (gid : nat) : result DeleteError DB :=
  let doomed (p : Post) := bool_decide (group p = Some gid) in
  let related := filter (fun kp => doomed kp.2 = true) (posts db) in
  let db' := with_groups db (delete gid (groups db)) (next_group db) in
  match s !! ("post", "group") with
  | None => Ok db'
  | Some fk =>
      match fk_on_delete fk with
      | CASCADE => collect_posts s db' doomed
      | SET_NULL =>
          if fk_null fk then
            Ok (with_posts db'
                  ((fun p => if doomed p
                             then mkPost (post_pk p) (text p) (pub_date p) (author p) None (image p)
                             else p) <$> posts db) (next_post db))
          else Err IntegrityError
      | PROTECT => if bool_decide (related = ∅) then Ok db' else Err ProtectedError
      | DO_NOTHING => if bool_decide (related = ∅) then Ok db' else Err IntegrityError
      end
  end.

(** ** Lemmas *)

Lemma apply_migration_0003 s :
  is_Some (s !! ("post", "group")) ->
  apply_migration s migration_0003 =
  <[("post", "group") := mkForeignKey true true CASCADE "posts" "posts.Group"]> s.
Proof. intros [f Hf]. cbn. by rewrite Hf. Qed.

(** With [Comment.post] cascading, the collector deletes the group, its
    posts and their comments, as [delete_group] does. *)
Lemma collect_cascade_delete_group s db gid fk :
  s !! ("post", "group") = Some fk -> fk_on_delete fk = CASCADE ->
  s !! ("comment", "post") = Some comment_post_field ->
  collect_delete_group s db gid = Ok (delete_group db gid).
Proof.
  intros Hpg Hod Hcp. unfold collect_delete_group. rewrite Hpg, Hod.
  unfold collect_posts. rewrite Hcp. cbn. unfold delete_group. do 2 f_equal.
  - f_equal. apply map_filter_ext. intros k p _. cbn. by rewrite <-bool_decide_not.
  - apply map_filter_ext. intros k c _. cbn.
    destruct (posts db !! comment_post c); [|done]. by rewrite <-bool_decide_not.
Qed.

(** A project state with both foreign keys, [Post.group] as an older
    migration may have declared it (not nullable, [DO_NOTHING]); its
    definition in migration 0002 is not among the sources. *)
Definition example_state : Schema :=
  {[("post", "group") := mkForeignKey false false DO_NOTHING "posts" "posts.Group";
    ("comment", "post") := comment_post_field]}.

(** ** Properties *)

(** C25: on the project state migration 0003 produces from any state
    that has [Post.group] (and [Comment.post] as [models.py] declares
    it), [Post.group] is a nullable key with [on_delete=CASCADE], and
    deleting a group through Django's deletion collector removes the
    group, exactly the posts of that group and exactly the comments of
    those posts, which is [Models.delete_group]; every other row stays
    and the store stays well formed. *)
Theorem migrated_group_delete s db gid :
  is_Some (s !! ("post", "group")) -> s !! ("comment", "post") = Some comment_post_field ->
  wf db ->
  let s' := apply_migration s migration_0003 in
  (exists fk, s' !! ("post", "group") = Some fk /\ fk_null fk = true /\ fk_on_delete fk = CASCADE) /\
  collect_delete_group s' db gid = Ok (delete_group db gid) /\
  wf (delete_group db gid) /\ groups (delete_group db gid) !! gid = None /\
  (forall k p, posts (delete_group db gid) !! k = Some p <->
               posts db !! k = Some p /\ group p <> Some gid) /\
  (forall k c, comments (delete_group db gid) !! k = Some c <->
               comments db !! k = Some c /\
               forall p, posts db !! comment_post c = Some p -> group p <> Some gid).
Proof.
  intros Hpg Hcp Hwf s'. unfold s'. rewrite apply_migration_0003 by done.
  split; [by eexists; rewrite lookup_insert_eq|].
  split; [|by apply delete_group_cascade].
  eapply collect_cascade_delete_group; [by rewrite lookup_insert_eq|done|].
  by rewrite lookup_insert_ne.
Qed.

Lemma migrated_group_delete_witness :
  collect_delete_group (apply_migration example_state migration_0003) empty_db 1
  = Ok (delete_group empty_db 1).
Proof.
  destruct (migrated_group_delete example_state empty_db 1) as (_ & H & _);
    [by eexists|reflexivity|apply wf_empty|exact H].
Defined.

End Migrations.
