(* ===== verification/Http.v ===== *)
(** * Requests, responses and the view monad

    What the views of [views.py] receive and return, and the Django
    helpers they call: [login_required], [get_object_or_404],
    [redirect] with [reverse] of the URL names of [posts/urls.py], and
    the conversion of exceptions into responses ([Http404] gives a 404,
    any other exception a 500).  [urls.py] and the settings are not in
    the sources: the paths are those of the spec's HTTP surface and
    [LOGIN_URL] is [/auth/login/], as the tests expect.

    A view runs in the monad [M]: it reads and writes the database and
    may raise; an exception keeps the writes made before it (there is
    no transaction around a request). *)

From S2P Require Import Prelude PyInt Paginator Models.
From Stdlib Require Import Ascii.

Module Http.
Import Models.

Inductive Method := GET | POST | HEAD | OTHER.

#[export] Instance Method_eq_dec : EqDecision Method.
Proof. solve_decision. Defined.

(** An uploaded file: its name and whether Pillow reads it as an image. *)
Record Upload := mkUpload { upload_name : string; upload_is_image : bool }.

#[export] Instance Upload_eq_dec : EqDecision Upload.
Proof. solve_decision. Defined.

(** [request.user] is a [User] when the session is authenticated, the
    [AnonymousUser] ([None]) otherwise. *)
Record Request := mkRequest {
  method : Method;
  path : string;
  user : option User;
  GET_params : QueryDict.t;
  POST_params : QueryDict.t;
  FILES : list (string * Upload)
}.

(** A response: a rendered template with its context, a redirect, a
    404, or a 500 for an unhandled exception. *)
Inductive Response (C : Type) :=
| Render (template : string) (context : C)
| Redirect (url : string)
| NotFound
| ServerError.
Arguments Render {C} _ _.
Arguments Redirect {C} _.
Arguments NotFound {C}.
Arguments ServerError {C}.

#[export] Instance Response_eq_dec {C} `{EqDecision C} : EqDecision (Response C).
Proof. solve_decision. Defined.

Definition status_code {C} (r : Response C) : nat :=
  match r with Render _ _ => 200 | Redirect _ => 302 | NotFound => 404 | ServerError => 500 end.

(** The exceptions a view can raise. *)
Inductive Exc :=
| Http404
| OrmExc (e : OrmError)
| PaginatorExc (e : Paginator.PaginatorError).

(** ** The view monad: database state and exceptions *)

Definition M (A : Type) : Type := DB -> result Exc A * DB.

#[export] Instance M_ret : MRet M := fun _ a db => (Ok a, db).
#[export] Instance M_bind : MBind M := fun _ _ f c db =>
  match c db with
  | (Ok a, db') => f a db'
  | (Err e, db') => (Err e, db')
  end.

Definition get_db : M DB := fun db => (Ok db, db).
Definition put_db (db : DB) : M unit := fun _ => (Ok tt, db).
Definition raise {A} (e : Exc) : M A := fun db => (Err e, db).

Definition lift_orm {A} (r : result OrmError A) : M A :=
  match r with Ok a => mret a | Err e => raise (OrmExc e) end.
Definition lift_pag {A} (r : result Paginator.PaginatorError A) : M A :=
  match r with Ok a => mret a | Err e => raise (PaginatorExc e) end.

(** [get_object_or_404]: [DoesNotExist] becomes [Http404];
    [MultipleObjectsReturned] propagates. *)
Definition get_object_or_404 {A} (r : result OrmError A) : M A :=
  match r with
  | Ok a => mret a
  | Err DoesNotExist => raise Http404
  | Err e => raise (OrmExc e)
  end.

(** The handler: run the view, turn an exception into a response. *)
Definition handle {C} (v : M (Response C)) (db : DB) : Response C * DB :=
  match v db with
  | (Ok r, db') => (r, db')
  | (Err Http404, db') => (NotFound, db')
  | (Err _, db') => (ServerError, db')
  end.

(** ** URLs *)

Definition hex_digit (n : nat) : ascii :=
  ascii_of_nat (if bool_decide (n < 10) then 48 + n else 55 + n).

(** [urllib.parse.quote(s, safe='/')] on ASCII strings. *)
Fixpoint url_quote (s : string) : string :=
  match s with
  | EmptyString => EmptyString
  | String c r =>
      let n := nat_of_ascii c in
      if bool_decide ((48 <= n <= 57) \/ (65 <= n <= 90) \/ (97 <= n <= 122)
                      \/ c ∈ ["_"; "."; "-"; "~"; "/"]%char)
      then String c (url_quote r)
      else String "%" (String (hex_digit (n `div` 16)) (String (hex_digit (n `mod` 16))
             (url_quote r)))
  end.

Definition LOGIN_URL : string := "/auth/login/".

(** [request.META['QUERY_STRING']]: the query pairs as the client sent
    them, [k=v] joined by [&]. *)
Definition query_string (q : QueryDict.t) : string :=
  match q with
  | [] => ""
  | kv :: rest =>
      foldl (fun acc kv => acc +:+ "&" +:+ kv.1 +:+ "=" +:+ kv.2) (kv.1 +:+ "=" +:+ kv.2) rest
  end.

(** [request.get_full_path()]: the path, then [?] and the query string
    when there is one. *)
Definition full_path (req : Request) : string :=
  match GET_params req with
  | [] => path req
  | q => path req +:+ "?" +:+ query_string q
  end.

(** [redirect_to_login(request.get_full_path())]. *)
Definition login_redirect (next : string) : string :=
  LOGIN_URL +:+ "?next=" +:+ url_quote next.

(** The named URLs of [posts/urls.py]. *)
Definition url_index : string := "/".
Definition url_group_list (s : string) : string := "/group/" +:+ s +:+ "/".
Definition url_profile (name : string) : string := "/profile/" +:+ name +:+ "/".
Definition url_post_detail (pk : nat) : string :=
  "/posts/" +:+ PyInt.py_str (Z.of_nat pk) +:+ "/".
Definition url_post_edit (pk : nat) : string := url_post_detail pk +:+ "edit/".
Definition url_add_comment (pk : nat) : string := url_post_detail pk +:+ "comment/".
Definition url_post_create : string := "/create/".
Definition url_follow_index : string := "/follow/".
Definition url_profile_follow (name : string) : string := url_profile name +:+ "follow/".
Definition url_profile_unfollow (name : string) : string := url_profile name +:+ "unfollow/".

(** [login_required]: an anonymous request is sent to the login page
    with [next] set to the requested path. *)
Definition login_required {C} (req : Request) (view : User -> M (Response C))
    : M (Response C) :=
  match user req with
  | None => mret (Redirect (login_redirect (full_path req)))
  | Some u => view u
  end.

(** ** Lemmas *)

Lemma bind_step {A B} (c : M A) (f : A -> M B) db a db' :
  c db = (Ok a, db') -> (c ≫= f) db = f a db'.
Proof. intros H. unfold mbind, M_bind. by rewrite H. Qed.

Lemma bind_ret {A B} (a : A) (f : A -> M B) db : (mret a ≫= f) db = f a db.
Proof. reflexivity. Qed.

Lemma bind_get_db {B} (f : DB -> M B) db : (get_db ≫= f) db = f db db.
Proof. reflexivity. Qed.

Lemma bind_raise {A B} e (f : A -> M B) db : (raise e ≫= f) db = (Err e, db).
Proof. reflexivity. Qed.

(** Run a view symbolically: unfold the monad and the decorators and
    split every [match] of the goal and the hypotheses. *)
Ltac run_view :=
  repeat (progress (unfold handle, mbind, M_bind, mret, M_ret, get_db, put_db,
                      get_object_or_404, lift_orm, lift_pag, raise, login_required in *)
          || (case_match; simplify_eq/=)).


End Http.

#[export] Hint Rewrite @Http.bind_ret @Http.bind_get_db @Http.bind_raise : yatube_rw.
