(* ===== verification/Forms.v ===== *)
(** * [PostForm] and [CommentForm]

    [posts/forms.py] is not among the sources; the forms are modelled
    from the spec and the tests: [PostForm] is a model form on [Post]
    with fields [text] (required), [group] (optional choice among the
    groups) and [image] (optional image upload, stored under
    [posts/]); [CommentForm] has the required field [text].  A form is
    bound when it gets data ([request.POST or None]); [is_valid()]
    holds when it is bound and every field cleans.  Field cleaning
    follows Django: a [CharField] strips whitespace and rejects an
    empty required value, a [ModelChoiceField] maps an empty value to
    no choice and anything else to an existing primary key, and a file
    field without upload keeps the instance's file. *)

From S2P Require Import Prelude PyInt Models Http.

Module Forms.
Import Models Http.

Inductive FieldError :=
| TextRequired
| GroupInvalidChoice
| ImageInvalid.

#[export] Instance FieldError_eq_dec : EqDecision FieldError.
Proof. solve_decision. Defined.

(** [x or None] on a [QueryDict] or the [FILES] dictionary: an empty
    one is falsy. *)
Definition or_none {A} (l : list A) : option (list A) :=
  match l with [] => None | _ => Some l end.

Record PostForm := mkPostForm {
  pf_data : option QueryDict.t;
  pf_files : option (list (string * Upload));
  pf_instance : option Post
}.

Record CommentForm := mkCommentForm { cf_data : option QueryDict.t }.

#[export] Instance PostForm_eq_dec : EqDecision PostForm.
Proof. solve_decision. Defined.
#[export] Instance CommentForm_eq_dec : EqDecision CommentForm.
Proof. solve_decision. Defined.

(** The cleaned values of a valid [PostForm]. *)
Record PostCleaned := mkPostCleaned {
  cleaned_text : string; cleaned_group : option nat; cleaned_image : option string }.

Definition files_get (files : option (list (string * Upload))) (k : string) : option Upload :=
  files ≫= fun fs => (foldl (fun acc kv => if bool_decide (kv.1 = k) then Some kv.2 else acc)
                             None fs).

(** [CharField(required=True, strip=True).clean] on [data.get('text')]. *)
Definition clean_text (data : QueryDict.t) : result FieldError string :=
  let v := default "" (PyInt.strip <$> QueryDict.get data "text") in
  if bool_decide (v = "") then Err TextRequired else Ok v.

(** [ModelChoiceField(Group.objects.all(), required=False).clean]. *)
Definition clean_group (db : DB) (data : QueryDict.t) : result FieldError (option nat) :=
  match QueryDict.get data "group" with
  | None | Some "" => Ok None
  | Some v =>
      match PyInt.py_int v with
      | Some z => if bool_decide (0 <= z)%Z && bool_decide (is_Some (groups db !! Z.to_nat z))
                  then Ok (Some (Z.to_nat z)) else Err GroupInvalidChoice
      | None => Err GroupInvalidChoice
      end
  end.

(** [ImageField(upload_to='posts/', required=False).clean(data, initial)]. *)
Definition clean_image (files : option (list (string * Upload))) (initial : option string)
    : result FieldError (option string) :=
  match files_get files "image" with
  | None => Ok initial
  | Some up => if upload_is_image up then Ok (Some ("posts/" +:+ upload_name up))
               else Err ImageInvalid
  end.

Definition errors_of {A} (r : result FieldError A) : list FieldError :=
  match r with Ok _ => [] | Err e => [e] end.

Definition post_form_is_bound (f : PostForm) : bool :=
  bool_decide (is_Some (pf_data f)) || bool_decide (is_Some (pf_files f)).

(** [form.full_clean()]: every field is cleaned and every error kept. *)
Definition post_form_clean (db : DB) (f : PostForm) : result (list FieldError) PostCleaned :=
  let data := default [] (pf_data f) in
  let rt := clean_text data in
  let rg := clean_group db data in
  let ri := clean_image (pf_files f) (pf_instance f ≫= image) in
  match rt, rg, ri with
  | Ok t, Ok g, Ok i => Ok (mkPostCleaned t g i)
  | _, _, _ => Err (errors_of rt ++ errors_of rg ++ errors_of ri)
  end.

Definition post_form_is_valid (db : DB) (f : PostForm) : bool :=
  post_form_is_bound f &&
  match post_form_clean db f with Ok _ => true | Err _ => false end.

Definition comment_form_is_valid (f : CommentForm) : bool :=
  match cf_data f with
  | None => false
  | Some data => match clean_text data with Ok _ => true | Err _ => false end
  end.

(** [PostForm(request.POST or None, files=request.FILES or None,
    instance=...)] *)
Definition PostForm_of (req : Request) (inst : option Post) : PostForm :=
  mkPostForm (or_none (POST_params req)) (or_none (FILES req)) inst.

Definition CommentForm_of (req : Request) : CommentForm :=
  mkCommentForm (or_none (POST_params req)).

(** [PostForm()], the unbound form of a GET. *)
Definition PostForm_empty : PostForm := mkPostForm None None None.

(** [form.save(commit=False)] then [.author = user; .save()]: a new
    post with the cleaned values. *)
Definition save_new_post (db : DB) (c : PostCleaned) (auth : nat) : DB * Post :=
  create_post db auth (cleaned_text c) (cleaned_group c) (cleaned_image c).

(** [form.save()] on the instance: the cleaned values replace the
    post's fields; key, date and author stay. *)
Definition save_instance (db : DB) (p : Post) (c : PostCleaned) : DB :=
  update_post db (mkPost (post_pk p) (cleaned_text c) (pub_date p) (author p)
                          (cleaned_group c) (cleaned_image c)).

(** The classes of Django's form fields that [PostForm] uses, with
    their bases: [ModelChoiceField] is a [ChoiceField], [ImageField] a
    [FileField], and every field a [Field]. *)
Inductive FieldClass := Field | CharField | ChoiceField | ModelChoiceField | FileField | ImageField.

#[export] Instance FieldClass_eq_dec : EqDecision FieldClass.
Proof. solve_decision. Defined.

(** The method resolution order of a field class. *)
Definition mro (c : FieldClass) : list FieldClass :=
  match c with
  | Field => [Field]
  | CharField => [CharField; Field]
  | ChoiceField => [ChoiceField; Field]
  | ModelChoiceField => [ModelChoiceField; ChoiceField; Field]
  | FileField => [FileField; Field]
  | ImageField => [ImageField; FileField; Field]
  end.

(** [isinstance(field, k)] for a field of class [c]. *)
Definition isinstance (c k : FieldClass) : bool := bool_decide (k ∈ mro c).

(** [PostForm.base_fields]: the model form of [Post] with [fields =
    ('text', 'group', 'image')]: a [TextField], a nullable
    [ForeignKey] and an [ImageField] of the model. *)
Definition post_form_fields : list (string * FieldClass) :=
  [("text", CharField); ("group", ModelChoiceField); ("image", ImageField)].

(** [form.fields.get(name)]: every [PostForm] has the same fields. *)
Definition form_field (f : PostForm) (name : string) : option FieldClass :=
  snd <$> head (filter (fun kv => kv.1 = name) post_form_fields).

(** The [group] field names no group: a value that is not an integer,
    a negative one, or the key of no row of the groups table. *)
Definition group_choice_invalid (db : DB) (data : QueryDict.t) : Prop :=
  exists v, QueryDict.get data "group" = Some v /\ v <> "" /\
    forall z, PyInt.py_int v = Some z -> (z < 0)%Z \/ groups db !! Z.to_nat z = None.

(** The [image] upload is not an image. *)
Definition image_invalid (files : option (list (string * Upload))) : Prop :=
  exists up, files_get files "image" = Some up /\ upload_is_image up = false.

(** ** Lemmas *)

Lemma or_none_get (data : QueryDict.t) k v :
  QueryDict.get data k = Some v -> or_none data = Some data.
Proof. by destruct data. Qed.

Lemma clean_group_invalid db data :
  group_choice_invalid db data -> clean_group db data = Err GroupInvalidChoice.
Proof.
  intros (v & Hv & Hne & Hbad). unfold clean_group. rewrite Hv.
  assert (Hmatch : forall r : result FieldError (option nat),
    (match v with "" => Ok None | _ => r end) = r).
  { intros r. destruct v; [done|]. reflexivity. }
  rewrite Hmatch. destruct (PyInt.py_int v) as [z|] eqn:Hz; [|done].
  destruct (Hbad z eq_refl) as [Hneg|Hnone].
  - by rewrite (bool_decide_false (0 <= z)%Z) by lia.
  - rewrite Hnone. case_bool_decide; done.
Qed.

Lemma clean_image_invalid files init :
  image_invalid files -> clean_image files init = Err ImageInvalid.
Proof. intros (up & Hup & Hi). unfold clean_image. by rewrite Hup, Hi. Qed.

(** A field that does not clean makes the form invalid, and its error
    is among the form's errors. *)
Lemma post_form_clean_err db f e :
  clean_group db (default [] (pf_data f)) = Err e \/
  clean_image (pf_files f) (pf_instance f ≫= image) = Err e ->
  exists errs, post_form_clean db f = Err errs /\ e ∈ errs.
Proof.
  unfold post_form_clean. intros [He|He]; rewrite He.
  - destruct (clean_text _), (clean_image _ _); eexists; (split; [reflexivity|set_solver]).
  - destruct (clean_text _), (clean_group _ _); eexists; (split; [reflexivity|set_solver]).
Qed.

Lemma clean_group_exists db data g :
  clean_group db data = Ok (Some g) -> is_Some (groups db !! g).
Proof.
  unfold clean_group. destruct (QueryDict.get data "group") as [v|]; [|done].
  destruct (decide (v = "")) as [->|Hv]; [done|].
  assert (Hmatch : forall r : result FieldError (option nat),
    (match v with "" => Ok None | _ => r end) = r).
  { intros r. destruct v; [done|]. reflexivity. }
  rewrite Hmatch. destruct (PyInt.py_int v) as [z|]; [|done].
  case_bool_decide; simpl; [|done]. case_bool_decide; simpl; [|done]. congruence.
Qed.

(** A group choice that cleaned on [db] is invalid on a database
    without that group. *)
Lemma clean_group_gone db db' data g :
  clean_group db data = Ok (Some g) -> groups db' !! g = None ->
  clean_group db' data = Err GroupInvalidChoice.
Proof.
  intros Hg Hnone. apply clean_group_invalid.
  unfold clean_group in Hg. destruct (QueryDict.get data "group") as [v|] eqn:Hv; [|done].
  destruct (decide (v = "")) as [->|Hne]; [done|].
  exists v. split_and!; [done|done|]. intros z Hz. right.
  assert (Hmatch : forall r : result FieldError (option nat),
    (match v with "" => Ok None | _ => r end) = r).
  { intros r. destruct v; [done|]. reflexivity. }
  rewrite Hmatch, Hz in Hg. destruct (bool_decide _ && bool_decide _); [|done].
  by injection Hg as ->.
Qed.

Lemma post_form_clean_refs db f c :
  post_form_clean db f = Ok c -> from_option (fun g => is_Some (groups db !! g)) True (cleaned_group c).
Proof.
  unfold post_form_clean. destruct (clean_text _), (clean_group db _) as [[g|]|] eqn:Hg,
    (clean_image _ _); intros H; simplify_eq/=; try done.
  by eapply clean_group_exists.
Qed.

End Forms.
