(* ===== verification/Views.v ===== *)
(** * What the views of [posts/views.py] share

    The module constants [POST_ON_PAGE], [POST_ON_PROFILE] and
    [CHAR_IN_POST], the template contexts (a constructor of [Context]
    per context dictionary of the source, with its keys, and a builder
    per [context = {...}] of the views), the judgement [response_typed]
    of what a template may assume of its context, the call of
    the paginator helper, the [is_valid()] of the two forms, and the
    lemmas that evaluate these pieces inside a view.  The views
    themselves are defined with their theorems, one file per group:
    [Listings.v] ([index], [group_posts], [profile], [follow_index]),
    [Posting.v] ([post_detail], [post_create], [post_edit],
    [add_comment]) and [Follows.v] ([profile_follow],
    [profile_unfollow]).  Each view is a computation of the view monad
    [Http.M]; the [@login_required] decorator is [Http.login_required]
    and the [@cache_page] of [index] is in [Cache.v]. *)

From S2P Require Import Prelude PyInt Paginator Models Http Forms.

Module Views.
Import Models Http Forms Paginator.

Definition POST_ON_PAGE : Z := 10.
Definition POST_ON_PROFILE : Z := 10.
Definition CHAR_IN_POST : Z := 200.

(** The context dictionaries passed to [render]. *)
Inductive Context :=
| IndexCtx (page_obj : Page Post) (char_br : Z)
| GroupCtx (group : Group) (page_obj : Page Post) (char_br : Z)
| ProfileCtx (author : User) (page_obj : Page Post) (char_br : Z) (following : bool)
| DetailCtx (post : Post) (is_edit : bool) (form : CommentForm) (comments : list Comment)
| CreateCtx (form : PostForm)
| EditCtx (form : PostForm) (is_edit : bool) (post : Post)
| FollowCtx (page_obj : Page Post) (char_br : Z).

#[export] Instance Context_eq_dec : EqDecision Context.
Proof. solve_decision. Defined.

Abbreviation View := (M (Response Context)).

(** The context dictionaries as the views build them, one per
    [context = {...}] of the source. *)
Definition index_context (page_obj : Page Post) : Context :=
  IndexCtx page_obj CHAR_IN_POST.

Definition group_context (group : Group) (page_obj : Page Post) : Context :=
  GroupCtx group page_obj CHAR_IN_POST.

Definition profile_context (author : User) (page_obj : Page Post) (following : bool) : Context :=
  ProfileCtx author page_obj CHAR_IN_POST following.

Definition detail_context (post : Post) (is_edit : bool) (form : CommentForm)
    (comments : list Comment) : Context :=
  DetailCtx post is_edit form comments.

(** [{'form': form}], written inline twice in [post_create]. *)
Definition create_context (form : PostForm) : Context := CreateCtx form.

Definition edit_context (form : PostForm) (post : Post) : Context :=
  EditCtx form true post.

Definition follow_context (page_obj : Page Post) : Context :=
  FollowCtx page_obj CHAR_IN_POST.

(** ** Well-typed responses

    What a template may assume of the context it receives, as a
    judgement on responses: a context dictionary is rendered with the
    template of its view ([create_post.html] serves both the create and
    the edit form); a [page_obj] is a [Page] as [Paginator.page] builds
    it (the page of its own paginator for its own number) with
    [POST_ON_PAGE] posts per page, next to [char_br = CHAR_IN_POST];
    the comments of a post's page are comments of that post; an edit
    form is bound to the post it edits with [is_edit] set, a create
    form to no instance. *)
Definition context_template (c : Context) : string :=
  match c with
  | IndexCtx _ _ => "posts/index.html"
  | GroupCtx _ _ _ => "posts/group_list.html"
  | ProfileCtx _ _ _ _ => "posts/profile.html"
  | DetailCtx _ _ _ _ => "posts/post_detail.html"
  | CreateCtx _ | EditCtx _ _ _ => "posts/create_post.html"
  | FollowCtx _ _ => "posts/follow.html"
  end.

Definition page_typed (pg : Page Post) (char_br : Z) : bool :=
  bool_decide (page (paginator pg) (page_number pg) = Ok pg /\ per_page (paginator pg) = POST_ON_PAGE /\ char_br = CHAR_IN_POST).

Definition context_typed (c : Context) : bool :=
  match c with
  | IndexCtx pg cb | GroupCtx _ pg cb | ProfileCtx _ pg cb _ | FollowCtx pg cb => page_typed pg cb
  | DetailCtx post _ _ comments => forallb (fun c => bool_decide (comment_post c = post_pk post)) comments
  | CreateCtx form => bool_decide (pf_instance form = None)
  | EditCtx form is_edit post => is_edit && bool_decide (pf_instance form = Some post)
  end.

Definition response_typed (r : Response Context) : bool :=
  match r with
  | Render t c => bool_decide (t = context_template c) && context_typed c
  | _ => true
  end.

(** [cv.page_paginator(request, posts, n)] *)
Definition paginate (req : Request) (ps : list Post) (n : Z) : M (Page Post) :=
  lift_pag (page_paginator (GET_params req) ps n).

(** [form.is_valid()] of a [PostForm], with its cleaned data. *)
Definition valid_cleaned (db : DB) (form : PostForm) : option PostCleaned :=
  if post_form_is_bound form then
    match post_form_clean db form with Ok c => Some c | Err _ => None end
  else None.

(** [form.is_valid()] of a [CommentForm], with its cleaned text. *)
Definition comment_cleaned (form : CommentForm) : option string :=
  cf_data form ≫= fun data =>
    match clean_text data with Ok t => Some t | Err _ => None end.

(** ** Lemmas shared by the theorems on views *)

(** The items a rendered listing shows. *)
Definition shown_posts (r : Response Context) : list Post :=
  match r with
  | Render _ (IndexCtx pg _) | Render _ (GroupCtx _ pg _) | Render _ (ProfileCtx _ pg _ _)
  | Render _ (FollowCtx pg _) => page_object_list pg
  | _ => []
  end.

Lemma paginate_spec req ps db :
  paginate req ps POST_ON_PAGE db = (Ok (spec_page (GET_params req) ps 10), db).
Proof.
  unfold paginate. change POST_ON_PAGE with (Z.of_nat 10).
  by rewrite page_paginator_refines by lia.
Qed.

(** The page [page_paginator] returns for a listing is well typed. *)
Lemma page_paginator_typed GET (ps : list Post) pg :
  page_paginator GET ps POST_ON_PAGE = Ok pg -> page_typed pg CHAR_IN_POST = true.
Proof.
  intros [Hp Hidem]%page_paginator_idem. apply bool_decide_eq_true. split; [done|]. by rewrite Hp.
Qed.

(** The comments [post_detail] shows are comments of its post. *)
Lemma comments_of_typed db pid :
  forallb (fun c => bool_decide (comment_post c = pid)) (comments_of db pid) = true.
Proof.
  apply forallb_forall. intros c Hc. apply bool_decide_eq_true.
  pose proof (comments_of_post db pid) as HF. rewrite Forall_forall in HF.
  apply HF. by apply list_elem_of_In.
Qed.

(** A post form whose group was valid no longer validates once the
    group is gone. *)
Lemma valid_cleaned_group_gone db db' f c g :
  valid_cleaned db f = Some c -> cleaned_group c = Some g -> groups db' !! g = None ->
  valid_cleaned db' f = None.
Proof.
  intros Hv Hcg Hnone. revert Hv. unfold valid_cleaned. destruct (post_form_is_bound f); [|done].
  unfold post_form_clean. set (data := default [] (pf_data f)).
  destruct (clean_group db data) as [og|] eqn:Hg; [|by repeat case_match].
  destruct (clean_text data) as [t|]; [|by repeat case_match].
  destruct (clean_image _ _) as [i|]; [|done].
  intros [= <-]. cbn in Hcg. subst og.
  by rewrite (clean_group_gone _ _ _ _ Hg Hnone).
Qed.

Lemma paginate_profile_spec req ps db :
  paginate req ps POST_ON_PROFILE db = (Ok (spec_page (GET_params req) ps 10), db).
Proof. apply paginate_spec. Qed.

Lemma login_required_anon {C} req (v : User -> M (Response C)) db :
  user req = None -> login_required req v db = (Ok (Redirect (login_redirect (full_path req))), db).
Proof. intros Hu. unfold login_required. by rewrite Hu. Qed.

Lemma login_required_user {C} req (v : User -> M (Response C)) u db :
  user req = Some u -> login_required req v db = v u db.
Proof. intros Hu. unfold login_required. by rewrite Hu. Qed.

Lemma get_object_or_404_Ok {A B} (a : A) (f : A -> M B) db :
  (get_object_or_404 (Ok a) ≫= f) db = f a db.
Proof. reflexivity. Qed.

Lemma put_db_then {B} db' (c : M B) db : (put_db db';; c) db = c db'.
Proof. reflexivity. Qed.

End Views.

#[export] Hint Rewrite Views.paginate_spec Views.paginate_profile_spec
  @Views.get_object_or_404_Ok @Views.put_db_then : yatube_rw.
