(* ===== verification/Listings.v ===== *)
(** * The listing views: [index], [group_posts], [profile], [follow_index]

    Each listing view selects an ordered collection of posts and shows
    one page of it.  The first group of theorems gives each view's
    response on every branch: the rendered page is the page of the
    abstract specification ([Paginator.spec_page], 10 posts per page)
    of the view's query, and an unknown slug or username gives a 404;
    [follow_index] sends anonymous visitors to the login page.  The
    second group says which posts a listing shows on some page (every
    post on the index, the group's posts on its page, the author's on
    the profile, the followed authors' on the feed), and that pages are
    ordered newest first. *)

From S2P Require Import Prelude PyInt Paginator Models Http Forms Views.

Module Listings.
Import Models Http Forms Paginator Views.

(** ** The views *)

Definition index (req : Request) : View :=
  db ← get_db;
  page_obj ← paginate req (all_posts db) POST_ON_PAGE;
  mret (Render "posts/index.html" (index_context page_obj)).

Definition group_posts (req : Request) (slug : string) : View :=
  db ← get_db;
  group ← get_object_or_404 (group_by_slug db slug);
  page_obj ← paginate req (group_posts_of db (group_pk group)) POST_ON_PAGE;
  mret (Render "posts/group_list.html" (group_context group page_obj)).

Definition profile (req : Request) (username : string) : View :=
  db ← get_db;
  author ← get_object_or_404 (user_by_username db username);
  page_obj ← paginate req (author_posts_of db (user_pk author)) POST_ON_PROFILE;
  let following :=
    match user req with
    | Some u => follow_exists db (user_pk u) (user_pk author)
    | None => false
    end in
  mret (Render "posts/profile.html" (profile_context author page_obj following)).

Definition follow_index (req : Request) : View :=
  login_required req (fun u =>
    db ← get_db;
    page_obj ← paginate req (follow_feed db (user_pk u)) POST_ON_PAGE;
    mret (Render "posts/follow.html" (follow_context page_obj))).


(** The same request with the query string [q]. *)
Definition with_query (req : Request) (q : QueryDict.t) : Request :=
  mkRequest (method req) (path req) (user req) q (POST_params req) (FILES req).

(** The same request asking for page [n]. *)
Definition with_page (req : Request) (n : nat) : Request := with_query req (page_query n).

(** [p] is shown on some page of the listing [v]. *)
Definition shown_on (v : Request -> View) (req : Request) (db : DB) (p : Post) : Prop :=
  exists n, p ∈ shown_posts (handle (v (with_page req n)) db).1.

(** A reference for [follow_index]: the posts whose author the user
    follows, selected with [exists()] on the follow rows instead of the
    join [author__following__user]. *)
Definition follow_index_ref (req : Request) : View :=
  login_required req (fun u =>
    db ← get_db;
    page_obj ← paginate req (posts_where (fun p => follow_exists db (user_pk u) (author p)) db)
                 POST_ON_PAGE;
    mret (Render "posts/follow.html" (FollowCtx page_obj CHAR_IN_POST))).

(** ** Responses of the listing views *)

(** A store for the examples: alice (key 1) follows bob (key 2), and
    bob has written [n] posts in the group [cats] (key 1), one second
    apart. *)
Fixpoint bob_writes (n : nat) (db : DB) : DB :=
  match n with
  | 0 => db
  | S n => bob_writes n (tick (create_post db 2 "a post" (Some 1) None).1 1)
  end.

Definition feed_base : DB :=
  (create_follow (create_group (create_user (create_user empty_db "alice").1 "bob").1
                    "Cats" "cats" "").1 1 2).1.

Definition feed_db : DB := bob_writes 12 feed_base.

Lemma wf_bob_writes n db :
  wf db -> is_Some (users db !! 2) -> is_Some (groups db !! 1) -> wf (bob_writes n db).
Proof.
  revert db. induction n as [|n IH]; intros db Hwf Hu Hg; [done|]. cbn.
  apply IH; [|done|done]. apply wf_tick, wf_create_post; [done|by split].
Qed.

Lemma wf_feed_db : wf feed_db.
Proof.
  apply wf_bob_writes; [|by eexists|by eexists].
  apply wf_create_follow; [| by eexists | by eexists | reflexivity].
  apply wf_create_group; [|reflexivity].
  apply wf_create_user; [|reflexivity]. apply wf_create_user; [apply wf_empty|reflexivity].
Qed.

(** C1: [index] renders [posts/index.html] with the page of all posts,
    newest first, that the [page] parameter selects, and the excerpt
    length 200; it never fails and does not write. *)
Theorem index_spec req db :
  handle (index req) db =
  (Render "posts/index.html" (IndexCtx (spec_page (GET_params req) (all_posts db) 10) CHAR_IN_POST), db).
Proof.
  unfold handle, index. rewrite bind_get_db.
  by erewrite bind_step by apply paginate_spec.
Qed.

(** C2: [group_posts] answers 404 for an unknown slug and otherwise
    renders the selected page of the group's posts. *)
Theorem group_posts_spec req s db :
  wf db ->
  handle (group_posts req s) db =
  match group_by_slug db s with
  | Ok g => (Render "posts/group_list.html"
               (GroupCtx g (spec_page (GET_params req) (group_posts_of db (group_pk g)) 10)
                  CHAR_IN_POST), db)
  | Err _ => (NotFound, db)
  end.
Proof.
  intros Hwf. pose proof (group_by_slug_wf db s Hwf) as Hg.
  unfold handle, group_posts. rewrite bind_get_db.
  destruct (group_by_slug db s) as [g|e]; [|by destruct Hg as [-> _]].
  rewrite get_object_or_404_Ok. by erewrite bind_step by apply paginate_spec.
Qed.

Lemma group_posts_spec_witness :
  wf empty_db /\
  handle (group_posts (mkRequest GET "/group/x/" None [] [] []) "x") empty_db = (NotFound, empty_db).
Proof.
  split; [apply wf_empty|]. rewrite (group_posts_spec _ "x" empty_db wf_empty). reflexivity.
Defined.

(** C3: [profile] answers 404 for an unknown username and otherwise
    renders the selected page of the author's posts, with [following]
    true exactly when the visitor is logged in and follows the author. *)
Theorem profile_spec req name db :
  wf db ->
  handle (profile req name) db =
  match user_by_username db name with
  | Ok a =>
      let following := match user req with
                       | Some u => follow_exists db (user_pk u) (user_pk a)
                       | None => false end in
      (Render "posts/profile.html"
         (ProfileCtx a (spec_page (GET_params req) (author_posts_of db (user_pk a)) 10)
            CHAR_IN_POST following), db)
  | Err _ => (NotFound, db)
  end.
Proof.
  intros Hwf. pose proof (user_by_username_wf db name Hwf) as Hu.
  unfold handle, profile. rewrite bind_get_db.
  destruct (user_by_username db name) as [a|e]; [|by destruct Hu as [-> _]].
  rewrite get_object_or_404_Ok. by erewrite bind_step by apply paginate_profile_spec.
Qed.

Lemma profile_spec_witness :
  wf empty_db /\
  handle (profile (mkRequest GET "/profile/x/" None [] [] []) "x") empty_db = (NotFound, empty_db).
Proof.
  split; [apply wf_empty|]. rewrite (profile_spec _ "x" empty_db wf_empty). reflexivity.
Defined.

(** C4: [follow_index] sends an anonymous visitor to the login page
    with [next] set to the requested path, and renders for a logged-in
    user the selected page of the posts of the authors they follow. *)
Theorem follow_index_spec req db :
  handle (follow_index req) db =
  match user req with
  | None => (Redirect (login_redirect (full_path req)), db)
  | Some u => (Render "posts/follow.html"
                 (FollowCtx (spec_page (GET_params req) (follow_feed db (user_pk u)) 10)
                    CHAR_IN_POST), db)
  end.
Proof.
  unfold handle, follow_index, login_required. destruct (user req) as [u|]; [|done].
  rewrite bind_get_db. by erewrite bind_step by apply paginate_spec.
Qed.

(** ** Which posts a listing shows *)

(** The posts each listing view shows, on every branch. *)
Lemma index_shown req db :
  shown_posts (handle (index req) db).1 =
  page_object_list (spec_page (GET_params req) (all_posts db) 10).
Proof.
  unfold handle, index. rewrite bind_get_db. by erewrite bind_step by apply paginate_spec.
Qed.

Lemma group_posts_shown req s db :
  wf db ->
  shown_posts (handle (group_posts req s) db).1 =
  match group_by_slug db s with
  | Ok g => page_object_list (spec_page (GET_params req) (group_posts_of db (group_pk g)) 10)
  | Err _ => []
  end.
Proof.
  intros Hwf. pose proof (group_by_slug_wf db s Hwf) as Hg.
  unfold handle, group_posts. rewrite bind_get_db.
  destruct (group_by_slug db s) as [g|e]; [|by destruct Hg as [-> _]].
  rewrite get_object_or_404_Ok. by erewrite bind_step by apply paginate_spec.
Qed.

Lemma profile_shown req name db :
  wf db ->
  shown_posts (handle (profile req name) db).1 =
  match user_by_username db name with
  | Ok a => page_object_list (spec_page (GET_params req) (author_posts_of db (user_pk a)) 10)
  | Err _ => []
  end.
Proof.
  intros Hwf. pose proof (user_by_username_wf db name Hwf) as Hu.
  unfold handle, profile. rewrite bind_get_db.
  destruct (user_by_username db name) as [a|e]; [|by destruct Hu as [-> _]].
  rewrite get_object_or_404_Ok. by erewrite bind_step by apply paginate_profile_spec.
Qed.

Lemma follow_index_shown req db :
  shown_posts (handle (follow_index req) db).1 =
  match user req with
  | Some u => page_object_list (spec_page (GET_params req) (follow_feed db (user_pk u)) 10)
  | None => []
  end.
Proof.
  unfold handle, follow_index, login_required. destruct (user req) as [u|]; [|done].
  rewrite bind_get_db. by erewrite bind_step by apply paginate_spec.
Qed.

Lemma spec_page_items {A} q (ps : list A) N :
  exists k, 1 <= k /\ page_object_list (spec_page q ps N) = spec_items ps N k.
Proof.
  eexists. split; [|reflexivity].
  apply (spec_number_range (length ps) N).
Qed.

(** A view that shows, for every page number, that page of [ps] shows
    on some page exactly the posts of [ps]. *)
Lemma shown_listing (v : Request -> View) req db ps p :
  (forall n, shown_posts (handle (v (with_page req n)) db).1
             = page_object_list (spec_page (page_query n) ps 10)) ->
  shown_on v req db p <-> p ∈ ps.
Proof.
  intros Hv. unfold shown_on. setoid_rewrite Hv. split.
  - intros [n Hn]. destruct (spec_page_items (page_query n) ps 10) as (k & Hk & Heq).
    rewrite Heq in Hn. eapply elem_of_sublist; [done|]. by apply spec_items_sublist.
  - intros Hp. apply (in_some_page ps 10) in Hp as (n & Hn & Hin); [|lia].
    exists n. by rewrite spec_page_at.
Qed.

Lemma shown_nothing (v : Request -> View) req db p :
  (forall n, shown_posts (handle (v (with_page req n)) db).1 = []) -> ~ shown_on v req db p.
Proof. intros Hv [n Hn]. rewrite Hv in Hn. set_solver. Qed.

(** C5: every post of the database is shown on some page of the index,
    and only those. *)
Theorem index_shows_every_post req db p :
  shown_on index req db p <-> exists k, posts db !! k = Some p.
Proof.
  rewrite (shown_listing _ _ _ (all_posts db)).
  - unfold all_posts. by rewrite elem_of_order_posts, elem_of_table_rows.
  - intros n. apply index_shown.
Qed.

(** C6: a group's page shows exactly the posts of that group: a post
    of another group, or of none, is on no page of it. *)
Theorem group_page_shows req s db p :
  wf db ->
  shown_on (fun r => group_posts r s) req db p <->
  exists g, group_by_slug db s = Ok g /\ (exists k, posts db !! k = Some p) /\
            group p = Some (group_pk g).
Proof.
  intros Hwf. destruct (group_by_slug db s) as [g|e] eqn:Hg.
  - rewrite (shown_listing _ _ _ (group_posts_of db (group_pk g))).
    + unfold group_posts_of. rewrite elem_of_posts_where, bool_decide_eq_true. naive_solver.
    + intros n. by rewrite group_posts_shown, Hg.
  - split; [|naive_solver]. intros H. exfalso. revert H. apply shown_nothing. intros n.
    by rewrite group_posts_shown, Hg.
Qed.

Lemma group_page_shows_witness :
  wf empty_db /\
  ~ shown_on (fun r => group_posts r "x") (mkRequest GET "/group/x/" None [] [] []) empty_db
      (mkPost 1 "t" 0 1 None None).
Proof.
  split; [apply wf_empty|]. rewrite group_page_shows by apply wf_empty.
  intros (g & Hg & _). discriminate Hg.
Defined.

(** C7: an author's profile shows exactly the author's posts. *)
Theorem profile_page_shows req name db p :
  wf db ->
  shown_on (fun r => profile r name) req db p <->
  exists a, user_by_username db name = Ok a /\ (exists k, posts db !! k = Some p) /\
            author p = user_pk a.
Proof.
  intros Hwf. destruct (user_by_username db name) as [a|e] eqn:Ha.
  - rewrite (shown_listing _ _ _ (author_posts_of db (user_pk a))).
    + unfold author_posts_of. rewrite elem_of_posts_where, bool_decide_eq_true. naive_solver.
    + intros n. by rewrite profile_shown, Ha.
  - split; [|naive_solver]. intros H. exfalso. revert H. apply shown_nothing. intros n.
    by rewrite profile_shown, Ha.
Qed.

Lemma profile_page_shows_witness :
  wf empty_db /\
  ~ shown_on (fun r => profile r "x") (mkRequest GET "/profile/x/" None [] [] []) empty_db
      (mkPost 1 "t" 0 1 None None).
Proof.
  split; [apply wf_empty|]. rewrite profile_page_shows by apply wf_empty.
  intros (a & Ha & _). discriminate Ha.
Defined.

(** C8: the feed of a logged-in user shows exactly the posts whose
    author the user follows; an anonymous visitor sees no feed. *)
Theorem feed_shows req db p :
  shown_on follow_index req db p <->
  exists u, user req = Some u /\ (exists k, posts db !! k = Some p) /\
            follow_exists db (user_pk u) (author p) = true.
Proof.
  destruct (user req) as [u|] eqn:Hu.
  - rewrite (shown_listing _ _ _ (follow_feed db (user_pk u))).
    + rewrite elem_of_follow_feed. naive_solver.
    + intros n. rewrite follow_index_shown. simpl. by rewrite Hu.
  - split; [|naive_solver]. intros H. exfalso. revert H. apply shown_nothing. intros n.
    rewrite follow_index_shown. simpl. by rewrite Hu.
Qed.

Lemma spec_page_sorted {A} (R : relation A) q (ps : list A) N :
  StronglySorted R ps -> StronglySorted R (page_object_list (spec_page q ps N)).
Proof.
  destruct (spec_page_items q ps N) as (k & Hk & ->).
  apply StronglySorted_sublist, spec_items_sublist, Hk.
Qed.

(** C9: every listing page is ordered newest first. *)
Theorem listings_sorted req db s name :
  wf db ->
  StronglySorted post_before (shown_posts (handle (index req) db).1) /\
  StronglySorted post_before (shown_posts (handle (group_posts req s) db).1) /\
  StronglySorted post_before (shown_posts (handle (profile req name) db).1) /\
  StronglySorted post_before (shown_posts (handle (follow_index req) db).1).
Proof.
  intros Hwf. rewrite index_shown, group_posts_shown, profile_shown, follow_index_shown by done.
  split; [|split; [|split]].
  - apply spec_page_sorted, order_posts_sorted.
  - destruct (group_by_slug db s); [|constructor]. apply spec_page_sorted, order_posts_sorted.
  - destruct (user_by_username db name); [|constructor].
    apply spec_page_sorted, order_posts_sorted.
  - destruct (user req); [|constructor]. apply spec_page_sorted, order_posts_sorted.
Qed.

Lemma listings_sorted_witness :
  (StronglySorted post_before (shown_posts (handle (index (mkRequest GET "/follow/" (Some (mkUser 1 "alice")) [("page", "2")] [] [])) feed_db).1) /\
   StronglySorted post_before (shown_posts (handle (group_posts (mkRequest GET "/follow/" (Some (mkUser 1 "alice")) [("page", "2")] [] []) "cats") feed_db).1) /\
   StronglySorted post_before (shown_posts (handle (profile (mkRequest GET "/follow/" (Some (mkUser 1 "alice")) [("page", "2")] [] []) "bob") feed_db).1) /\
   StronglySorted post_before (shown_posts (handle (follow_index (mkRequest GET "/follow/" (Some (mkUser 1 "alice")) [("page", "2")] [] [])) feed_db).1)) /\
  length (shown_posts (handle (follow_index (mkRequest GET "/follow/" (Some (mkUser 1 "alice")) [("page", "2")] [] [])) feed_db).1) = 2.
Proof.
  split; [apply (listings_sorted (mkRequest GET "/follow/" (Some (mkUser 1 "alice")) [("page", "2")] [] []) feed_db "cats" "bob" wf_feed_db)|].
  vm_compute. reflexivity.
Defined.

(** C10: in a well-formed database (one follow row per pair) the feed
    shows no post twice. *)
Theorem feed_no_duplicates req db :
  wf db -> NoDup (shown_posts (handle (follow_index req) db).1).
Proof.
  intros Hwf. rewrite follow_index_shown.
  destruct (user req) as [u|]; [|constructor].
  destruct (spec_page_items (GET_params req) (follow_feed db (user_pk u)) 10) as (k & Hk & ->).
  eapply sublist_NoDup; [|by apply spec_items_sublist].
  rewrite follow_feed_as_filter by done. apply NoDup_order_posts, NoDup_filter.
  eapply NoDup_table_rows, wf_posts, Hwf.
Qed.

Lemma feed_no_duplicates_witness :
  NoDup (shown_posts (handle (follow_index (mkRequest GET "/follow/" (Some (mkUser 1 "alice")) [] [] [])) feed_db).1) /\
  length (shown_posts (handle (follow_index (mkRequest GET "/follow/" (Some (mkUser 1 "alice")) [] [] [])) feed_db).1) = 10.
Proof. split; [apply (feed_no_duplicates _ feed_db wf_feed_db)|vm_compute; reflexivity]. Defined.

(** C32: in a well-formed store (at most one follow row per pair)
    [follow_index], whose query is a join over the follow rows, answers
    every request exactly as the reference view that keeps the posts
    whose author the user follows: same response, same database. *)
Theorem follow_index_equiv req db :
  wf db -> handle (follow_index req) db = handle (follow_index_ref req) db.
Proof.
  intros Hwf. unfold handle, follow_index, follow_index_ref, login_required.
  destruct (user req) as [u|]; [|done]. rewrite !bind_get_db.
  by rewrite follow_feed_as_filter by done.
Qed.

Lemma follow_index_equiv_witness :
  handle (follow_index (mkRequest GET "/follow/" (Some (mkUser 1 "alice")) [] [] [])) feed_db = handle (follow_index_ref (mkRequest GET "/follow/" (Some (mkUser 1 "alice")) [] [] [])) feed_db /\
  length (shown_posts (handle (follow_index (mkRequest GET "/follow/" (Some (mkUser 1 "alice")) [] [] [])) feed_db).1) = 10.
Proof. split; [apply follow_index_equiv, wf_feed_db|vm_compute; reflexivity]. Defined.

(** C33: a listing page never holds more than [POST_ON_PAGE] posts,
    whatever the request and the database: on the index, a group's
    page, a profile and the feed. *)
Theorem listing_page_bounded req db s name :
  wf db ->
  Forall (fun r => length (shown_posts r) <= Z.to_nat POST_ON_PAGE)
    [(handle (index req) db).1; (handle (group_posts req s) db).1;
     (handle (profile req name) db).1; (handle (follow_index req) db).1].
Proof.
  intros Hwf. repeat apply Forall_cons_2; try apply Forall_nil_2; cbn beta;
    [rewrite index_shown|rewrite group_posts_shown by done|rewrite profile_shown by done
    |rewrite follow_index_shown]; repeat case_match; first [apply length_spec_items|cbn; lia].
Qed.

Lemma listing_page_bounded_witness :
  Forall (fun r => length (shown_posts r) <= Z.to_nat POST_ON_PAGE)
    [(handle (index (mkRequest GET "/follow/" (Some (mkUser 1 "alice")) [] [] [])) feed_db).1; (handle (group_posts (mkRequest GET "/follow/" (Some (mkUser 1 "alice")) [] [] []) "cats") feed_db).1;
     (handle (profile (mkRequest GET "/follow/" (Some (mkUser 1 "alice")) [] [] []) "bob") feed_db).1; (handle (follow_index (mkRequest GET "/follow/" (Some (mkUser 1 "alice")) [] [] [])) feed_db).1] /\
  length (shown_posts (handle (index (mkRequest GET "/follow/" (Some (mkUser 1 "alice")) [] [] [])) feed_db).1) = 10.
Proof. split; [apply listing_page_bounded, wf_feed_db|vm_compute; reflexivity]. Defined.

(** C34: a page number out of range, past the last page or below 1
    ([?page=0], [?page=-3]), is not an error and not the first page:
    the index shows the last page. *)
Theorem index_out_of_range_last req db (z : Z) :
  (z < 1 \/ Z.of_nat (spec_num_pages (length (all_posts db)) 10) < z)%Z ->
  shown_posts (handle (index (with_query req [("page", PyInt.py_str z)])) db).1 =
  shown_posts (handle (index (with_page req (spec_num_pages (length (all_posts db)) 10))) db).1.
Proof.
  intros Hz. rewrite !index_shown. cbn [GET_params with_page with_query].
  rewrite spec_page_out_of_range by done. rewrite spec_page_at; [done|].
  split; [apply spec_num_pages_pos|done].
Qed.

Lemma index_out_of_range_last_witness :
  shown_posts (handle (index (with_query (mkRequest GET "/" None [] [] []) [("page", "0")]))
                 empty_db).1 =
  shown_posts (handle (index (with_page (mkRequest GET "/" None [] [] [])
                                 (spec_num_pages (length (all_posts empty_db)) 10))) empty_db).1.
Proof. apply (index_out_of_range_last _ _ 0%Z). left. lia. Defined.

End Listings.
