(* ===== verification/Follows.v ===== *)
(** * Following authors: [profile_follow] and [profile_unfollow]

    [profile_follow] creates the follow row [(request.user, author)]
    only when the user is not the author and the row does not exist yet,
    and always redirects to the author's profile; [profile_unfollow]
    fetches the row with [Follow.objects.get] and deletes it.  The
    theorems give both views' behaviour on every branch: a follow leaves
    exactly one row for the pair however often it is repeated, a self
    follow changes nothing, both views keep the store invariant [wf] and
    the rule that nobody follows themselves, and unfollowing an author
    one does not follow raises [DoesNotExist], which the view does not
    catch: the response is a server error; with two rows for the pair
    (which concurrent follows can leave, see [Concurrency.v]) it raises
    [MultipleObjectsReturned]. *)

From S2P Require Import Prelude PyInt Paginator Models Http Forms Views.

Module Follows.
Import Models Http Forms Paginator Views.

(** ** The views *)

Definition profile_follow (req : Request) (username : string) : View :=
  login_required req (fun u =>
    db ← get_db;
    author ← get_object_or_404 (user_by_username db username);
    let following_exists := follow_exists db (user_pk u) (user_pk author) in
    (if bool_decide (user_pk u <> user_pk author) && negb following_exists
     then put_db (create_follow db (user_pk u) (user_pk author)).1
     else mret tt);;
    mret (Redirect (url_profile username))).

Definition profile_unfollow (req : Request) (username : string) : View :=
  login_required req (fun u =>
    db ← get_db;
    author ← get_object_or_404 (user_by_username db username);
    f ← lift_orm (get_one (follows_of db (user_pk u) (user_pk author)));
    put_db (delete_follow db f);;
    mret (Redirect (url_profile username))).


(** The logged-in user of the request is a row of the users table. *)
Definition session_ok (db : DB) (req : Request) : Prop :=
  forall u, user req = Some u -> users db !! user_pk u = Some u.

Lemma profile_follow_run req name db u a :
  user req = Some u -> user_by_username db name = Ok a ->
  handle (profile_follow req name) db =
  (Redirect (url_profile name),
   if bool_decide (user_pk u <> user_pk a) && negb (follow_exists db (user_pk u) (user_pk a))
   then (create_follow db (user_pk u) (user_pk a)).1 else db).
Proof.
  intros Hu Ha. unfold handle, profile_follow. rewrite (login_required_user _ _ u) by done.
  rewrite bind_get_db, Ha, get_object_or_404_Ok.
  by destruct (bool_decide _ && _).
Qed.

Lemma profile_unfollow_run req name db u a :
  user req = Some u -> user_by_username db name = Ok a ->
  handle (profile_unfollow req name) db =
  match get_one (follows_of db (user_pk u) (user_pk a)) with
  | Ok f => (Redirect (url_profile name), delete_follow db f)
  | Err _ => (ServerError, db)
  end.
Proof.
  intros Hu Ha. unfold handle, profile_unfollow. rewrite (login_required_user _ _ u) by done.
  rewrite bind_get_db, Ha, get_object_or_404_Ok.
  by destruct (get_one _).
Qed.

Lemma author_in_users db name a :
  wf db -> user_by_username db name = Ok a -> users db !! user_pk a = Some a.
Proof.
  intros Hwf Ha. pose proof (user_by_username_wf db name Hwf) as H. rewrite Ha in H.
  destruct H as [[k Hk] _]. by destruct (wf_users _ Hwf _ _ Hk) as [-> _].
Qed.

(** ** Properties *)

(** A database with the users [alice] (key 1) and [bob] (key 2). *)
Definition alice : User := mkUser 1 "alice".
Definition bob : User := mkUser 2 "bob".
Definition two_users : DB := (create_user (create_user empty_db "alice").1 "bob").1.

Lemma wf_two_users : wf two_users.
Proof.
  apply wf_create_user; [apply wf_create_user; [apply wf_empty|done]|].
  vm_compute. reflexivity.
Qed.

Definition as_alice (p : string) : Request := mkRequest GET p (Some alice) [] [] [].

Lemma session_alice db req :
  user req = Some alice -> users db !! 1 = Some alice -> session_ok db req.
Proof. intros Hr H u Hu. rewrite Hr in Hu. by injection Hu as <-. Qed.

(** C11: a logged-in user's follow request redirects to the profile
    of the user followed; when that is another user, exactly one follow
    row links them afterwards, whether or not one existed before (a
    repeated follow does not duplicate the row); following oneself
    leaves the database as it was. *)
Theorem follow_leaves_one_row req name db u a :
  wf db -> session_ok db req -> user req = Some u -> user_by_username db name = Ok a ->
  (handle (profile_follow req name) db).1 = Redirect (url_profile name) /\
  (user_pk u <> user_pk a ->
   follow_count (handle (profile_follow req name) db).2 (user_pk u) (user_pk a) = 1) /\
  (user_pk u = user_pk a -> (handle (profile_follow req name) db).2 = db).
Proof.
  intros Hwf Hs Hu Ha. rewrite (profile_follow_run req name db u a) by done.
  split; [done|]. split; intros Hne.
  - rewrite bool_decide_true by done. cbn [fst snd].
    destruct (follow_exists db (user_pk u) (user_pk a)) eqn:Hex; cbn [negb andb].
    + by rewrite follow_count_exists, Hex.
    + rewrite follow_count_exists, follow_exists_create; [done|].
      apply wf_create_follow; [done| |by erewrite author_in_users|done].
      by rewrite (Hs u Hu).
  - by rewrite bool_decide_false by tauto.
Qed.

Lemma follow_leaves_one_row_witness :
  follow_count (handle (profile_follow (as_alice "/profile/bob/follow/") "bob") two_users).2 1 2
  = 1 /\
  (handle (profile_follow (as_alice "/profile/alice/follow/") "alice") two_users).2 = two_users.
Proof.
  split.
  - destruct (follow_leaves_one_row (as_alice "/profile/bob/follow/") "bob" two_users alice bob)
      as (_ & H & _); [apply wf_two_users|apply session_alice; reflexivity|reflexivity|
                       vm_compute; reflexivity|].
    apply H. simpl. lia.
  - destruct (follow_leaves_one_row (as_alice "/profile/alice/follow/") "alice" two_users alice alice)
      as (_ & _ & H); [apply wf_two_users|apply session_alice; reflexivity|reflexivity|
                       vm_compute; reflexivity|].
    by apply H.
Defined.

(** [profile_follow] keeps the store well formed and keeps the rule
    that nobody follows themselves. *)
Lemma profile_follow_keeps_invariants req name db :
  wf db -> no_self_follow db -> session_ok db req ->
  wf (handle (profile_follow req name) db).2 /\
  no_self_follow (handle (profile_follow req name) db).2.
Proof.
  intros Hwf Hns Hs. destruct (user req) as [u|] eqn:Hu.
  2: { unfold handle, profile_follow. by rewrite login_required_anon. }
  destruct (user_by_username db name) as [a|e] eqn:Ha.
  2: { pose proof (user_by_username_wf db name Hwf) as He. rewrite Ha in He.
       destruct He as [-> _]. unfold handle, profile_follow.
       rewrite (login_required_user _ _ u), bind_get_db, Ha by done. done. }
  rewrite (profile_follow_run req name db u a) by done. cbn [snd].
  destruct (bool_decide (user_pk u <> user_pk a)) eqn:Hne; [|done].
  destruct (follow_exists db (user_pk u) (user_pk a)) eqn:Hex; cbn [negb andb]; [done|].
  apply bool_decide_eq_true in Hne. split.
  - apply wf_create_follow; [done| |by erewrite author_in_users|done].
    by rewrite (Hs u Hu).
  - by apply no_self_follow_create.
Qed.

(** C13: unfollowing an author one does not follow is not a no-op:
    [Follow.objects.get] raises [DoesNotExist], the view does not catch
    it, and the response is a server error (the database is unchanged). *)
Theorem unfollow_unfollowed_fails req name db u a :
  user req = Some u -> user_by_username db name = Ok a ->
  follow_exists db (user_pk u) (user_pk a) = false ->
  handle (profile_unfollow req name) db = (ServerError, db).
Proof.
  intros Hu Ha Hex. rewrite (profile_unfollow_run req name db u a) by done.
  unfold follow_exists in Hex. apply bool_decide_eq_false in Hex.
  apply dec_stable in Hex. by rewrite Hex.
Qed.

Lemma unfollow_unfollowed_fails_witness :
  handle (profile_unfollow (as_alice "/profile/bob/unfollow/") "bob") two_users
  = (ServerError, two_users).
Proof. apply (unfollow_unfollowed_fails _ _ _ alice bob); reflexivity. Defined.

(** C14: unfollowing a followed author deletes the follow row, redirects
    to the author's profile, and keeps both invariants. *)
Theorem unfollow_removes_row req name db u a :
  wf db -> no_self_follow db -> user req = Some u -> user_by_username db name = Ok a ->
  follow_exists db (user_pk u) (user_pk a) = true ->
  let '(resp, db') := handle (profile_unfollow req name) db in
  resp = Redirect (url_profile name) /\ follow_count db' (user_pk u) (user_pk a) = 0 /\
  wf db' /\ no_self_follow db'.
Proof.
  intros Hwf Hns Hu Ha Hex. rewrite (profile_unfollow_run req name db u a) by done.
  destruct (follows_of_at_most_one db (user_pk u) (user_pk a) Hwf) as [Hnil|[f Hf]].
  { unfold follow_exists in Hex. rewrite Hnil in Hex. done. }
  rewrite Hf. cbn. split; [done|]. split; [|split].
  - rewrite follow_count_exists, follow_exists_delete by (auto using wf_delete_follow).
    done.
  - by apply wf_delete_follow.
  - by apply no_self_follow_delete.
Qed.

(** [profile_unfollow] keeps both invariants on every branch. *)
Lemma profile_unfollow_keeps_invariants req name db :
  wf db -> no_self_follow db ->
  wf (handle (profile_unfollow req name) db).2 /\
  no_self_follow (handle (profile_unfollow req name) db).2.
Proof.
  intros Hwf Hns. destruct (user req) as [u|] eqn:Hu.
  2: { unfold handle, profile_unfollow. by rewrite login_required_anon. }
  destruct (user_by_username db name) as [a|e] eqn:Ha.
  2: { pose proof (user_by_username_wf db name Hwf) as He. rewrite Ha in He.
       destruct He as [-> _]. unfold handle, profile_unfollow.
       rewrite (login_required_user _ _ u), bind_get_db, Ha by done. done. }
  rewrite (profile_unfollow_run req name db u a) by done.
  destruct (get_one _); simpl; [|done].
  split; [by apply wf_delete_follow|by apply no_self_follow_delete].
Qed.

(** [two_users] after alice followed bob. *)
Definition alice_follows_bob : DB := (create_follow two_users 1 2).1.

Lemma wf_alice_follows_bob : wf alice_follows_bob /\ no_self_follow alice_follows_bob.
Proof.
  split.
  - apply wf_create_follow; [apply wf_two_users|by eexists|by eexists|reflexivity].
  - apply no_self_follow_create; [apply map_Forall_empty|lia].
Qed.

Lemma unfollow_removes_row_witness :
  let '(resp, db') :=
    handle (profile_unfollow (as_alice "/profile/bob/unfollow/") "bob") alice_follows_bob in
  resp = Redirect (url_profile "bob") /\ follow_count db' 1 2 = 0 /\
  wf db' /\ no_self_follow db'.
Proof.
  destruct wf_alice_follows_bob as [Hwf Hns].
  apply (unfollow_removes_row _ _ _ alice bob); try done; vm_compute; reflexivity.
Defined.

(** C30: once a pair has two follow rows, as the race leaves it,
    [profile_unfollow] cannot remove them: [Follow.objects.get] raises
    [MultipleObjectsReturned], the response is a server error and the
    database is unchanged. *)
Theorem unfollow_duplicates_fails req name db u a :
  user req = Some u -> user_by_username db name = Ok a ->
  2 <= follow_count db (user_pk u) (user_pk a) ->
  handle (profile_unfollow req name) db = (ServerError, db).
Proof.
  intros Hu Ha Hc. rewrite (profile_unfollow_run req name db u a) by done.
  unfold follow_count in Hc. destruct (follows_of db _ _) as [|f1 [|f2 fs]]; cbn in *; [lia|lia|done].
Qed.

(** Alice followed Bob twice. *)
Definition alice_follows_bob_twice : DB :=
  (create_follow (create_follow two_users 1 2).1 1 2).1.

Lemma unfollow_duplicates_fails_witness :
  handle (profile_unfollow (as_alice "/profile/bob/unfollow/") "bob") alice_follows_bob_twice
  = (ServerError, alice_follows_bob_twice).
Proof.
  apply (unfollow_duplicates_fails _ _ _ alice bob); [reflexivity|vm_compute; reflexivity|].
  vm_compute. lia.
Defined.

End Follows.
