(* ===== verification/Posting.v ===== *)
(** * Writing views: [post_create], [post_edit], [add_comment], and [post_detail]

    The theorems show that an anonymous visitor cannot write anything
    (every [@login_required] view answers with the login redirect and
    leaves the database as it was), and give the behaviour of the
    writing views on each branch: a valid comment adds exactly one
    comment by the requesting user to the post, an invalid one is
    dropped without a message, a post is edited only by its author (any
    other user is redirected to the post without an error), a valid new
    post is saved with the requesting user as author.  [post_detail]
    shows the edit link exactly to the author.  The views keep the store
    invariant [wf]. *)

From S2P Require Import Prelude PyInt Paginator Models Http Forms Views Listings Follows.

Module Posting.
Import Models Http Forms Paginator Views Listings Follows.

(** ** The views *)

Definition post_detail (req : Request) (post_id : nat) : View :=
  db ← get_db;
  post ← get_object_or_404 (post_by_pk db post_id);
  let form := CommentForm_of req in
  let comments := comments_of db (post_pk post) in
  let is_edit := bool_decide ((user_pk <$> user req) = Some (author post)) in
  mret (Render "posts/post_detail.html" (detail_context post is_edit form comments)).

Definition post_create (req : Request) : View :=
  login_required req (fun u =>
    if bool_decide (method req = POST) then
      db ← get_db;
      let form := PostForm_of req None in
      match valid_cleaned db form with
      | Some c =>
          let (db', _) := save_new_post db c (user_pk u) in
          put_db db';;
          mret (Redirect (url_profile (username u)))
      | None => mret (Render "posts/create_post.html" (create_context form))
      end
    else mret (Render "posts/create_post.html" (create_context PostForm_empty))).

Definition post_edit (req : Request) (post_id : nat) : View :=
  login_required req (fun u =>
    db ← get_db;
    post ← get_object_or_404 (post_by_pk db post_id);
    if bool_decide (author post <> user_pk u) then mret (Redirect (url_post_detail post_id))
    else
      let form := PostForm_of req (Some post) in
      match (if bool_decide (method req = POST) then valid_cleaned db form else None) with
      | Some c =>
          put_db (save_instance db post c);;
          mret (Redirect (url_post_detail post_id))
      | None => mret (Render "posts/create_post.html" (edit_context form post))
      end).

Definition add_comment (req : Request) (post_id : nat) : View :=
  login_required req (fun u =>
    db ← get_db;
    post ← get_object_or_404 (post_by_pk db post_id);
    let form := CommentForm_of req in
    match comment_cleaned form with
    | Some t => put_db (create_comment db (post_pk post) (user_pk u) t).1
    | None => mret tt
    end;;
    mret (Redirect (url_post_detail post_id))).


Lemma add_comment_run req pid db u p :
  user req = Some u -> post_by_pk db pid = Ok p ->
  handle (add_comment req pid) db =
  (Redirect (url_post_detail pid),
   match comment_cleaned (CommentForm_of req) with
   | Some t => (create_comment db (post_pk p) (user_pk u) t).1
   | None => db
   end).
Proof.
  intros Hu Hp. unfold handle, add_comment. rewrite (login_required_user _ _ u) by done.
  rewrite bind_get_db, Hp, get_object_or_404_Ok.
  by destruct (comment_cleaned _).
Qed.

Lemma post_edit_run req pid db u p :
  user req = Some u -> post_by_pk db pid = Ok p ->
  handle (post_edit req pid) db =
  if bool_decide (author p <> user_pk u) then (Redirect (url_post_detail pid), db)
  else match (if bool_decide (method req = POST)
              then valid_cleaned db (PostForm_of req (Some p)) else None) with
       | Some c => (Redirect (url_post_detail pid), save_instance db p c)
       | None => (Render "posts/create_post.html" (EditCtx (PostForm_of req (Some p)) true p), db)
       end.
Proof.
  intros Hu Hp. unfold handle, post_edit. rewrite (login_required_user _ _ u) by done.
  rewrite bind_get_db, Hp, get_object_or_404_Ok.
  case_bool_decide; [done|]. by destruct (if bool_decide _ then _ else _).
Qed.

Lemma post_create_run req db u :
  user req = Some u ->
  handle (post_create req) db =
  if bool_decide (method req = POST) then
    match valid_cleaned db (PostForm_of req None) with
    | Some c => (Redirect (url_profile (username u)), (save_new_post db c (user_pk u)).1)
    | None => (Render "posts/create_post.html" (CreateCtx (PostForm_of req None)), db)
    end
  else (Render "posts/create_post.html" (CreateCtx PostForm_empty), db).
Proof.
  intros Hu. unfold handle, post_create. rewrite (login_required_user _ _ u) by done.
  case_bool_decide; [|done]. rewrite bind_get_db.
  destruct (valid_cleaned _ _) as [c|]; [|done].
  by destruct (save_new_post db c (user_pk u)).
Qed.

Lemma valid_cleaned_refs db f c :
  valid_cleaned db f = Some c -> from_option (fun g => is_Some (groups db !! g)) True (cleaned_group c).
Proof.
  unfold valid_cleaned. destruct (post_form_is_bound f); [|done].
  destruct (post_form_clean db f) eqn:Hc; [|done]. intros [= <-].
  by eapply post_form_clean_refs.
Qed.

Lemma post_in_table db pid p :
  wf db -> post_by_pk db pid = Ok p -> posts db !! pid = Some p /\ post_pk p = pid.
Proof.
  intros Hwf Hp. unfold post_by_pk in Hp. destruct (posts db !! pid) as [q|] eqn:Hq; [|done].
  injection Hp as <-. split; [done|]. by destruct (wf_posts _ Hwf _ _ Hq).
Qed.

Lemma comment_cleaned_of req :
  comment_cleaned (CommentForm_of req) =
  match POST_params req with
  | [] => None
  | _ => match clean_text (POST_params req) with Ok t => Some t | Err _ => None end
  end.
Proof. unfold comment_cleaned, CommentForm_of, or_none. by destruct (POST_params req). Qed.

Lemma comment_cleaned_text req s :
  QueryDict.get (POST_params req) "text" = Some s -> PyInt.strip s <> "" ->
  comment_cleaned (CommentForm_of req) = Some (PyInt.strip s).
Proof.
  intros Hs Hne. rewrite comment_cleaned_of.
  destruct (POST_params req) as [|kv q] eqn:Hq; [done|].
  unfold clean_text. rewrite Hs. simpl. by rewrite bool_decide_false.
Qed.

Lemma comment_cleaned_blank req :
  (QueryDict.get (POST_params req) "text" = None \/
   exists s, QueryDict.get (POST_params req) "text" = Some s /\ PyInt.strip s = "") ->
  comment_cleaned (CommentForm_of req) = None.
Proof.
  intros Hblank. rewrite comment_cleaned_of.
  destruct (POST_params req) as [|kv q] eqn:Hq; [done|].
  unfold clean_text. destruct Hblank as [->|(s & -> & Hs)]; simpl; [done|]. by rewrite Hs.
Qed.

(** A database with alice, bob, and post 1 by alice. *)
Definition alice_post_db : DB := (create_post two_users 1 "hello" None None).1.

Lemma wf_alice_post_db : wf alice_post_db.
Proof. apply wf_create_post; [apply wf_two_users|split; [by eexists|done]]. Qed.

(** ** Properties *)

(** C15: an anonymous visitor can write nothing: every view behind
    [@login_required] answers with the redirect to the login page whose
    [next] is the requested path, and leaves the database as it was. *)
Theorem anonymous_cannot_write req pid name db :
  user req = None ->
  Forall (fun v => handle v db = (Redirect (login_redirect (full_path req)), db))
    [post_create req; post_edit req pid; add_comment req pid; follow_index req;
     profile_follow req name; profile_unfollow req name].
Proof.
  intros Hu. repeat apply Forall_cons_2; try apply Forall_nil_2.
  all: unfold handle, post_create, post_edit, add_comment, follow_index, profile_follow,
    profile_unfollow; by rewrite login_required_anon.
Qed.

Lemma anonymous_cannot_write_witness :
  handle (add_comment (mkRequest POST "/posts/1/comment/" None [("text", "hi")] [] []) 1)
    alice_post_db
  = (Redirect "/auth/login/?next=/posts/1/comment/%3Ftext%3Dhi", alice_post_db).
Proof.
  pose proof (anonymous_cannot_write (mkRequest POST "/posts/1/comment/" None [("text", "hi")] [] [])
                1 "" alice_post_db eq_refl) as H.
  inversion H as [|? ? _ H1]; subst. inversion H1 as [|? ? _ H2]; subst.
  inversion H2 as [|? ? H3 _]; subst. exact H3.
Defined.

(** C16: a logged-in user's comment with non-blank text is saved: the
    response redirects to the post, the comment table grows by exactly
    one row, the new row belongs to the post and the user and holds the
    stripped text, and the store stays well formed. *)
Theorem add_comment_saves_one req pid db u p s :
  wf db -> session_ok db req -> user req = Some u -> post_by_pk db pid = Ok p ->
  QueryDict.get (POST_params req) "text" = Some s -> PyInt.strip s <> "" ->
  let '(resp, db') := handle (add_comment req pid) db in
  resp = Redirect (url_post_detail pid) /\
  size (comments db') = S (size (comments db)) /\
  comments db' !! next_comment db
    = Some (mkComment (next_comment db) pid (user_pk u) (PyInt.strip s) (clock db)) /\
  wf db'.
Proof.
  intros Hwf Hs Hu Hp Htext Hne. rewrite (add_comment_run req pid db u p) by done.
  rewrite (comment_cleaned_text req s) by done.
  destruct (post_in_table db pid p Hwf Hp) as [Hin <-].
  split; [done|]. split; [by apply size_create_comment|]. split.
  - simpl. by rewrite lookup_insert_eq.
  - apply wf_create_comment; [done|by eexists|]. rewrite (Hs u Hu). by eexists.
Qed.

Definition alice_comment : Request :=
  mkRequest POST "/posts/1/comment/" (Some alice) [] [("text", " hi ")] [].

Lemma add_comment_saves_one_witness :
  let '(resp, db') := handle (add_comment alice_comment 1) alice_post_db in
  resp = Redirect (url_post_detail 1) /\
  size (comments db') = S (size (comments alice_post_db)) /\
  comments db' !! 1 = Some (mkComment 1 1 1 "hi" 0) /\ wf db'.
Proof.
  apply (add_comment_saves_one alice_comment 1 alice_post_db alice (mkPost 1 "hello" 0 1 None None) " hi ").
  - apply wf_alice_post_db.
  - apply session_alice; reflexivity.
  - reflexivity.
  - reflexivity.
  - reflexivity.
  - vm_compute. discriminate.
Defined.

(** C17: a comment with missing or blank text is dropped without a
    message: the database is unchanged and the response is the same
    redirect to the post as for a saved comment. *)
Theorem add_comment_blank_dropped req pid db u p :
  user req = Some u -> post_by_pk db pid = Ok p ->
  (QueryDict.get (POST_params req) "text" = None \/
   exists s, QueryDict.get (POST_params req) "text" = Some s /\ PyInt.strip s = "") ->
  handle (add_comment req pid) db = (Redirect (url_post_detail pid), db).
Proof.
  intros Hu Hp Hblank. rewrite (add_comment_run req pid db u p) by done.
  by rewrite comment_cleaned_blank.
Qed.

Lemma add_comment_blank_dropped_witness :
  handle (add_comment (mkRequest POST "/posts/1/comment/" (Some alice) [] [("text", "  ")] []) 1)
    alice_post_db = (Redirect (url_post_detail 1), alice_post_db).
Proof.
  apply (add_comment_blank_dropped _ _ _ alice (mkPost 1 "hello" 0 1 None None));
    [reflexivity|reflexivity|].
  right. exists "  ". split; reflexivity.
Defined.

(** C18: a logged-in user who is not the author of a post cannot edit
    it: whatever the request, the response is the redirect to the post
    and the database is unchanged (no error message is shown). *)
Theorem post_edit_non_author_denied req pid db u p :
  user req = Some u -> post_by_pk db pid = Ok p -> author p <> user_pk u ->
  handle (post_edit req pid) db = (Redirect (url_post_detail pid), db).
Proof.
  intros Hu Hp Hne. rewrite (post_edit_run req pid db u p) by done.
  by rewrite bool_decide_true.
Qed.

Lemma post_edit_non_author_denied_witness :
  handle (post_edit (mkRequest POST "/posts/1/edit/" (Some bob) [] [("text", "x")] []) 1)
    alice_post_db = (Redirect (url_post_detail 1), alice_post_db).
Proof.
  apply (post_edit_non_author_denied _ _ _ bob (mkPost 1 "hello" 0 1 None None));
    [reflexivity|reflexivity|simpl; lia].
Defined.

(** C19: the author's valid edit replaces the text, group and image of
    the post and keeps its key, date and author; the number of posts is
    unchanged, the response redirects to the post, and the store stays
    well formed. *)
Theorem post_edit_author_saves req pid db u p c :
  wf db -> user req = Some u -> post_by_pk db pid = Ok p -> author p = user_pk u ->
  method req = POST -> valid_cleaned db (PostForm_of req (Some p)) = Some c ->
  let '(resp, db') := handle (post_edit req pid) db in
  resp = Redirect (url_post_detail pid) /\
  posts db' !! pid = Some (mkPost pid (cleaned_text c) (pub_date p) (author p)
                                  (cleaned_group c) (cleaned_image c)) /\
  size (posts db') = size (posts db) /\ wf db'.
Proof.
  intros Hwf Hu Hp Ha Hm Hc. rewrite (post_edit_run req pid db u p) by done.
  rewrite bool_decide_false by (intros H; by apply H). rewrite bool_decide_true by done.
  rewrite Hc. destruct (post_in_table db pid p Hwf Hp) as [Hin Hpk].
  split; [done|]. split; [|split].
  - simpl. rewrite Hpk. by rewrite lookup_insert_eq.
  - simpl. rewrite Hpk. apply map_size_insert_Some. by eexists.
  - apply wf_update_post; [done|simpl; rewrite Hpk; by eexists|split].
    + simpl. destruct (wf_post_refs _ Hwf _ _ Hin) as [Hauth _]. exact Hauth.
    + simpl. by eapply valid_cleaned_refs.
Qed.

Definition alice_edit : Request :=
  mkRequest POST "/posts/1/edit/" (Some alice) [] [("text", "edited")] [].

Lemma post_edit_author_saves_witness :
  let '(resp, db') := handle (post_edit alice_edit 1) alice_post_db in
  resp = Redirect (url_post_detail 1) /\
  posts db' !! 1 = Some (mkPost 1 "edited" 0 1 None None) /\
  size (posts db') = size (posts alice_post_db) /\ wf db'.
Proof.
  apply (post_edit_author_saves alice_edit 1 alice_post_db alice (mkPost 1 "hello" 0 1 None None)
           (mkPostCleaned "edited" None None)); try reflexivity.
  apply wf_alice_post_db.
Defined.

(** C20: a logged-in user's valid new post is saved with the user as
    author, the cleaned text, group and image, the next key and the
    current date; the table grows by one row, the response redirects to
    the user's profile, and the store stays well formed. *)
Theorem post_create_saves req db u c :
  wf db -> session_ok db req -> user req = Some u -> method req = POST ->
  valid_cleaned db (PostForm_of req None) = Some c ->
  let '(resp, db') := handle (post_create req) db in
  resp = Redirect (url_profile (username u)) /\
  posts db' !! next_post db = Some (mkPost (next_post db) (cleaned_text c) (clock db)
                                           (user_pk u) (cleaned_group c) (cleaned_image c)) /\
  size (posts db') = S (size (posts db)) /\ wf db'.
Proof.
  intros Hwf Hs Hu Hm Hc. rewrite (post_create_run req db u) by done.
  rewrite bool_decide_true, Hc by done. split; [done|]. split; [|split].
  - simpl. by rewrite lookup_insert_eq.
  - by apply size_create_post.
  - apply wf_create_post; [done|split].
    + simpl. rewrite (Hs u Hu). by eexists.
    + simpl. by eapply valid_cleaned_refs.
Qed.

Definition alice_create : Request :=
  mkRequest POST "/create/" (Some alice) [] [("text", "new post")] [].

Lemma post_create_saves_witness :
  let '(resp, db') := handle (post_create alice_create) two_users in
  resp = Redirect (url_profile "alice") /\
  posts db' !! 1 = Some (mkPost 1 "new post" 0 1 None None) /\
  size (posts db') = S (size (posts two_users)) /\ wf db'.
Proof.
  apply (post_create_saves alice_create two_users alice (mkPostCleaned "new post" None None));
    try reflexivity.
  - apply wf_two_users.
  - apply session_alice; reflexivity.
Defined.

(** C21: a GET of [post_create], or a POST whose form does not
    validate, renders [posts/create_post.html] (with the bound form and
    its errors for the POST) and saves nothing. *)
Theorem post_create_no_save req db u :
  user req = Some u ->
  (method req <> POST \/ valid_cleaned db (PostForm_of req None) = None) ->
  exists form, handle (post_create req) db = (Render "posts/create_post.html" (CreateCtx form), db)
               /\ (method req = POST -> form = PostForm_of req None).
Proof.
  intros Hu Hcase. rewrite (post_create_run req db u) by done.
  case_bool_decide as Hm.
  - destruct Hcase as [Hne | ->]; [done|]. by eexists.
  - exists PostForm_empty. split; [done|]. intros; done.
Qed.

Definition alice_blank_create : Request :=
  mkRequest POST "/create/" (Some alice) [] [("text", " ")] [].

Lemma post_create_no_save_witness :
  exists form, handle (post_create alice_blank_create) two_users
               = (Render "posts/create_post.html" (CreateCtx form), two_users) /\
               (method alice_blank_create = POST -> form = PostForm_of alice_blank_create None).
Proof.
  apply (post_create_no_save alice_blank_create two_users alice); [reflexivity|].
  right. reflexivity.
Defined.

(** C22: [post_detail] answers 404 for an unknown post; otherwise it
    renders the post with its comments, the comment form, and [is_edit]
    true exactly when the logged-in visitor is the post's author. *)
Theorem post_detail_spec req pid db :
  match post_by_pk db pid with
  | Ok p => exists is_edit,
      handle (post_detail req pid) db =
        (Render "posts/post_detail.html"
           (DetailCtx p is_edit (CommentForm_of req) (comments_of db (post_pk p))), db) /\
      (is_edit = true <-> exists u, user req = Some u /\ user_pk u = author p)
  | Err _ => handle (post_detail req pid) db = (NotFound, db)
  end.
Proof.
  unfold handle, post_detail. rewrite bind_get_db.
  unfold post_by_pk. destruct (posts db !! pid) as [p|]; [|done].
  rewrite get_object_or_404_Ok. eexists. split; [reflexivity|].
  rewrite bool_decide_eq_true. destruct (user req) as [u|]; simpl; split.
  - intros Heq. injection Heq as <-. eauto.
  - intros (u' & Heq & Hu). injection Heq as <-. by rewrite Hu.
  - done.
  - by intros (u' & ? & _).
Qed.

(** C35: a new post whose [group] names no group (not an integer, a
    negative one, or a key of no row) or whose [image] is not an image
    is refused: the form does not validate, its errors name every bad
    field, [post_create] renders [posts/create_post.html] again with the
    bound form, and nothing is saved. *)
Theorem post_create_rejects_invalid req db u :
  user req = Some u -> method req = POST ->
  group_choice_invalid db (POST_params req) \/ image_invalid (or_none (FILES req)) ->
  handle (post_create req) db =
    (Render "posts/create_post.html" (CreateCtx (PostForm_of req None)), db) /\
  exists errs, post_form_clean db (PostForm_of req None) = Err errs /\
    (group_choice_invalid db (POST_params req) -> GroupInvalidChoice ∈ errs) /\
    (image_invalid (or_none (FILES req)) -> ImageInvalid ∈ errs).
Proof.
  intros Hu Hm Hbad.
  set (D := default [] (or_none (POST_params req))). set (F := or_none (FILES req)).
  assert (Hg : group_choice_invalid db (POST_params req) ->
               clean_group db D = Err GroupInvalidChoice).
  { intros Hb. destruct Hb as (v & Hv & Hrest). unfold D. rewrite (or_none_get _ _ _ Hv). cbn.
    apply clean_group_invalid. by exists v. }
  assert (Hi : image_invalid F -> clean_image F None = Err ImageInvalid)
    by apply clean_image_invalid.
  assert (Herr : exists errs, post_form_clean db (PostForm_of req None) = Err errs /\
    (group_choice_invalid db (POST_params req) -> GroupInvalidChoice ∈ errs) /\
    (image_invalid F -> ImageInvalid ∈ errs)).
  { unfold post_form_clean. cbn [pf_data pf_files pf_instance PostForm_of mbind option_bind]. fold D F.
    exists (errors_of (clean_text D) ++ errors_of (clean_group db D) ++ errors_of (clean_image F None)).
    split; [|split; intros Hb; [rewrite (Hg Hb)|rewrite (Hi Hb)]; cbn; set_solver].
    destruct Hbad as [Hb|Hb]; [rewrite (Hg Hb)|rewrite (Hi Hb)];
      destruct (clean_text D), (clean_group db D), (clean_image F None); reflexivity. }
  split; [|exact Herr]. destruct Herr as (errs & Hc & _).
  rewrite (post_create_run req db u), bool_decide_true by done.
  unfold valid_cleaned. rewrite Hc. by destruct (post_form_is_bound _).
Qed.

(** Alice submits a post for group 7, which does not exist. *)
Definition alice_bad_group : Request :=
  mkRequest POST "/create/" (Some alice) [] [("text", "hi"); ("group", "7")] [].

Lemma post_create_rejects_invalid_witness :
  handle (post_create alice_bad_group) alice_post_db =
    (Render "posts/create_post.html" (CreateCtx (PostForm_of alice_bad_group None)), alice_post_db) /\
  exists errs, post_form_clean alice_post_db (PostForm_of alice_bad_group None) = Err errs /\
    (group_choice_invalid alice_post_db (POST_params alice_bad_group) -> GroupInvalidChoice ∈ errs) /\
    (image_invalid (or_none (FILES alice_bad_group)) -> ImageInvalid ∈ errs).
Proof.
  apply (post_create_rejects_invalid alice_bad_group alice_post_db alice);
    [reflexivity|reflexivity|].
  left. exists "7". split; [reflexivity|]. split; [done|].
  intros z Hz. vm_compute in Hz. injection Hz as <-. right. vm_compute. reflexivity.
Defined.

End Posting.
