(* ===== verification/Cache.v ===== *)
(** * The index page cache: [@cache_page(1 * 20, key_prefix='index_page')]

    Django's [cache_page] wraps a view in the cache middleware: a [GET]
    or [HEAD] request whose key is in the cache and not expired is
    answered with the stored response without running the view;
    otherwise the view runs and a [200] response is stored for the
    timeout.  The key is made of the prefix, the requested URL with its
    query string, and the vary component of the session (the response
    varies on the session cookie, modelled by the logged-in user).

    The cache is an interface, [CacheService], with its laws in
    [CacheLaws] (what a read returns after a write, before and after
    the timeout, and after [clear()]); [cache_page] and its theorems
    are stated against the interface, and the local-memory backend
    [LocMem] (expiry time stored with each entry, an entry with
    [expiry <= now] is absent) is an instance that discharges the laws. *)

From S2P Require Import Prelude PyInt Paginator Models Http Forms Views Listings.

Module Cache.
Import Models Http Views Listings.

(** The cache key of a request. *)
Definition Key : Type := string * string * QueryDict.t * option nat.

(** The operations a cache backend offers, at time [now]. *)
Class CacheService (S : Type) := {
  cache_get : S -> nat -> Key -> option (Response Context);
  cache_set : S -> nat -> Key -> Response Context -> nat -> S;
  cache_clear : S -> S
}.

(** What a backend promises. *)
Class CacheLaws (S : Type) `{CacheService S} := {
  get_set_live s now k v ttl t :
    now <= t < now + ttl -> cache_get (cache_set s now k v ttl) t k = Some v;
  get_set_expired s now k v ttl t :
    now + ttl <= t -> cache_get (cache_set s now k v ttl) t k = None;
  get_set_other s now k k' v ttl t :
    k <> k' -> cache_get (cache_set s now k v ttl) t k' = cache_get s t k';
  get_clear s t k : cache_get (cache_clear s) t k = None
}.

Section CachePage.
Context {S : Type} `{CacheService S}.

Definition cache_key (prefix : string) (req : Request) : Key :=
  (prefix, path req, GET_params req, user_pk <$> user req).

(** The view behind the cache middleware, at time [now]. *)
Definition cache_page (timeout : nat) (prefix : string) (v : Request -> View)
    (req : Request) (s : S) (now : nat) (db : DB) : Response Context * S * DB :=
  let key := cache_key prefix req in
  let run := handle (v req) db in
  if bool_decide (method req = GET \/ method req = HEAD) then
    match cache_get s now key with
    | Some r => (r, s, db)
    | None =>
        let s' := if bool_decide (status_code run.1 = 200)
                  then cache_set s now key run.1 timeout else s in
        (run.1, s', run.2)
    end
  else (run.1, s, run.2).

(** [index] as decorated in [views.py]. *)
Definition index_cached (req : Request) (s : S) (now : nat) (db : DB)
    : Response Context * S * DB :=
  cache_page (1 * 20) "index_page" index req s now db.

End CachePage.

Section CacheFacts.
Context {S : Type} `{CacheLaws S}.

Lemma cache_page_hit timeout prefix v req (s : S) now db r :
  method req = GET -> cache_get s now (cache_key prefix req) = Some r ->
  cache_page timeout prefix v req s now db = (r, s, db).
Proof.
  intros Hm Hr. unfold cache_page. rewrite bool_decide_true by (left; done). by rewrite Hr.
Qed.

Lemma cache_page_miss timeout prefix v req (s : S) now db :
  method req = GET -> cache_get s now (cache_key prefix req) = None ->
  cache_page timeout prefix v req s now db =
  ((handle (v req) db).1,
   if bool_decide (status_code (handle (v req) db).1 = 200)
   then cache_set s now (cache_key prefix req) (handle (v req) db).1 timeout else s,
   (handle (v req) db).2).
Proof.
  intros Hm Hr. unfold cache_page. rewrite bool_decide_true by (left; done). by rewrite Hr.
Qed.

(** The index page rendered from the database [db]. *)
Definition index_page (req : Request) (db : DB) : Response Context :=
  Render "posts/index.html" (IndexCtx (Paginator.spec_page (GET_params req) (all_posts db) 10)
                               CHAR_IN_POST).

Lemma handle_index req db : handle (index req) db = (index_page req db, db).
Proof.
  unfold handle, index. rewrite bind_get_db. by erewrite bind_step by apply paginate_spec.
Qed.

(** C23: a GET of the index that misses the cache renders the page
    from the database and stores it; for the next 20 seconds every GET
    of the same URL by the same session gets that stored page, whatever
    happened to the database meanwhile (posts deleted or added), and
    the view does not run. *)
Theorem index_cache_window req (s : S) t0 db t db' :
  method req = GET -> cache_get s t0 (cache_key "index_page" req) = None ->
  t0 <= t < t0 + 20 ->
  let '(r1, s1, db1) := index_cached req s t0 db in
  r1 = index_page req db /\ db1 = db /\ index_cached req s1 t db' = (r1, s1, db').
Proof.
  intros Hm Hmiss Ht. unfold index_cached. rewrite cache_page_miss by done.
  rewrite handle_index. cbn [fst snd]. rewrite bool_decide_true by done.
  split; [done|]. split; [done|]. apply cache_page_hit; [done|].
  apply get_set_live. lia.
Qed.

(** C24: once the entry has expired (20 seconds after it was stored) or
    the cache has been cleared, a GET of the index renders the page
    from the current database again. *)
Theorem index_cache_refresh req (s : S) t0 db t db' :
  method req = GET -> cache_get s t0 (cache_key "index_page" req) = None ->
  t0 + 20 <= t ->
  let '(_, s1, _) := index_cached req s t0 db in
  (index_cached req s1 t db').1.1 = index_page req db' /\
  (index_cached req (cache_clear s1) t0 db').1.1 = index_page req db'.
Proof.
  intros Hm Hmiss Ht. unfold index_cached. rewrite cache_page_miss by done.
  rewrite handle_index. cbn [fst snd]. rewrite bool_decide_true by done.
  split.
  - rewrite cache_page_miss; [|done|by apply get_set_expired; lia].
    by rewrite handle_index.
  - rewrite cache_page_miss; [|done|apply get_clear]. by rewrite handle_index.
Qed.

(** The keys of two sessions differ. *)
Lemma cache_key_session prefix req1 req2 :
  user_pk <$> user req1 <> user_pk <$> user req2 ->
  cache_key prefix req1 <> cache_key prefix req2.
Proof. unfold cache_key. congruence. Qed.

(** Under the session-user key of [cache_key], the index page cached
    for one session is never served to another: after a GET of the index by one visitor (a hit or a miss
    that stores the page), a GET of the same URL by a visitor of another
    session, with nothing cached under its own key, renders the page
    from the database. *)
Theorem index_cache_per_session req1 req2 (s : S) t0 db t db' :
  method req1 = GET -> method req2 = GET ->
  user_pk <$> user req1 <> user_pk <$> user req2 ->
  cache_get s t (cache_key "index_page" req2) = None ->
  let '(_, s1, _) := index_cached req1 s t0 db in
  (index_cached req2 s1 t db').1.1 = index_page req2 db'.
Proof.
  intros Hm1 Hm2 Hne Hmiss. pose proof (cache_key_session "index_page" _ _ Hne) as Hk.
  unfold index_cached. destruct (cache_get s t0 (cache_key "index_page" req1)) eqn:Hc1.
  - rewrite (cache_page_hit _ _ _ _ _ _ _ r) by done.
    rewrite cache_page_miss by done. by rewrite handle_index.
  - rewrite cache_page_miss by done. rewrite handle_index. cbn [fst snd].
    rewrite bool_decide_true by done. rewrite cache_page_miss; [by rewrite handle_index|done|].
    by rewrite get_set_other.
Qed.

End CacheFacts.

(** ** The local-memory backend *)

Abbreviation LocMem := (gmap Key (Response Context * nat)).

#[export] Instance LocMem_service : CacheService LocMem := {
  cache_get s now k :=
    match s !! k with
    | Some (v, expiry) => if bool_decide (expiry <= now) then None else Some v
    | None => None
    end;
  cache_set s now k v ttl := <[k := (v, now + ttl)]> s;
  cache_clear _ := ∅
}.

#[export] Instance LocMem_laws : CacheLaws LocMem.
Proof.
  split; intros; cbn [cache_get cache_set cache_clear LocMem_service].
  - rewrite lookup_insert_eq. by rewrite bool_decide_false by lia.
  - rewrite lookup_insert_eq. by rewrite bool_decide_true by lia.
  - by rewrite lookup_insert_ne.
  - by rewrite lookup_empty.
Qed.

(** What holds of every response of a view holds of every response
    [cache_page] answers and every page the local-memory cache stores. *)
Lemma cache_page_preserves (P : Response Context -> Prop) (timeout : nat) (prefix : string)
    (v : Request -> View) (req : Request) (s : LocMem) (now : nat) (db : DB) :
  (forall db, P (handle (v req) db).1) -> map_Forall (fun _ e => P e.1) s ->
  P (cache_page timeout prefix v req s now db).1.1 /\
  map_Forall (fun _ e => P e.1) (cache_page timeout prefix v req s now db).1.2.
Proof.
  intros Hv Hs. unfold cache_page. case_bool_decide; [|split; [apply Hv|done]].
  destruct (cache_get s now _) as [r|] eqn:Hg; cbn.
  - split; [|done]. cbn in Hg. case_match; [|done]. destruct p as [r' e].
    case_bool_decide; simplify_eq. by eapply (Hs _ (r, e)).
  - split; [apply Hv|]. case_bool_decide; [|done]. cbn.
    apply map_Forall_insert_2; [apply Hv|done].
Qed.


Definition anon_index : Request := mkRequest GET "/" None [] [] [].

Lemma index_cache_window_witness :
  let '(r1, s1, db1) := index_cached anon_index (∅ : LocMem) 0 empty_db in
  r1 = index_page anon_index empty_db /\ db1 = empty_db /\
  index_cached anon_index s1 5 empty_db = (r1, s1, empty_db).
Proof. apply (index_cache_window anon_index ∅ 0 empty_db 5 empty_db); [done|done|lia]. Defined.

Lemma index_cache_refresh_witness :
  let '(_, s1, _) := index_cached anon_index (∅ : LocMem) 0 empty_db in
  (index_cached anon_index s1 20 empty_db).1.1 = index_page anon_index empty_db /\
  (index_cached anon_index (cache_clear s1) 0 empty_db).1.1 = index_page anon_index empty_db.
Proof. apply (index_cache_refresh anon_index ∅ 0 empty_db 20 empty_db); [done|done|lia]. Defined.

Lemma index_cache_per_session_witness :
  let '(_, s1, _) := index_cached anon_index (∅ : LocMem) 0 empty_db in
  (index_cached (mkRequest GET "/" (Some (mkUser 1 "alice")) [] [] []) s1 5 empty_db).1.1
  = index_page (mkRequest GET "/" (Some (mkUser 1 "alice")) [] [] []) empty_db.
Proof.
  apply (index_cache_per_session anon_index _ ∅ 0 empty_db 5 empty_db); [done|done|done|].
  reflexivity.
Defined.

End Cache.
