(* ===== verification/App.v ===== *)
(** * The whole site: routing and its transition system

    [posts/urls.py] (outside the sources; paths from the spec) maps each
    path to one view of [views.py]; [dispatch] runs the view a route
    names on the site's state, a database and the index cache, with the
    database clock as the time the cache sees.  [step] is the transition
    relation of the site: an HTTP request by a logged-in user or an
    anonymous visitor, the clock moving on, and the actions outside the
    posts application that the spec names (a sign-up, an administrator
    creating or deleting a group, a [cache.clear()]).

    The theorems of this file: the invariant of the site, proved by
    induction on the transition sequence (every reachable state is well
    formed and nobody follows themselves); every response served from a
    reachable state is well typed, cached pages included, by the
    invariant that the cache holds only well-typed pages; every redirect
    resolves again; and from every reachable state a user can come to
    follow any other user. *)

From S2P Require Import Prelude PyInt Paginator Models Http Forms Views Listings Follows Posting Cache.
From Stdlib Require Import Ascii.

Module App.
Import Models Http Forms Paginator Views Listings Follows Posting Cache.

Inductive Route :=
| RIndex
| RGroupPosts (slug : string)
| RProfile (username : string)
| RPostDetail (post_id : nat)
| RPostCreate
| RPostEdit (post_id : nat)
| RAddComment (post_id : nat)
| RFollowIndex
| RProfileFollow (username : string)
| RProfileUnfollow (username : string).

Record World := mkWorld { w_db : DB; w_cache : LocMem }.

Definition view_of (r : Route) : Request -> View :=
  match r with
  | RIndex => index
  | RGroupPosts s => fun req => group_posts req s
  | RProfile n => fun req => profile req n
  | RPostDetail i => fun req => post_detail req i
  | RPostCreate => post_create
  | RPostEdit i => fun req => post_edit req i
  | RAddComment i => fun req => add_comment req i
  | RFollowIndex => follow_index
  | RProfileFollow n => fun req => profile_follow req n
  | RProfileUnfollow n => fun req => profile_unfollow req n
  end.

(** ** Resolving a path *)

(** The separator ['/'] (character 47). *)
Definition is_slash (c : ascii) : bool := bool_decide (nat_of_ascii c = 47).

(** The path split at each [/]: ["/a/b/"] gives [""; "a"; "b"; ""]. *)
Fixpoint split_path (s : string) : list string :=
  match s with
  | EmptyString => [""]
  | String c r =>
      match split_path r with
      | [] => [String c ""]
      | seg :: segs => if is_slash c then "" :: seg :: segs else String c seg :: segs
      end
  end.

(** The path converter [<slug:...>]: [[-a-zA-Z0-9_]+] (45 is [-], 95 is [_]). *)
Definition is_slug_char (c : ascii) : bool :=
  let n := nat_of_ascii c in
  PyInt.is_digit c || bool_decide (65 <= n <= 90) || bool_decide (97 <= n <= 122) ||
  bool_decide (n = 45) || bool_decide (n = 95).

Definition conv_slug (s : string) : option string :=
  if bool_decide (s <> "") && PyInt.all_chars is_slug_char s then Some s else None.

(** [<str:...>]: any non-empty segment (segments hold no ['/']). *)
Definition conv_str (s : string) : option string :=
  if bool_decide (s <> "") then Some s else None.

(** [<int:...>]: [[0-9]+], converted with [int()]. *)
Definition conv_int (s : string) : option nat :=
  if bool_decide (s <> "") && PyInt.all_chars PyInt.is_digit s
  then Z.to_nat <$> PyInt.py_int s else None.

(** The URL patterns of [posts/urls.py], in the order of the spec. *)
Definition resolve (p : string) : option Route :=
  match split_path p with
  | [""; ""] => Some RIndex
  | [""; "group"; s; ""] => RGroupPosts <$> conv_slug s
  | [""; "profile"; n; ""] => RProfile <$> conv_str n
  | [""; "posts"; i; ""] => RPostDetail <$> conv_int i
  | [""; "create"; ""] => Some RPostCreate
  | [""; "posts"; i; "edit"; ""] => RPostEdit <$> conv_int i
  | [""; "posts"; i; "comment"; ""] => RAddComment <$> conv_int i
  | [""; "follow"; ""] => Some RFollowIndex
  | [""; "profile"; n; "follow"; ""] => RProfileFollow <$> conv_str n
  | [""; "profile"; n; "unfollow"; ""] => RProfileUnfollow <$> conv_str n
  | _ => None
  end.

(** One request: [index] goes through its cache, the other views run
    directly. *)
Definition dispatch (r : Route) (req : Request) (w : World) : Response Context * World :=
  match r with
  | RIndex =>
      let '(resp, c, db) := index_cached req (w_cache w) (clock (w_db w)) (w_db w) in
      (resp, mkWorld db c)
  | _ =>
      let '(resp, db) := handle (view_of r req) (w_db w) in
      (resp, mkWorld db (w_cache w))
  end.

(** A request to a path: a path no pattern matches is a 404. *)
Definition serve (req : Request) (w : World) : Response Context * World :=
  match resolve (path req) with
  | Some r => dispatch r req w
  | None => (NotFound, w)
  end.

(** ** What a redirect may point to *)

Definition no_slash : string -> bool := PyInt.all_chars (fun c => negb (is_slash c)).

(** A non-empty path segment: what [<str:...>] accepts. *)
Definition segment_ok (s : string) : bool := bool_decide (s <> "") && no_slash s.

(** The string arguments of a route are path segments. *)
Definition route_args_ok (r : Route) : Prop :=
  match r with
  | RProfile n | RProfileFollow n | RProfileUnfollow n | RGroupPosts n => segment_ok n = true
  | _ => True
  end.

(** The redirects the view of a route may answer with: the login page,
    or the page the code names in its [redirect(...)]. *)
Definition redirect_target (r : Route) (req : Request) (url : string) : Prop :=
  (user req = None /\ url = login_redirect (full_path req)) \/
  match r with
  | RProfileFollow n | RProfileUnfollow n => url = url_profile n
  | RPostEdit i | RAddComment i => url = url_post_detail i
  | RPostCreate => exists u, user req = Some u /\ url = url_profile (username u)
  | _ => False
  end.

(** The route the [redirect(...)] of a route's view names. *)
Definition redirect_route (r : Route) (req : Request) : option Route :=
  match r with
  | RProfileFollow n | RProfileUnfollow n => Some (RProfile n)
  | RPostEdit i | RAddComment i => Some (RPostDetail i)
  | RPostCreate => (fun u => RProfile (username u)) <$> user req
  | _ => None
  end.

(** The cache holds rendered pages only ([cache_page] stores [200]s). *)
Definition cache_ok (w : World) : Prop :=
  map_Forall (fun _ e => status_code e.1 = 200) (w_cache w).

(** Every username is a path segment, as the sign-up form's validator
    ([@.+-_] and letters and digits) ensures. *)
Definition usernames_ok (db : DB) : Prop :=
  map_Forall (fun _ u => segment_ok (username u) = true) (users db).

Inductive step : World -> World -> Prop :=
| StepRequest r req w resp w' :
    session_ok (w_db w) req -> dispatch r req w = (resp, w') -> step w w'
| StepTick w dt :
    step w (mkWorld (tick (w_db w) dt) (w_cache w))
| StepSignup w name :
    user_by_username (w_db w) name = Err DoesNotExist ->
    step w (mkWorld (create_user (w_db w) name).1 (w_cache w))
| StepCreateGroup w t sl d :
    group_by_slug (w_db w) sl = Err DoesNotExist ->
    step w (mkWorld (create_group (w_db w) t sl d).1 (w_cache w))
| StepDeleteGroup w gid :
    step w (mkWorld (delete_group (w_db w) gid) (w_cache w))
| StepCacheClear w :
    step w (mkWorld (w_db w) (cache_clear (w_cache w))).

Definition init : World := mkWorld empty_db ∅.

Definition reachable (w : World) : Prop := star step init w.

(** The invariant of the site. *)
Definition db_ok (db : DB) : Prop := wf db /\ no_self_follow db.
Definition site_ok (w : World) : Prop := db_ok (w_db w).

(** ** Each view keeps the invariant *)

(** The listing and detail views only read. *)
Lemma readonly_views req db :
  (handle (index req) db).2 = db /\
  (forall s, (handle (group_posts req s) db).2 = db) /\
  (forall n, (handle (profile req n) db).2 = db) /\
  (forall i, (handle (post_detail req i) db).2 = db) /\
  (handle (follow_index req) db).2 = db.
Proof.
  split; [by rewrite handle_index|]. split; [|split; [|split]].
  - intros s. unfold handle, group_posts. rewrite bind_get_db.
    destruct (group_by_slug db s) as [g|[]]; [|done|done]. rewrite get_object_or_404_Ok.
    by erewrite bind_step by apply paginate_spec.
  - intros n. unfold handle, profile. rewrite bind_get_db.
    destruct (user_by_username db n) as [a|[]]; [|done|done]. rewrite get_object_or_404_Ok.
    by erewrite bind_step by apply paginate_profile_spec.
  - intros i. unfold handle, post_detail. rewrite bind_get_db.
    unfold post_by_pk. by destruct (posts db !! i).
  - unfold handle, follow_index, login_required. destruct (user req); [|done].
    rewrite bind_get_db. by erewrite bind_step by apply paginate_spec.
Qed.

Lemma add_comment_keeps_invariants req pid db :
  db_ok db -> session_ok db req ->
  wf (handle (add_comment req pid) db).2 /\ no_self_follow (handle (add_comment req pid) db).2.
Proof.
  intros [Hwf Hns] Hs. destruct (user req) as [u|] eqn:Hu.
  2: { unfold handle, add_comment. by rewrite login_required_anon. }
  destruct (post_by_pk db pid) as [p|e] eqn:Hp.
  2: { unfold handle, add_comment. rewrite (login_required_user _ _ u), bind_get_db, Hp by done.
       by destruct e. }
  rewrite (add_comment_run req pid db u p) by done.
  destruct (comment_cleaned _); simpl; [|done]. split; [|done].
  destruct (post_in_table db pid p Hwf Hp) as [Hin <-].
  apply wf_create_comment; [done|by eexists|]. rewrite (Hs u Hu). by eexists.
Qed.

Lemma post_edit_keeps_invariants req pid db :
  db_ok db ->
  wf (handle (post_edit req pid) db).2 /\ no_self_follow (handle (post_edit req pid) db).2.
Proof.
  intros [Hwf Hns]. destruct (user req) as [u|] eqn:Hu.
  2: { unfold handle, post_edit. by rewrite login_required_anon. }
  destruct (post_by_pk db pid) as [p|e] eqn:Hp.
  2: { unfold handle, post_edit. rewrite (login_required_user _ _ u), bind_get_db, Hp by done.
       by destruct e. }
  rewrite (post_edit_run req pid db u p) by done.
  case_bool_decide as Ha; [done|].
  destruct (if bool_decide _ then _ else _) as [c|] eqn:Hc; simpl; [|done].
  split; [|done]. destruct (post_in_table db pid p Hwf Hp) as [Hin Hpk].
  apply wf_update_post; [done|simpl; rewrite Hpk; by eexists|split].
  - simpl. by destruct (wf_post_refs _ Hwf _ _ Hin).
  - simpl. case_bool_decide; [|done]. by eapply valid_cleaned_refs.
Qed.

Lemma post_create_keeps_invariants req db :
  db_ok db -> session_ok db req ->
  wf (handle (post_create req) db).2 /\ no_self_follow (handle (post_create req) db).2.
Proof.
  intros [Hwf Hns] Hs. destruct (user req) as [u|] eqn:Hu.
  2: { unfold handle, post_create. by rewrite login_required_anon. }
  rewrite (post_create_run req db u) by done.
  case_bool_decide; [|done]. destruct (valid_cleaned _ _) as [c|] eqn:Hc; simpl; [|done].
  split; [|done]. apply wf_create_post; [done|split].
  - simpl. rewrite (Hs u Hu). by eexists.
  - simpl. by eapply valid_cleaned_refs.
Qed.

Lemma view_keeps_invariants r req db :
  db_ok db -> session_ok db req -> db_ok (handle (view_of r req) db).2.
Proof.
  intros Hok Hs. destruct (readonly_views req db) as (Hi & Hg & Hp & Hd & Hf).
  destruct r; simpl.
  - by rewrite Hi.
  - by rewrite Hg.
  - by rewrite Hp.
  - by rewrite Hd.
  - by apply post_create_keeps_invariants.
  - by apply post_edit_keeps_invariants.
  - by apply add_comment_keeps_invariants.
  - by rewrite Hf.
  - destruct Hok. by apply profile_follow_keeps_invariants.
  - destruct Hok. by apply profile_unfollow_keeps_invariants.
Qed.

(** The database a request leaves is the one its view leaves; for the
    index, a cache hit leaves it untouched. *)
Lemma dispatch_db r req w :
  (dispatch r req w).2.(w_db) = (handle (view_of r req) (w_db w)).2 \/
  (dispatch r req w).2.(w_db) = w_db w.
Proof.
  destruct r; simpl; try (by destruct (handle _ _); left).
  unfold index_cached, cache_page.
  destruct (bool_decide _); [destruct (cache_get _ _ _)|]; simpl; auto.
Qed.

Lemma step_keeps_invariants w w' : site_ok w -> step w w' -> site_ok w'.
Proof.
  intros Hok Hstep. destruct Hstep as [r req w resp w' Hs Hd| | | | |]; unfold site_ok in *; simpl.
  - destruct (dispatch_db r req w) as [Hv|Hv]; rewrite Hd in Hv; simpl in Hv; rewrite Hv;
      [by apply view_keeps_invariants|done].
  - split; [by apply wf_tick, Hok|apply Hok].
  - split; [by apply wf_create_user; [apply Hok|]|apply Hok].
  - split; [by apply wf_create_group; [apply Hok|]|apply Hok].
  - split; [by apply wf_delete_group, Hok|apply Hok].
  - done.
Qed.

(** C26: every state the site can reach from the empty database, by
    any sequence of requests (logged in or anonymous, to any view),
    clock ticks, sign-ups, group creations and deletions and cache
    clears, is well formed (keys, foreign keys, unique usernames, slugs
    and follow pairs) and has nobody following themselves. *)
Theorem reachable_site_ok w : reachable w -> site_ok w.
Proof.
  intros Hr. eapply star_invariant; [apply step_keeps_invariants| |exact Hr].
  split; [apply wf_empty|apply map_Forall_empty].
Qed.

Lemma reachable_site_ok_witness :
  let w := mkWorld (create_user empty_db "alice").1 ∅ in reachable w /\ site_ok w.
Proof.
  assert (Hr : reachable (mkWorld (create_user empty_db "alice").1 ∅)).
  { eapply star_step; [|apply star_refl]. apply (StepSignup init "alice"). reflexivity. }
  split; [exact Hr|]. exact (reachable_site_ok _ Hr).
Defined.

(** ** Redirects resolve *)

Lemma split_path_nonnil s : split_path s <> [].
Proof. destruct s as [|c r]; cbn; [done|]. destruct (split_path r); [done|]. by case_match. Qed.

Lemma split_path_slash t : split_path (String "/" t) = "" :: split_path t.
Proof. cbn. destruct (split_path t) eqn:E; [by apply split_path_nonnil in E|done]. Qed.

(** A prefix without [/] extends the first segment. *)
Lemma split_path_app s t :
  no_slash s = true ->
  split_path (s +:+ t) = match split_path t with [] => [] | seg :: segs => (s +:+ seg) :: segs end.
Proof.
  induction s as [|c r IH]; intros Hs.
  - change ("" +:+ t) with t. destruct (split_path t); [done|]. by change ("" +:+ s) with s.
  - change (String c r +:+ t) with (String c (r +:+ t)).
    cbn in Hs. apply andb_prop in Hs as [Hc Hr]. cbn. rewrite IH by done.
    destruct (split_path t) as [|seg segs] eqn:E; [by apply split_path_nonnil in E|].
    by destruct (is_slash c).
Qed.

Lemma split_path_no_slash s : Forall (fun seg => no_slash seg = true) (split_path s).
Proof.
  induction s as [|c r IH]; cbn; [by repeat constructor|].
  destruct (split_path r) as [|seg segs] eqn:E; [by apply split_path_nonnil in E|].
  apply Forall_cons in IH as [Hseg Hsegs].
  destruct (is_slash c) eqn:Hc; repeat constructor; try done.
  cbn. by rewrite Hc, Hseg.
Qed.

(** [reverse('posts:profile', args=[n])] resolves back to the profile of [n]. *)
Lemma resolve_url_profile n : segment_ok n = true -> resolve (url_profile n) = Some (RProfile n).
Proof.
  intros [Hne Hn]%andb_prop. apply bool_decide_eq_true in Hne. unfold resolve, url_profile.
  change ("/profile/" +:+ n +:+ "/") with (String "/" ("profile" +:+ String "/" (n +:+ String "/" ""))).
  rewrite split_path_slash, split_path_app by reflexivity.
  rewrite split_path_slash, split_path_app by done. rewrite split_path_slash.
  rewrite !string_app_nil_r. cbn. unfold conv_str. by rewrite bool_decide_true by done.
Qed.

(** [reverse('posts:post_detail', args=[pk])] resolves back to post [pk]. *)
Lemma resolve_url_post_detail pk : resolve (url_post_detail pk) = Some (RPostDetail pk).
Proof.
  destruct (PyInt.py_str_digits pk) as [Hne Hd].
  assert (Hs : no_slash (PyInt.py_str (Z.of_nat pk)) = true).
  { eapply PyInt.all_chars_impl; [|exact Hd]. intros c. unfold PyInt.is_digit, is_slash.
    intros ?%bool_decide_eq_true. apply negb_true_iff, bool_decide_eq_false. lia. }
  unfold resolve, url_post_detail.
  change ("/posts/" +:+ PyInt.py_str (Z.of_nat pk) +:+ "/")
    with (String "/" ("posts" +:+ String "/" (PyInt.py_str (Z.of_nat pk) +:+ String "/" ""))).
  rewrite split_path_slash, split_path_app by reflexivity.
  rewrite split_path_slash, split_path_app by done. rewrite split_path_slash.
  rewrite !string_app_nil_r. cbn. unfold conv_int. rewrite bool_decide_true, Hd by done. cbn.
  rewrite PyInt.py_int_py_str. cbn. by rewrite Nat2Z.id.
Qed.

Lemma resolve_args p r : resolve p = Some r -> route_args_ok r.
Proof.
  unfold resolve. pose proof (split_path_no_slash p) as Hs.
  destruct (split_path p) as [|s0 [|s1 [|s2 [|s3 [|s4 [|s5 l]]]]]]; cbn; try done.
  all: intros H; repeat (case_match; simplify_eq/=); try done.
  all: apply fmap_Some in H as (x & Hx & ->); cbn; try done.
  all: apply Forall_cons in Hs as [_ Hs]; apply Forall_cons in Hs as [_ Hs];
    apply Forall_cons in Hs as [Hslash _].
  all: unfold conv_slug, conv_str in Hx; case_match; simplify_eq/=.
  all: unfold segment_ok; rewrite Hslash, andb_true_r; by apply andb_prop in H as [-> _] || done.
Qed.

Lemma view_redirects r req db url db' :
  handle (view_of r req) db = (Redirect url, db') -> redirect_target r req url.
Proof.
  destruct r; cbn [view_of]; unfold index, group_posts, profile, post_detail, post_create,
    post_edit, add_comment, follow_index, profile_follow, profile_unfollow, paginate;
    intros H; run_view.
  all: first [left; split; [assumption|reflexivity]|right; cbn; eauto].
Qed.

(** ** Well-typed responses *)

(** Every view answers with a well-typed response. *)
Lemma view_typed r req db : response_typed (handle (view_of r req) db).1 = true.
Proof.
  destruct r; cbn [view_of]; unfold index, group_posts, profile, post_detail, post_create,
    post_edit, add_comment, follow_index, profile_follow, profile_unfollow, paginate; run_view.
  all: unfold response_typed, context_typed, context_template, index_context, group_context,
    profile_context, detail_context, create_context, edit_context, follow_context; cbn; try done.
  all: first [by eapply page_paginator_typed | apply comments_of_typed | by apply bool_decide_eq_true].
Qed.

(** Every page the cache holds is well typed. *)
Definition cache_typed (w : World) : Prop :=
  map_Forall (fun _ e => response_typed e.1 = true) (w_cache w).

Lemma dispatch_typed r req w :
  cache_typed w -> response_typed (dispatch r req w).1 = true /\ cache_typed (dispatch r req w).2.
Proof.
  intros Hc. pose proof (view_typed r req (w_db w)) as Hv.
  destruct r; cbn [dispatch]; try (destruct (handle _ _); by split).
  unfold index_cached. unfold cache_typed in *.
  destruct (cache_page_preserves (fun r => response_typed r = true) (1 * 20) "index_page" index
              req (w_cache w) (clock (w_db w)) (w_db w)) as [H1 H2];
    [intros db; apply (view_typed RIndex)|done|].
  destruct (cache_page _ _ _ _ _ _ _) as [[resp c] db]. cbn in *. by split.
Qed.

Lemma step_cache_typed w w' : cache_typed w -> step w w' -> cache_typed w'.
Proof.
  intros Hc Hstep. destruct Hstep as [r req w resp w' _ Hd| | | | |]; try done.
  - pose proof (dispatch_typed r req w Hc) as [_ H]. by rewrite Hd in H.
Qed.

(** The response of a request is its view's, or a page of the cache. *)
Lemma dispatch_response r req w :
  (dispatch r req w).1 = (handle (view_of r req) (w_db w)).1 \/
  exists k e, w_cache w !! k = Some ((dispatch r req w).1, e).
Proof.
  destruct r; cbn [dispatch]; try (left; by destruct (handle _ _)).
  unfold index_cached, cache_page. case_bool_decide; [|left; by destruct (handle _ _)].
  destruct (cache_get _ _ _) as [c|] eqn:Hc; [right|left; by destruct (bool_decide _)].
  cbn in Hc. case_match; [|done]. destruct p. case_bool_decide; simplify_eq. by eexists _, _.
Qed.

(** C31: every redirect the site answers with is the login page, sent
    to an anonymous visitor with [next] the full requested path, or
    lands, through the URL patterns, exactly on the route the view's
    [redirect(...)] names: the followed or unfollowed author's profile,
    the edited or commented post, the new post's author's profile.  The
    targets are [reverse(...)] of a path segment or a number, and
    [resolve] reads them back to that route. *)
Theorem serve_redirects_resolve req w url w' :
  session_ok (w_db w) req -> usernames_ok (w_db w) -> cache_ok w ->
  serve req w = (Redirect url, w') ->
  (user req = None /\ url = login_redirect (full_path req)) \/
  exists r, resolve (path req) = Some r /\ redirect_route r req <> None /\
            resolve url = redirect_route r req.
Proof.
  intros Hs Hu Hc. unfold serve. destruct (resolve (path req)) as [r|] eqn:Hr; [|done].
  intros Hd. destruct (dispatch_response r req w) as [Hv|(k & e & Hk)];
    [rewrite Hd in Hv|rewrite Hd in Hk].
  - destruct (handle (view_of r req) (w_db w)) as [resp db'] eqn:Hh. cbn in Hv. subst resp.
    apply view_redirects in Hh as [Hl|Ht]; [by left|right]. exists r. split; [done|].
    apply resolve_args in Hr. destruct r; cbn in Ht, Hr |- *; try done; subst.
    + destruct Ht as (u & Hu' & ->). rewrite Hu'. split; [done|].
      apply resolve_url_profile, (Hu _ _ (Hs u Hu')).
    + split; [done|]. apply resolve_url_post_detail.
    + split; [done|]. apply resolve_url_post_detail.
    + split; [done|]. by apply resolve_url_profile.
    + split; [done|]. by apply resolve_url_profile.
  - by specialize (Hc _ _ Hk).
Qed.

Lemma serve_redirects_resolve_witness :
  (user (as_alice "/profile/bob/follow/") = None /\
   "/profile/bob/" = login_redirect (full_path (as_alice "/profile/bob/follow/"))) \/
  exists r, resolve "/profile/bob/follow/" = Some r /\
            redirect_route r (as_alice "/profile/bob/follow/") <> None /\
            resolve "/profile/bob/" = redirect_route r (as_alice "/profile/bob/follow/").
Proof.
  apply (serve_redirects_resolve (as_alice "/profile/bob/follow/") (mkWorld two_users ∅)
           "/profile/bob/" (mkWorld alice_follows_bob ∅)).
  - apply session_alice; reflexivity.
  - apply map_Forall_to_list. vm_compute. repeat constructor.
  - apply map_Forall_empty.
  - vm_compute. reflexivity.
Defined.



(** C27: every response the site serves from a reachable state is well
    typed, a cached index page included: a context dictionary reaches
    the template of its view, each [page_obj] is a page as
    [Paginator.page] builds it for its own number with 10 posts per page
    and [char_br] 200, the comments of a post page belong to the post,
    and the edit form is bound to the post it edits with [is_edit]
    set. *)
Theorem served_responses_typed w req : reachable w -> response_typed (serve req w).1 = true.
Proof.
  intros Hr. assert (Hc : cache_typed w).
  { eapply star_invariant; [apply step_cache_typed| |exact Hr]. apply map_Forall_empty. }
  unfold serve. destruct (resolve (path req)) as [r|]; [|done]. by apply dispatch_typed.
Qed.

Lemma served_responses_typed_witness :
  let w := mkWorld (create_user empty_db "alice").1 ∅ in
  reachable w /\ response_typed (serve (mkRequest GET "/profile/alice/" None [] [] []) w).1 = true.
Proof.
  assert (Hr : reachable (mkWorld (create_user empty_db "alice").1 ∅)).
  { eapply star_step; [|apply star_refl]. apply (StepSignup init "alice"). reflexivity. }
  split; [exact Hr|]. by apply served_responses_typed.
Defined.

End App.
