(* ===== verification/Scenarios.v ===== *)
(** * The test suite of the repository, run on the model

    Each test case of [posts/tests/] is a definition here: the fixture of
    its [setUpClass] is built with the model's ORM writes, the requests
    of the test client go through [App.serve] (the URL resolver, the
    index cache and the views) one after another on the same site, and
    the test's assertions are a boolean.  Django's [TestCase] rolls the
    database back after each test, so every test starts from its class
    fixture; [setUp] clears the cache where the test class does.

    The test client's [get(path, data)] and [post(path, data, files)]
    are [client_get] and [client_post]; [force_login(user)] makes the
    user the request's [user].  A [follow=True] request that ends on a
    page of the posts application is followed with [follow_redirect];
    a redirect to the login page (the [users] application, not
    modelled) is checked on its URL.  [response.content] is determined
    by the template and its context, so two contents are compared as the
    two responses.

    The theorem states that every assertion of the three test files
    holds in the model. *)

From S2P Require Import Prelude PyInt Paginator Models Http Forms Views Listings Follows Posting Cache App.

Module Scenarios.
Import Models Http Forms Paginator Views Listings Follows Posting Cache App.

(** ** The test client *)

Definition client_get (u : option User) (p : string) (q : QueryDict.t) : Request :=
  mkRequest GET p u q [] [].

Definition client_post (u : option User) (p : string) (data : QueryDict.t)
    (files : list (string * Upload)) : Request :=
  mkRequest POST p u [] data files.

(** A redirect inside the site is followed with a GET. *)
Definition follow_redirect (u : option User) (rw : Response Context * World)
    : Response Context * World :=
  match rw.1 with
  | Redirect url => serve (client_get u url []) rw.2
  | _ => rw
  end.

(** Requests made one after another on the same site. *)
Fixpoint serve_all (reqs : list Request) (w : World) : list (Response Context) * World :=
  match reqs with
  | [] => ([], w)
  | r :: rs =>
      let '(resp, w1) := serve r w in
      let '(resps, w2) := serve_all rs w1 in
      (resp :: resps, w2)
  end.

Definition template_of (r : Response Context) : option string :=
  match r with Render t _ => Some t | _ => None end.

(** [response.context['post']] of a detail page, [page_obj[0]] of a listing. *)
Definition first_post (r : Response Context) : option Post :=
  match r with
  | Render _ (DetailCtx p _ _ _) => Some p
  | _ => head (shown_posts r)
  end.

(** [assertRedirects(response, url)] on the first response. *)
Definition redirects_to (r : Response Context) (url : string) : bool :=
  bool_decide (r = Redirect url).

Definition status_is (n : nat) (r : Response Context) : bool :=
  bool_decide (status_code r = n).

(** [Model.objects.count()] *)
Definition post_count (db : DB) : nat := size (posts db).
Definition comment_count (db : DB) : nat := size (comments db).

(** A site with the database [db] and an empty cache ([cache.clear()]). *)
Definition site (db : DB) : World := mkWorld db ∅.

(** ** [test_urls.py]: [PostsURLTests] *)

Definition urls_fixture : DB * User * User * Group * Post :=
  let '(db, user) := create_user empty_db "test_user" in
  let '(db, not_author) := create_user db "test_user_not_author" in
  let '(db, grp) := create_group db "Тестовая группа" "test-slug" "Тестовое описание" in
  let '(db, post) := create_post db (user_pk user) "Тестовый пост тестового пользователя в тестовой группе"
                       (Some (group_pk grp)) None in
  (db, user, not_author, grp, post).

Definition test_urls_exists : bool :=
  let '(db, user, _, grp, post) := urls_fixture in
  let addresses := ["/"; "/group/" +:+ slug grp +:+ "/"; "/profile/" +:+ username user +:+ "/";
                    "/posts/" +:+ PyInt.py_str (Z.of_nat (post_pk post)) +:+ "/"] in
  let reqs := addresses ≫= fun a : string => [client_get None a []; client_get (Some user) a []] in
  forallb (status_is 200) (serve_all reqs (site db)).1.

Definition test_post_edit_url_exists : bool :=
  let '(db, user, not_author, _, post) := urls_fixture in
  let address := url_post_edit (post_pk post) in
  match (serve_all [client_get None address []; client_get (Some user) address [];
                    client_get (Some not_author) address []] (site db)).1 with
  | [guest; auth; other] =>
      redirects_to guest (LOGIN_URL +:+ "?next=" +:+ url_post_edit (post_pk post)) &&
      status_is 200 auth && redirects_to other (url_post_detail (post_pk post))
  | _ => false
  end.

Definition test_create_post_url_exists : bool :=
  let '(db, user, _, _, _) := urls_fixture in
  match (serve_all [client_get None "/create/" []; client_get (Some user) "/create/" []]
           (site db)).1 with
  | [guest; auth] => redirects_to guest "/auth/login/?next=/create/" && status_is 200 auth
  | _ => false
  end.

Definition test_404_error_return_for_unexisting_page : bool :=
  let '(db, user, _, _, _) := urls_fixture in
  forallb (status_is 404)
    (serve_all [client_get None "/something_page/" [];
                client_get (Some user) "/something_page/" []] (site db)).1.

Definition test_urls_uses_correct_template : bool :=
  let '(db, user, _, grp, post) := urls_fixture in
  let pk := PyInt.py_str (Z.of_nat (post_pk post)) in
  let expected :=
    [("/", "posts/index.html"); ("/group/" +:+ slug grp +:+ "/", "posts/group_list.html");
     ("/profile/" +:+ username user +:+ "/", "posts/profile.html");
     ("/posts/" +:+ pk +:+ "/", "posts/post_detail.html");
     ("/posts/" +:+ pk +:+ "/edit/", "posts/create_post.html");
     ("/create/", "posts/create_post.html")] in
  let resps := (serve_all ((fun e => client_get (Some user) e.1 []) <$> expected) (site db)).1 in
  bool_decide (template_of <$> resps = Some <$> expected.*2).

(** ** [test_views.py]: [PostsViewsTests] *)

Definition TEST_POST_TEXT : string := "Тестовый пост тестового пользователя.".

Definition views_fixture : DB * User * Group * Group * Post :=
  let '(db, user) := create_user empty_db "test_user" in
  let '(db, g1) := create_group db "Тестовая группа 1" "test-slug-1" "Тестовое описание группы 1" in
  let '(db, g2) := create_group db "Тестовая группа 2" "test-slug-2" "Тестовое описание группы 2" in
  let '(db, post) := create_post db (user_pk user) TEST_POST_TEXT (Some (group_pk g1))
                       (Some "posts/small.gif") in
  (db, user, g1, g2, post).

Definition test_posts_urls_uses_correct_templates : bool :=
  let '(db, user, g1, _, post) := views_fixture in
  let expected :=
    [(url_index, "posts/index.html"); (url_group_list (slug g1), "posts/group_list.html");
     (url_profile (username user), "posts/profile.html");
     (url_post_detail (post_pk post), "posts/post_detail.html");
     (url_post_create, "posts/create_post.html");
     (url_post_edit (post_pk post), "posts/create_post.html")] in
  let resps := (serve_all ((fun e => client_get (Some user) e.1 []) <$> expected) (site db)).1 in
  bool_decide (template_of <$> resps = Some <$> expected.*2).

Definition test_posts_create_edit_pages_show_correct_context : bool :=
  let '(db, user, _, _, post) := views_fixture in
  let urls := [url_post_create; url_post_edit (post_pk post)] in
  let expected := [("text", CharField); ("group", ChoiceField)] in
  forallb (fun r =>
    match r with
    | Render _ (CreateCtx form) | Render _ (EditCtx form _ _) =>
        forallb (fun e => match form_field form e.1 with
                          | Some c => isinstance c e.2
                          | None => false
                          end) expected
    | _ => false
    end) (serve_all ((fun u => client_get (Some user) u []) <$> urls) (site db)).1.

Definition test_posts_main_pages_show_correct_context : bool :=
  let '(db, user, g1, _, post) := views_fixture in
  let urls := [url_index; url_group_list (slug g1); url_profile (username user);
               url_post_detail (post_pk post)] in
  let resps := (serve_all ((fun u => client_get (Some user) u []) <$> urls) (site db)).1 in
  forallb (fun r =>
    match first_post r with
    | Some p =>
        bool_decide (p = post) &&
        bool_decide (username <$> users db !! author p = Some "test_user") &&
        bool_decide ((group p ≫= fun g => title <$> groups db !! g) = Some "Тестовая группа 1") &&
        bool_decide (text p = TEST_POST_TEXT) && bool_decide (image p = image post) &&
        bool_decide (length (author_posts_of db (author p)) = post_count db)
    | None => false
    end) resps && bool_decide (length resps = 4).

Definition test_posts_correct_appear : bool :=
  let '(db, user, g1, _, post) := views_fixture in
  let urls := [url_index; url_group_list (slug g1); url_profile (username user)] in
  forallb (fun r => bool_decide (post ∈ shown_posts r))
    (serve_all ((fun u => client_get (Some user) u []) <$> urls) (site db)).1.

Definition test_posts_correct_not_appear : bool :=
  let '(db, user, _, g2, post) := views_fixture in
  let r := (serve (client_get (Some user) (url_group_list (slug g2)) []) (site db)).1 in
  bool_decide (post ∉ shown_posts r).

Definition test_posts_index_cache : bool :=
  let '(db, user, g1, _, _) := views_fixture in
  let '(db, test_post) := create_post db (user_pk user) TEST_POST_TEXT (Some (group_pk g1)) None in
  let get_index := client_get (Some user) url_index [] in
  let '(r1, w) := serve get_index (site db) in
  let w := mkWorld (delete_post (w_db w) (post_pk test_post)) (w_cache w) in
  let '(r2, w) := serve get_index w in
  let w := mkWorld (w_db w) (cache_clear (w_cache w)) in
  let '(r3, _) := serve get_index w in
  bool_decide (r1 = r2) && bool_decide (r2 <> r3).

(** ** [test_views.py]: [PaginatorViewsTest] *)

Definition paginator_fixture : DB * User * Group :=
  let '(db, user) := create_user empty_db "test_user" in
  let '(db, grp) := create_group db "Тестовая группа" "test-slug" "Тестовое описание группы" in
  let db := foldl (fun db i =>
              (create_post db (user_pk user) ("Тестовый пост " +:+ PyInt.py_str (Z.of_nat (i + 1)))
                 (Some (group_pk grp)) None).1) db (seq 0 13) in
  (db, user, grp).

Definition test_index_correct_paginator_work : bool :=
  let '(db, user, grp) := paginator_fixture in
  let urls := [url_index; url_group_list (slug grp); url_profile (username user)] in
  let reqs := urls ≫= fun u : string =>
                [client_get (Some user) u []; client_get (Some user) u [("page", "2")]] in
  bool_decide ((fun r => length (shown_posts r)) <$> (serve_all reqs (site db)).1 =
               [10; 3; 10; 3; 10; 3]).

Definition test_paginator_show_correct_context : bool :=
  let '(db, user, grp) := paginator_fixture in
  let resps := (serve_all [client_get (Some user) url_index [];
                           client_get (Some user) (url_group_list (slug grp)) []] (site db)).1 in
  forallb (fun r => forallb (fun p =>
      bool_decide (username <$> users db !! author p = Some "test_user") &&
      bool_decide ((group p ≫= fun g => title <$> groups db !! g) = Some "Тестовая группа") &&
      bool_decide (text p = "Тестовый пост " +:+ PyInt.py_str (Z.of_nat (post_pk p))))
    (shown_posts r)) resps.

(** ** [test_views.py]: [FollowTests] *)

Definition follow_fixture : DB * User * User :=
  let '(db, user) := create_user empty_db "test_user" in
  let '(db, author) := create_user db "test_author" in
  (db, user, author).

Definition test_posts_follow : bool :=
  let '(db, user, author) := follow_fixture in
  let c1 := follow_count db (user_pk user) (user_pk author) in
  let '(_, w) := serve (client_get (Some user) (url_profile_follow (username author)) []) (site db) in
  bool_decide (c1 + 1 = follow_count (w_db w) (user_pk user) (user_pk author)).

Definition test_posts_unfollow : bool :=
  let '(db, user, author) := follow_fixture in
  let db := (create_follow db (user_pk user) (user_pk author)).1 in
  let c1 := follow_count db (user_pk user) (user_pk author) in
  let '(_, w) := serve (client_get (Some user) (url_profile_unfollow (username author)) []) (site db) in
  bool_decide (c1 - 1 = follow_count (w_db w) (user_pk user) (user_pk author)).

Definition test_posts_follow_correct_appear : bool :=
  let '(db, user, author) := follow_fixture in
  let '(db, post) := create_post db (user_pk author) TEST_POST_TEXT None None in
  let '(r1, w) := serve (client_get (Some user) url_follow_index []) (site db) in
  let w := mkWorld (create_follow (w_db w) (user_pk user) (user_pk author)).1 (w_cache w) in
  let '(r2, _) := serve (client_get (Some user) url_follow_index []) w in
  bool_decide (post ∉ shown_posts r1) && bool_decide (post ∈ shown_posts r2).

Definition test_posts_follow_yourself : bool :=
  let '(db, _, author) := follow_fixture in
  let c1 := follow_count db (user_pk author) (user_pk author) in
  let '(_, w) := serve (client_get (Some author) (url_profile_follow (username author)) []) (site db) in
  bool_decide (c1 = follow_count (w_db w) (user_pk author) (user_pk author)).

(** ** [test_forms.py]: [PostsFormsTests] *)

Definition forms_fixture : DB * User * Group * Post :=
  let '(db, user) := create_user empty_db "test_user" in
  let '(db, grp) := create_group db "Тестовая группа" "test-slug" "Тестовое описание" in
  let '(db, post) := create_post db (user_pk user) "Тестовый пост тестового пользователя в тестовой группе"
                       (Some (group_pk grp)) None in
  (db, user, grp, post).

Definition test_posts_create_post : bool :=
  let '(db, user, grp, _) := forms_fixture in
  let n := post_count db in
  let data := [("text", "Тестовый пост"); ("group", PyInt.py_str (Z.of_nat (group_pk grp)))] in
  let '(r, w) := serve (client_post (Some user) url_post_create data
                          [("image", mkUpload "small.gif" true)]) (site db) in
  redirects_to r (url_profile (username user)) && bool_decide (post_count (w_db w) = S n) &&
  bool_decide (Exists (fun p => text p = "Тестовый пост" /\ group p = Some (group_pk grp) /\
                                author p = user_pk user /\ image p = Some "posts/small.gif")
                 (table_rows (posts (w_db w)))).

Definition test_posts_edit_post : bool :=
  let '(db, user, grp, post) := forms_fixture in
  let n := post_count db in
  let data := [("text", "Изменённый тестовый пост"); ("group", PyInt.py_str (Z.of_nat (group_pk grp)))] in
  let '(_, w) := serve (client_post (Some user) (url_post_edit (post_pk post)) data []) (site db) in
  bool_decide (post_count (w_db w) = n) &&
  bool_decide (text <$> posts (w_db w) !! post_pk post = Some "Изменённый тестовый пост").

Definition test_posts_comments_by_auth_client : bool :=
  let '(db, user, _, post) := forms_fixture in
  let n := comment_count db in
  let data := [("text", "Тестовый комментарий под тестовым постом")] in
  let page := url_add_comment (post_pk post) in
  let '(guest, w) := serve (client_post None page data []) (site db) in
  let ok_guest := redirects_to guest (LOGIN_URL +:+ "?next=" +:+ page) &&
                  bool_decide (comment_count (w_db w) = n) in
  let '(auth, w) := serve (client_post (Some user) page data []) w in
  let ok_auth := redirects_to auth (url_post_detail (post_pk post)) &&
                 bool_decide (comment_count (w_db w) = S n) in
  match (follow_redirect (Some user) (auth, w)).1 with
  | Render _ (DetailCtx _ _ _ (c :: _)) =>
      ok_guest && ok_auth && bool_decide (comment_text c = "Тестовый комментарий под тестовым постом") &&
      bool_decide (comment_post c = post_pk post) && bool_decide (comment_author c = user_pk user)
  | _ => false
  end.

(** ** Properties *)

(** Every assertion of the three test modules holds in the model.
    [test_urls.py]: the public pages answer 200 to guests and users,
    the edit page sends a guest to the login page, renders for the
    author and sends another user to the post, the create page sends a
    guest to [/auth/login/?next=/create/], an unknown path is a 404 and
    each path renders its template.  [test_views.py]: templates and
    contexts of the pages, the classes of the form fields of the create
    and edit pages, a post appears on the index, its group and its
    author's profile and not on another group, the index is cached until
    [cache.clear()], 13 posts give pages of 10 and 3, and following,
    unfollowing, the feed and the refused self follow behave as the
    tests expect.  [test_forms.py]: a valid post form with an image
    creates one post and redirects to the author's profile, a valid edit
    changes the text without adding a post, and a comment by a guest is
    refused with a redirect to the login page while a comment by a user
    adds one comment, shown first on the post's page. *)
Theorem test_suite_pass :
  Forall (fun t => t = true)
    [test_urls_exists; test_post_edit_url_exists; test_create_post_url_exists;
     test_404_error_return_for_unexisting_page; test_urls_uses_correct_template;
     test_posts_urls_uses_correct_templates; test_posts_main_pages_show_correct_context;
     test_posts_create_edit_pages_show_correct_context;
     test_posts_correct_appear; test_posts_correct_not_appear; test_posts_index_cache;
     test_index_correct_paginator_work; test_paginator_show_correct_context;
     test_posts_follow; test_posts_unfollow; test_posts_follow_correct_appear;
     test_posts_follow_yourself;
     test_posts_create_post; test_posts_edit_post; test_posts_comments_by_auth_client].
Proof. vm_compute. repeat constructor. Qed.

End Scenarios.
