(* ===== verification/Concurrency.v ===== *)
(** * Interleaved follow and unfollow requests

    Each request is handled in its own request-response cycle, and the
    ORM runs each statement as its own transaction (autocommit), so two
    requests can interleave between the statements of [profile_follow]
    and [profile_unfollow].  [profile_follow] runs three statements:
    the author lookup ([views.py] line 130), the existence check (lines
    132-135) and the insert (lines 136-140).  [profile_unfollow] runs
    three: the author lookup (line 146), the SELECT of
    [Follow.objects.get] and the DELETE of [.delete()] (line 147).
    [follow_stmt] and [unfollow_stmt] run one statement of one request;
    the local variables of a request between two statements are its
    phase ([Phase], [UPhase]).  A schedule says which request runs its
    next statement; the scheduler of the section [Scheduler] is generic
    in the two requests.

    The theorems: a request run alone, statement by statement, is the
    view of [Follows.v]; a schedule that runs one request after the
    other gives what the two atomic requests give; the schedule in which
    two follow requests both check before either inserts leaves two
    follow rows for the pair, which breaks the uniqueness the store
    invariant [wf] asks for (the spec relies on a database constraint
    that the repository does not declare), while a follow racing an
    unfollow keeps the store well formed under every schedule; the
    scheduler terminates when each request's statements decrease a
    measure (each request here runs at most three statements).  What duplicate rows do to
    [profile_unfollow] is in [Follows.v]. *)

From S2P Require Import Prelude PyInt Paginator Models Http Forms Views Follows.

Module Concurrency.
Import Models Http Views Follows.

(** ** The statements of the two views *)

(** The local state of a [profile_follow] request between its statements. *)
Inductive Phase :=
| Start
| GotAuthor (u a : User)
| Checked (u a : User) (following_exists : bool)
| Finished (r : Response Context).

(** One statement of [profile_follow], on the database as it is now. *)
Definition follow_stmt (req : Request) (name : string) (ph : Phase) (db : DB) : Phase * DB :=
  match ph with
  | Start =>
      match user req with
      | None => (Finished (Redirect (login_redirect (full_path req))), db)
      | Some u =>
          match user_by_username db name with
          | Ok a => (GotAuthor u a, db)
          | Err DoesNotExist => (Finished NotFound, db)
          | Err MultipleObjectsReturned => (Finished ServerError, db)
          end
      end
  | GotAuthor u a => (Checked u a (follow_exists db (user_pk u) (user_pk a)), db)
  | Checked u a ex =>
      (Finished (Redirect (url_profile name)),
       if bool_decide (user_pk u <> user_pk a) && negb ex
       then (create_follow db (user_pk u) (user_pk a)).1 else db)
  | Finished r => (Finished r, db)
  end.

(** The local state of a [profile_unfollow] request between its
    statements: after the author lookup, after the SELECT of
    [Follow.objects.get], answered. *)
Inductive UPhase :=
| UStart
| UGotAuthor (u a : User)
| UFetched (u a : User) (f : Follow)
| UFinished (r : Response Context).

(** One statement of [profile_unfollow]: the [get] raises unless exactly
    one row matches; [delete()] removes the fetched row by its key, which
    deletes nothing when another request removed it meanwhile. *)
Definition unfollow_stmt (req : Request) (name : string) (ph : UPhase) (db : DB) : UPhase * DB :=
  match ph with
  | UStart =>
      match user req with
      | None => (UFinished (Redirect (login_redirect (full_path req))), db)
      | Some u =>
          match user_by_username db name with
          | Ok a => (UGotAuthor u a, db)
          | Err DoesNotExist => (UFinished NotFound, db)
          | Err MultipleObjectsReturned => (UFinished ServerError, db)
          end
      end
  | UGotAuthor u a =>
      match get_one (follows_of db (user_pk u) (user_pk a)) with
      | Ok f => (UFetched u a f, db)
      | Err _ => (UFinished ServerError, db)
      end
  | UFetched u a f => (UFinished (Redirect (url_profile name)), delete_follow db f)
  | UFinished r => (UFinished r, db)
  end.

(** A request has answered. *)
Definition finished (ph : Phase) : bool :=
  match ph with Finished _ => true | _ => false end.
Definition ufinished (ph : UPhase) : bool :=
  match ph with UFinished _ => true | _ => false end.

(** The statements a request has left to run. *)
Definition remaining (ph : Phase) : nat :=
  match ph with Start => 3 | GotAuthor _ _ => 2 | Checked _ _ _ => 1 | Finished _ => 0 end.
Definition uremaining (ph : UPhase) : nat :=
  match ph with UStart => 3 | UGotAuthor _ _ => 2 | UFetched _ _ _ => 1 | UFinished _ => 0 end.

(** [n] statements of one request. *)
Fixpoint run_stmts {P} (stmt : P -> DB -> P * DB) (n : nat) (ph : P) (db : DB) : P * DB :=
  match n with
  | 0 => (ph, db)
  | S n => let '(ph', db') := stmt ph db in run_stmts stmt n ph' db'
  end.

(** ** Two requests and a scheduler *)

(** Two requests, each with its phase. *)
Record Threads (P1 P2 : Type) := mkThreads { phase1 : P1; phase2 : P2 }.
Arguments mkThreads {P1 P2} _ _.
Arguments phase1 {P1 P2} _.
Arguments phase2 {P1 P2} _.

Section Scheduler.
Context {P1 P2 : Type} (stmt1 : P1 -> DB -> P1 * DB) (stmt2 : P2 -> DB -> P2 * DB).
Context (done1 : P1 -> bool) (done2 : P2 -> bool).

(** Run a schedule: [false] runs the next statement of the first
    request, [true] that of the second. *)
Fixpoint interleave (sched : list bool) (ts : Threads P1 P2) (db : DB) : Threads P1 P2 * DB :=
  match sched with
  | [] => (ts, db)
  | false :: s =>
      let '(p, db') := stmt1 (phase1 ts) db in interleave s (mkThreads p (phase2 ts)) db'
  | true :: s =>
      let '(p, db') := stmt2 (phase2 ts) db in interleave s (mkThreads (phase1 ts) p) db'
  end.

(** The scheduler runs the next statement of a request that has not
    answered yet. *)
Inductive tstep : Threads P1 P2 * DB -> Threads P1 P2 * DB -> Prop :=
| TStep1 ts db p db' :
    done1 (phase1 ts) = false -> stmt1 (phase1 ts) db = (p, db') ->
    tstep (ts, db) (mkThreads p (phase2 ts), db')
| TStep2 ts db p db' :
    done2 (phase2 ts) = false -> stmt2 (phase2 ts) db = (p, db') ->
    tstep (ts, db) (mkThreads (phase1 ts) p, db').

(** No infinite run, and a state where no statement can run is one where
    both requests have answered. *)
Definition terminates : Prop :=
  well_founded (fun s' s => tstep s s') /\
  forall s, (forall s', ~ tstep s s') -> done1 (phase1 s.1) = true /\ done2 (phase2 s.1) = true.

Lemma interleave_app s s' ts db :
  interleave (s ++ s') ts db = let '(ts', db') := interleave s ts db in interleave s' ts' db'.
Proof.
  revert ts db. induction s as [|[] s IH]; intros ts db; [done|..]; cbn;
    [destruct (stmt2 _ _)|destruct (stmt1 _ _)]; apply IH.
Qed.

Lemma interleave_first k ph ph2 db :
  interleave (replicate k false) (mkThreads ph ph2) db =
  let '(ph', db') := run_stmts stmt1 k ph db in (mkThreads ph' ph2, db').
Proof.
  revert ph db. induction k as [|k IH]; intros ph db; [done|]. cbn.
  destruct (stmt1 _ _). apply IH.
Qed.

Lemma interleave_second k ph1 ph db :
  interleave (replicate k true) (mkThreads ph1 ph) db =
  let '(ph', db') := run_stmts stmt2 k ph db in (mkThreads ph1 ph', db').
Proof.
  revert ph db. induction k as [|k IH]; intros ph db; [done|]. cbn.
  destruct (stmt2 _ _). apply IH.
Qed.

(** Three statements of the first request, then three of the second. *)
Lemma interleave_serial ph1 ph2 db ph1' db1 ph2' db2 :
  run_stmts stmt1 3 ph1 db = (ph1', db1) -> run_stmts stmt2 3 ph2 db1 = (ph2', db2) ->
  interleave [false; false; false; true; true; true] (mkThreads ph1 ph2) db =
  (mkThreads ph1' ph2', db2).
Proof.
  intros H1 H2. change [false; false; false; true; true; true]
    with (replicate 3 false ++ replicate 3 true).
  by rewrite interleave_app, interleave_first, H1, interleave_second, H2.
Qed.

(** A property of states that every statement of either request keeps
    holds after every schedule. *)
Lemma interleave_invariant (I : Threads P1 P2 * DB -> Prop) :
  (forall ts db, I (ts, db) ->
     I (mkThreads (stmt1 (phase1 ts) db).1 (phase2 ts), (stmt1 (phase1 ts) db).2)) ->
  (forall ts db, I (ts, db) ->
     I (mkThreads (phase1 ts) (stmt2 (phase2 ts) db).1, (stmt2 (phase2 ts) db).2)) ->
  forall sched ts db, I (ts, db) -> I (interleave sched ts db).
Proof.
  intros H1 H2 sched. induction sched as [|[] s IH]; intros ts db HI; [done|..]; cbn.
  - specialize (H2 _ _ HI). destruct (stmt2 _ _). by apply IH.
  - specialize (H1 _ _ HI). destruct (stmt1 _ _). by apply IH.
Qed.

Context (measure1 : P1 -> nat) (measure2 : P2 -> nat).
Hypothesis progress1 : forall ph db, done1 ph = false -> measure1 (stmt1 ph db).1 < measure1 ph.
Hypothesis progress2 : forall ph db, done2 ph = false -> measure2 (stmt2 ph db).1 < measure2 ph.

(** Each statement brings its request closer to its answer, so the
    scheduler terminates, and only with both requests answered. *)
Lemma scheduler_terminates : terminates.
Proof.
  split.
  - apply (wf_projected (<) (fun s : Threads P1 P2 * DB =>
                                measure1 (phase1 s.1) + measure2 (phase2 s.1)));
      [|apply lt_wf].
    intros s' s Hs. destruct Hs as [ts db p db' Hf Hst|ts db p db' Hf Hst]; cbn.
    + pose proof (progress1 _ db Hf) as Hp. rewrite Hst in Hp. cbn in Hp. lia.
    + pose proof (progress2 _ db Hf) as Hp. rewrite Hst in Hp. cbn in Hp. lia.
  - intros [ts db] Hstuck. cbn. split.
    + destruct (done1 (phase1 ts)) eqn:Hf; [done|]. exfalso.
      destruct (stmt1 (phase1 ts) db) eqn:Hst. eapply Hstuck, TStep1; eauto.
    + destruct (done2 (phase2 ts)) eqn:Hf; [done|]. exfalso.
      destruct (stmt2 (phase2 ts) db) eqn:Hst. eapply Hstuck, TStep2; eauto.
Qed.

End Scheduler.

(** ** Lemmas on the two views' statements *)

Lemma follow_stmt_progress req name ph db :
  finished ph = false -> remaining (follow_stmt req name ph db).1 < remaining ph.
Proof. destruct ph; cbn; [|lia|lia|done]. intros _. repeat case_match; cbn; lia. Qed.

Lemma unfollow_stmt_progress req name ph db :
  ufinished ph = false -> uremaining (unfollow_stmt req name ph db).1 < uremaining ph.
Proof. destruct ph; cbn; [| |lia|done]; intros _; repeat case_match; cbn; lia. Qed.

(** A follow request run alone for its three statements is the view. *)
Lemma follow_stmts_run req name db :
  let '(r, db') := handle (profile_follow req name) db in
  run_stmts (follow_stmt req name) 3 Start db = (Finished r, db').
Proof.
  destruct (user req) as [u|] eqn:Hu.
  2: { unfold handle, profile_follow. rewrite login_required_anon by done.
       cbn. by rewrite Hu. }
  destruct (user_by_username db name) as [a|[]] eqn:Ha.
  - rewrite (profile_follow_run req name db u a) by done. cbn. by rewrite Hu, Ha.
  - unfold handle, profile_follow. rewrite (login_required_user _ _ u), bind_get_db, Ha by done.
    cbn. by rewrite Hu, Ha.
  - unfold handle, profile_follow. rewrite (login_required_user _ _ u), bind_get_db, Ha by done.
    cbn. by rewrite Hu, Ha.
Qed.

(** An unfollow request run alone for its three statements is the view. *)
Lemma unfollow_stmts_run req name db :
  let '(r, db') := handle (profile_unfollow req name) db in
  run_stmts (unfollow_stmt req name) 3 UStart db = (UFinished r, db').
Proof.
  destruct (user req) as [u|] eqn:Hu.
  2: { unfold handle, profile_unfollow. rewrite login_required_anon by done.
       cbn. by rewrite Hu. }
  destruct (user_by_username db name) as [a|[]] eqn:Ha.
  - rewrite (profile_unfollow_run req name db u a) by done. cbn. rewrite Hu, Ha. cbn.
    by destruct (get_one _).
  - unfold handle, profile_unfollow. rewrite (login_required_user _ _ u), bind_get_db, Ha by done.
    cbn. by rewrite Hu, Ha.
  - unfold handle, profile_unfollow. rewrite (login_required_user _ _ u), bind_get_db, Ha by done.
    cbn. by rewrite Hu, Ha.
Qed.

(** A new follow row adds one to the pair's count. *)
Lemma follow_count_create db u a :
  follows db !! next_follow db = None ->
  follow_count (create_follow db u a).1 u a = S (follow_count db u a).
Proof.
  intros Hfresh. unfold follow_count, follows_of, table_rows. cbn [create_follow fst follows with_follows].
  rewrite map_to_list_insert by done. cbn.
  rewrite decide_True; [done|]. apply bool_decide_pack. tauto.
Qed.

(** What a [profile_follow] request knows between its statements, on a
    database whose users are those of [db0]: its user and author are
    rows, and once it has found the pair unfollowed the pair stays
    unfollowed until it inserts. *)
Definition follow_ok (db0 : DB) (req : Request) (ph : Phase) (db : DB) : Prop :=
  match ph with
  | Start => session_ok db0 req
  | GotAuthor u a => is_Some (users db0 !! user_pk u) /\ is_Some (users db0 !! user_pk a)
  | Checked u a ex =>
      is_Some (users db0 !! user_pk u) /\ is_Some (users db0 !! user_pk a) /\
      (ex = false -> follow_exists db (user_pk u) (user_pk a) = false)
  | Finished _ => True
  end.

(** The state of a follow request racing an unfollow request. *)
Definition race_ok (db0 : DB) (req : Request) (s : Threads Phase UPhase * DB) : Prop :=
  wf s.2 /\ users s.2 = users db0 /\ follow_ok db0 req (phase1 s.1) s.2.

Lemma follow_stmt_race_ok db0 req1 n1 ts db :
  race_ok db0 req1 (ts, db) ->
  race_ok db0 req1 (mkThreads (follow_stmt req1 n1 (phase1 ts) db).1 (phase2 ts),
                    (follow_stmt req1 n1 (phase1 ts) db).2).
Proof.
  unfold race_ok. cbn [fst snd phase1]. intros (Hwf & Hus & Hok).
  destruct (phase1 ts) as [|u a|u a ex|r]; cbn [follow_stmt follow_ok fst snd] in *.
  - destruct (user req1) as [u|] eqn:Hu; [|done].
    destruct (user_by_username db n1) as [a|[]] eqn:Ha; cbn; try done.
    split_and!; [done|done|eexists; by apply Hok|rewrite <-Hus; eexists; by eapply author_in_users].
  - naive_solver.
  - destruct Hok as (Hu & Ha & Hex). split_and!; [|by case_match|done].
    destruct (bool_decide _ && negb ex) eqn:Hc; [|done].
    apply andb_true_iff in Hc as [_ Hc]. apply negb_true_iff in Hc.
    apply wf_create_follow; rewrite ?Hus; auto.
  - done.
Qed.

Lemma unfollow_stmt_race_ok db0 req1 req2 n2 ts db :
  race_ok db0 req1 (ts, db) ->
  race_ok db0 req1 (mkThreads (phase1 ts) (unfollow_stmt req2 n2 (phase2 ts) db).1,
                    (unfollow_stmt req2 n2 (phase2 ts) db).2).
Proof.
  unfold race_ok. cbn [fst snd phase1]. intros (Hwf & Hus & Hok).
  assert (Hdel : forall f, race_ok db0 req1 (ts, delete_follow db f)).
  { intros f. unfold race_ok. cbn [fst snd]. split_and!; [by apply wf_delete_follow|done|].
    destruct (phase1 ts); cbn in *; try done.
    destruct Hok as (? & ? & Hex). split_and!; [done|done|].
    intros ->. by apply follow_exists_delete_mono, Hex. }
  destruct (phase2 ts) as [|u a|u a f|r]; cbn [unfollow_stmt fst snd];
    [repeat case_match|case_match|apply Hdel|]; by split_and!.
Qed.

(** ** Properties *)

(** A schedule that runs one request to its end and then the other
    gives the responses and the database of the two atomic views run one
    after the other, for two follow requests and for a follow request
    and an unfollow request: the statement-level model refines the
    request-level one. *)
Theorem serial_schedule_atomic req1 n1 req2 n2 db :
  (let '(r1, db1) := handle (profile_follow req1 n1) db in
   let '(r2, db2) := handle (profile_follow req2 n2) db1 in
   interleave (follow_stmt req1 n1) (follow_stmt req2 n2) [false; false; false; true; true; true]
     (mkThreads Start Start) db
   = (mkThreads (Finished r1) (Finished r2), db2)) /\
  (let '(r1, db1) := handle (profile_follow req1 n1) db in
   let '(r2, db2) := handle (profile_unfollow req2 n2) db1 in
   interleave (follow_stmt req1 n1) (unfollow_stmt req2 n2) [false; false; false; true; true; true]
     (mkThreads Start UStart) db
   = (mkThreads (Finished r1) (UFinished r2), db2)).
Proof.
  pose proof (follow_stmts_run req1 n1 db) as H1.
  destruct (handle (profile_follow req1 n1) db) as [r1 db1].
  pose proof (follow_stmts_run req2 n2 db1) as H2.
  pose proof (unfollow_stmts_run req2 n2 db1) as H3.
  destruct (handle (profile_follow req2 n2) db1) as [r2 db2].
  destruct (handle (profile_unfollow req2 n2) db1) as [r3 db3].
  split; by eapply interleave_serial.
Qed.

(** C29: the race.  Two requests of a user to follow an author they do
    not follow yet, scheduled so that both check [exists()] before
    either inserts, both redirect to the profile and leave two follow
    rows for the pair: the resulting store is not well formed. *)
Theorem follow_race_duplicates req1 n1 req2 n2 db u a :
  wf db -> user req1 = Some u -> user req2 = Some u ->
  user_by_username db n1 = Ok a -> user_by_username db n2 = Ok a ->
  user_pk u <> user_pk a -> follow_exists db (user_pk u) (user_pk a) = false ->
  let '(ts, db') := interleave (follow_stmt req1 n1) (follow_stmt req2 n2)
                      [false; false; true; true; false; true] (mkThreads Start Start) db in
  ts = mkThreads (Finished (Redirect (url_profile n1))) (Finished (Redirect (url_profile n2))) /\
  follow_count db' (user_pk u) (user_pk a) = 2 /\ ~ wf db'.
Proof.
  intros Hwf Hu1 Hu2 Ha1 Ha2 Hne Hnex. cbn [interleave follow_stmt phase1 phase2].
  rewrite Hu1, Ha1. cbn [interleave follow_stmt phase1 phase2]. rewrite Hu2, Ha2.
  cbn [interleave follow_stmt phase1 phase2]. rewrite Hnex, bool_decide_true by done.
  cbn [interleave follow_stmt phase1 phase2 negb andb].
  set (db1 := (create_follow db (user_pk u) (user_pk a)).1).
  assert (Hfresh : follows db !! next_follow db = None)
    by (eapply keys_ok_fresh, wf_follows, Hwf).
  assert (Hcount : follow_count (create_follow db1 (user_pk u) (user_pk a)).1
                     (user_pk u) (user_pk a) = 2).
  { rewrite follow_count_create.
    - unfold db1. rewrite follow_count_create by done.
      rewrite follow_count_exists, Hnex by done. done.
    - apply (keys_ok_fresh _ follow_pk). apply keys_ok_insert_fresh; [apply Hwf|done]. }
  split; [done|]. split; [done|]. intros Hwf'.
  rewrite follow_count_exists in Hcount by done. revert Hcount. case_match; discriminate.
Qed.

Lemma follow_race_duplicates_witness :
  let '(ts, db') := interleave (follow_stmt (as_alice "/profile/bob/follow/") "bob")
                      (follow_stmt (as_alice "/profile/bob/follow/") "bob")
                      [false; false; true; true; false; true] (mkThreads Start Start) two_users in
  ts = mkThreads (Finished (Redirect (url_profile "bob"))) (Finished (Redirect (url_profile "bob"))) /\
  follow_count db' 1 2 = 2 /\ ~ wf db'.
Proof.
  apply (follow_race_duplicates _ _ _ _ two_users alice bob).
  - apply wf_two_users.
  - reflexivity.
  - reflexivity.
  - vm_compute. reflexivity.
  - vm_compute. reflexivity.
  - simpl. lia.
  - vm_compute. reflexivity.
Defined.

(** C28: a follow request racing an unfollow request is safe: under
    every schedule of their statements the store stays well formed (at
    most one follow row per pair, foreign keys in place).  The unfollow
    only deletes, so a pair the follow request found unfollowed is still
    unfollowed when it inserts. *)
Theorem follow_unfollow_race_safe req1 n1 req2 n2 db sched :
  wf db -> session_ok db req1 ->
  wf (interleave (follow_stmt req1 n1) (unfollow_stmt req2 n2) sched (mkThreads Start UStart) db).2.
Proof.
  intros Hwf Hs.
  enough (race_ok db req1 (interleave (follow_stmt req1 n1) (unfollow_stmt req2 n2) sched
                             (mkThreads Start UStart) db)) as [? _] by done.
  apply interleave_invariant; [apply follow_stmt_race_ok|apply unfollow_stmt_race_ok|done].
Qed.

Lemma follow_unfollow_race_safe_witness :
  wf (interleave (follow_stmt (as_alice "/profile/bob/follow/") "bob")
        (unfollow_stmt (as_alice "/profile/bob/unfollow/") "bob")
        [false; false; true; true; false; true] (mkThreads Start UStart) two_users).2.
Proof.
  apply follow_unfollow_race_safe; [apply wf_two_users|].
  apply session_alice; reflexivity.
Defined.


End Concurrency.
