(* ===== verification/CreateRace.v ===== *)
(** * A post creation racing a group deletion

    [post_create] reads the database twice: [form.is_valid()] (line 73)
    runs the [ModelChoiceField] query that checks the chosen group
    exists, and [temp_form.save()] (line 76) inserts the post.  Each is
    its own statement, so an administrator deleting that group (the
    collector of [Migrations.v], run atomically) can come in between.
    The database then refuses the insert: the new row's [group_id] names
    no group, which the foreign key constraint forbids, and the
    [IntegrityError] is not caught by the view, so the answer is a 500.

    [create_stmt] runs one statement of a [post_create] request,
    [delete_group_stmt] the administrator's deletion; the scheduler is
    the one of [Concurrency.v].  The theorem lists the three schedules:
    either serial order gives an ordinary answer (the post is saved and
    then deleted with its group, or the form is shown again with the
    group error), and only the interleaved one gives the 500. *)

From S2P Require Import Prelude PyInt Paginator Models Http Forms Views Listings Follows Posting Concurrency.

Module CreateRace.
Import Models Http Forms Views Follows Posting Concurrency.

(** The local state of a [post_create] request between its statements:
    the cleaned data of a valid form, or the answer. *)
Inductive CPhase :=
| CStart
| CValidated (u : User) (c : PostCleaned)
| CFinished (r : Response Context).

(** [temp_form.save()]: the INSERT of the new post, refused by the
    database when its group key names no group. *)
Definition insert_post (db : DB) (c : PostCleaned) (auth : nat) : option DB :=
  match cleaned_group c with
  | Some g => match groups db !! g with Some _ => Some (save_new_post db c auth).1 | None => None end
  | None => Some (save_new_post db c auth).1
  end.

(** One statement of [post_create]. *)
Definition create_stmt (req : Request) (ph : CPhase) (db : DB) : CPhase * DB :=
  match ph with
  | CStart =>
      match user req with
      | None => (CFinished (Redirect (login_redirect (full_path req))), db)
      | Some u =>
          if bool_decide (method req = POST) then
            let form := PostForm_of req None in
            match valid_cleaned db form with
            | Some c => (CValidated u c, db)
            | None => (CFinished (Render "posts/create_post.html" (create_context form)), db)
            end
          else (CFinished (Render "posts/create_post.html" (create_context PostForm_empty)), db)
      end
  | CValidated u c =>
      match insert_post db c (user_pk u) with
      | Some db' => (CFinished (Redirect (url_profile (username u))), db')
      | None => (CFinished ServerError, db)
      end
  | CFinished r => (CFinished r, db)
  end.

(** The administrator's [group.delete()], one transaction. *)
Inductive GPhase :=
| GStart
| GDone.

Definition delete_group_stmt (gid : nat) (ph : GPhase) (db : DB) : GPhase * DB :=
  match ph with
  | GStart => (GDone, delete_group db gid)
  | GDone => (GDone, db)
  end.

(** ** Lemmas *)

(** A [post_create] request run alone for its two statements is the
    view: the group the form validated is still there when it inserts. *)
Lemma create_stmts_run req db :
  let '(r, db') := handle (post_create req) db in
  run_stmts (create_stmt req) 2 CStart db = (CFinished r, db').
Proof.
  destruct (user req) as [u|] eqn:Hu.
  2: { unfold handle, post_create. rewrite login_required_anon by done. cbn. by rewrite Hu. }
  rewrite (post_create_run req db u) by done.
  cbn [run_stmts create_stmt]. rewrite Hu. case_bool_decide; [|done].
  destruct (valid_cleaned db _) as [c|] eqn:Hc; [|done]. cbn [create_stmt].
  unfold insert_post. pose proof (valid_cleaned_refs _ _ _ Hc) as Hr.
  destruct (cleaned_group c) as [g|]; [|by destruct (save_new_post _ _ _)].
  destruct Hr as [x ->]. by destruct (save_new_post _ _ _).
Qed.

Lemma insert_post_deleted db c auth g :
  cleaned_group c = Some g -> insert_post (delete_group db g) c auth = None.
Proof. intros Hg. unfold insert_post. rewrite Hg. cbn. by rewrite lookup_delete_eq. Qed.

(** A request of alice that creates a post in the group with key 1. *)
Definition alice_posts_to_group : Request :=
  mkRequest POST "/create/" (Some alice) [] [("text", "hi"); ("group", "1")] [].

Definition group_db : DB := (create_group two_users "Cats" "cats" "about cats").1.

(** ** Properties *)

(** C12: a valid [post_create] request naming a group, racing the
    deletion of that group: run after the deletion, the form is shown
    again (the group is no longer a valid choice) and nothing is saved;
    run before it, the post is saved and the deletion then removes it
    with the group; interleaved, validating before the deletion and
    inserting after it, the insert is refused by the foreign key and the
    uncaught [IntegrityError] answers a 500, an outcome no serial order
    gives. *)
Theorem create_race_group_delete req db u c g :
  user req = Some u -> method req = POST ->
  valid_cleaned db (PostForm_of req None) = Some c -> cleaned_group c = Some g ->
  interleave (create_stmt req) (delete_group_stmt g) [false; true; false]
    (mkThreads CStart GStart) db
  = (mkThreads (CFinished ServerError) GDone, delete_group db g) /\
  interleave (create_stmt req) (delete_group_stmt g) [false; false; true]
    (mkThreads CStart GStart) db
  = (mkThreads (CFinished (Redirect (url_profile (username u)))) GDone,
     delete_group (save_new_post db c (user_pk u)).1 g) /\
  interleave (create_stmt req) (delete_group_stmt g) [true; false; false]
    (mkThreads CStart GStart) db
  = (mkThreads (CFinished (Render "posts/create_post.html" (create_context (PostForm_of req None))))
       GDone, delete_group db g).
Proof.
  intros Hu Hm Hc Hg. cbn [interleave create_stmt delete_group_stmt phase1 phase2].
  rewrite Hu, bool_decide_true, Hc by done.
  cbn [interleave create_stmt delete_group_stmt phase1 phase2].
  rewrite (valid_cleaned_group_gone db (delete_group db g) _ c g Hc Hg) by apply lookup_delete_eq.
  rewrite insert_post_deleted by done. split_and!; [done| |done].
  unfold insert_post. rewrite Hg. pose proof (valid_cleaned_refs _ _ _ Hc) as Hr.
  rewrite Hg in Hr. destruct Hr as [x ->]. done.
Qed.

Lemma create_race_group_delete_witness :
  interleave (create_stmt alice_posts_to_group) (delete_group_stmt 1) [false; true; false]
    (mkThreads CStart GStart) group_db
  = (mkThreads (CFinished ServerError) GDone, delete_group group_db 1).
Proof.
  destruct (create_race_group_delete alice_posts_to_group group_db alice
              (mkPostCleaned "hi" (Some 1) None) 1) as [H _];
    [reflexivity|reflexivity|vm_compute; reflexivity|reflexivity|exact H].
Defined.

End CreateRace.
